(** * CLUE baselines (XLNet): data preparation for sequence classification

    A shallow embedding of the dataset adapters, the batch aligner and the
    TFRecord writer / reader of

      - baselines/models/classifier_utils.py
      - baselines/models/xlnet/run_classifier.py

    Python lists are [list]s, Python [int]s are [Z], dictionaries and the
    record store are [gmap]s, exceptions are an explicit [result] type and
    in-place mutation is explicit state passing. *)

From Stdlib Require Import ZArith Lia Bool DecimalString DecimalZ.
From Stdlib Require Import Strings.String Strings.Ascii.
From stdpp Require Import gmap strings list fin_maps.

Local Open Scope Z_scope.

(** ** Python exceptions and results *)

Inductive exn : Type :=
  | IndexError
  | KeyError (key : string)
  | ValueError
  | TypeError
  | ZeroDivisionError
  | NotFoundError (path : string)
  | InvalidArgumentError (key : string)
  | TokenizationError
  | LabelNotFoundError.

Inductive result (A : Type) : Type :=
  | Ok (a : A)
  | Raise (e : exn).
Arguments Ok {A} a.
Arguments Raise {A} e.

#[global] Instance result_ret : MRet result := fun A a => Ok a.
#[global] Instance result_bind : MBind result := fun A B k r =>
  match r with
  | Ok a => k a
  | Raise e => Raise e
  end.
#[global] Instance result_fmap : FMap result := fun A B f r =>
  match r with
  | Ok a => Ok (f a)
  | Raise e => Raise e
  end.

(** ** Python values held by examples and JSON records *)

Inductive value : Type :=
  | VStr (s : string)
  | VInt (z : Z)
  | VBool (b : bool)
  | VNone.

#[global] Instance value_eq_dec : EqDecision value.
Proof. solve_decision. Defined.

(** [str(n)] of a Python [int]. *)
Definition str (n : Z) : string := NilZero.string_of_int (Z.to_int n).

(** ["%s-%s" % (set_type, i)] and ["train-%d" % (i)]. *)
Definition format_guid (set_type : string) (i : nat) : string :=
  set_type +:+ "-" +:+ str (Z.of_nat i).

(** [range(n)]. *)
Definition range (n : nat) : list Z := Z.of_nat <$> seq 0 n.

(** [l[i]] on a Python list: negative indices count from the end, an index
    out of range raises [IndexError]. *)
Definition py_index {A} (l : list A) (i : Z) : result A :=
  let n := Z.of_nat (length l) in
  let j := if i <? 0 then i + n else i in
  if (j <? 0) || (n <=? j) then Raise IndexError
  else match l !! Z.to_nat j with
       | Some x => Ok x
       | None => Raise IndexError
       end.

(** [d[key]] on a dictionary. *)
Definition py_getitem (d : gmap string value) (key : string) : result value :=
  match d !! key with
  | Some v => Ok v
  | None => Raise (KeyError key)
  end.

(** What [json.loads] gives for a line of a JSON-lines file: an object, or
    another JSON value (an array, a string, a number, a boolean or null). *)
Inductive json : Type :=
  | JObject (d : gmap string value)
  | JOther.

(** [line[key]] with a string for [key]: a [dict] is looked up, any other
    JSON value raises [TypeError]. *)
Definition py_subscript (line : json) (key : string) : result value :=
  match line with
  | JObject d => py_getitem d key
  | JOther => Raise TypeError
  end.

(** [for (i, x) in enumerate(l): body], the loop state threaded through;
    an exception in the body ends the loop. *)
Fixpoint for_enumerate {A St} (body : nat -> A -> St -> result St)
    (i : nat) (l : list A) (s : St) : result St :=
  match l with
  | [] => Ok s
  | x :: l' => s' ← body i x s; for_enumerate body (S i) l' s'
  end.

(** [InputExample(guid, text_a, text_b=None, label=None)]. *)
Record InputExample : Type := mkInputExample {
  guid : string;
  text_a : value;
  text_b : value;
  label : value
}.

(** The elements of an example list: a real [InputExample] or the
    [PaddingInputExample()] sentinel, a class of its own. *)
Inductive example : Type :=
  | Real (e : InputExample)
  | PaddingInputExample.

(** ** Floating-point numbers

    Python floats and [tf.float32] values are kept abstract: only the
    conversions the writer performs are named. *)
Class FloatModel : Type := {
  pyfloat : Type;
  float32 : Type;
  float32_of_int : Z -> float32;
  float32_of_float : pyfloat -> float32;
  float_of_int : Z -> pyfloat
}.

(** A Python number: an [int] or a [float]. *)
Inductive number `{FloatModel} : Type :=
  | NInt (z : Z)
  | NFloat (x : pyfloat).

(** [float(n)]. *)
Definition to_float `{FloatModel} (n : number) : pyfloat :=
  match n with
  | NInt z => float_of_int z
  | NFloat x => x
  end.

(** The attributes of [InputFeatures] the writers read. *)
Record InputFeatures `{FloatModel} : Type := mkInputFeatures {
  input_ids : list Z;
  input_mask : list number;
  segment_ids : list Z;
  label_id : number;
  is_real_example : bool
}.

(** ** baselines/models/classifier_utils.py *)

Module ClassifierUtils.

(** [convert_to_unicode] under Python 3: a [str] is returned as it is,
    any other JSON value raises [ValueError]. *)
Definition convert_to_unicode (text : value) : result string :=
  match text with
  | VStr s => Ok s
  | _ => Raise ValueError
  end.

(** [DataProcessor._read_tsv(input_file, delimiter="\t", quotechar=None)].
    [csv_reader f delimiter] is the sequence of rows that
    [csv.reader(f, delimiter=delimiter, quotechar=quotechar)] yields for
    the contents [f] of the file. *)
Definition _read_tsv (csv_reader : string -> ascii -> list (list string))
    (f : string) (delimiter : ascii) : list (list string) :=
  let reader := csv_reader f delimiter in
  fold_left (fun lines line => lines ++ [line]) reader [].

(** The adapters below take the lines of a file whose lines are all JSON
    objects; [TnewsProcessor.Json] takes any line. *)
Module XnliProcessor.
Definition _create_examples (lines : list (gmap string value))
    (set_type : string) : result (list InputExample) :=
  for_enumerate (fun i line examples =>
    let guid := format_guid set_type i in
    text_a ← py_getitem line "premise" ≫= convert_to_unicode;
    text_b ← py_getitem line "hypo" ≫= convert_to_unicode;
    label ← (if negb (set_type =? "test")%string
             then py_getitem line "label" ≫= convert_to_unicode
             else Ok "contradiction"%string);
    Ok (examples ++ [mkInputExample guid (VStr text_a) (VStr text_b)
                                    (VStr label)]))
    0 lines [].

Definition get_labels : list string :=
  ["contradiction"; "entailment"; "neutral"]%string.
End XnliProcessor.

Module TnewsProcessor.
Definition get_labels : list string :=
  fold_left (fun labels i =>
    if (i =? 5) || (i =? 11) then labels
    else labels ++ [str (100 + i)]) (range 17) [].

Definition _create_examples (lines : list (gmap string value))
    (set_type : string) : result (list InputExample) :=
  for_enumerate (fun i line examples =>
    let guid := format_guid set_type i in
    text_a ← py_getitem line "sentence" ≫= convert_to_unicode;
    let text_b := VNone in
    label ← (if negb (set_type =? "test")%string
             then VStr <$> (py_getitem line "label" ≫= convert_to_unicode)
             else Ok VNone);
    Ok (examples ++ [mkInputExample guid (VStr text_a) text_b label]))
    0 lines [].

(** The same loop on the lines as [_read_json] hands them over: each is
    what [json.loads] gave, an object or not. *)
Module Json.
Definition _create_examples (lines : list json) (set_type : string)
    : result (list InputExample) :=
  for_enumerate (fun i line examples =>
    let guid := format_guid set_type i in
    text_a ← py_subscript line "sentence" ≫= convert_to_unicode;
    let text_b := VNone in
    label ← (if negb (set_type =? "test")%string
             then VStr <$> (py_subscript line "label" ≫= convert_to_unicode)
             else Ok VNone);
    Ok (examples ++ [mkInputExample guid (VStr text_a) text_b label]))
    0 lines [].
End Json.
End TnewsProcessor.

Module iFLYTEKDataProcessor.
Definition get_labels : list string :=
  fold_left (fun labels i => labels ++ [str i]) (range 119) [].

Definition _create_examples (lines : list (gmap string value))
    (set_type : string) : result (list InputExample) :=
  for_enumerate (fun i line examples =>
    let guid := format_guid set_type i in
    text_a ← py_getitem line "sentence" ≫= convert_to_unicode;
    let text_b := VNone in
    label ← (if negb (set_type =? "test")%string
             then VStr <$> (py_getitem line "label" ≫= convert_to_unicode)
             else Ok VNone);
    Ok (examples ++ [mkInputExample guid (VStr text_a) text_b label]))
    0 lines [].
End iFLYTEKDataProcessor.

Module AFQMCProcessor.
Definition get_labels : list string := ["0"; "1"]%string.

Definition _create_examples (lines : list (gmap string value))
    (set_type : string) : result (list InputExample) :=
  for_enumerate (fun i line examples =>
    let guid := format_guid set_type i in
    text_a ← py_getitem line "sentence1" ≫= convert_to_unicode;
    text_b ← py_getitem line "sentence2" ≫= convert_to_unicode;
    label ← (if negb (set_type =? "test")%string
             then py_getitem line "label" ≫= convert_to_unicode
             else Ok "0"%string);
    Ok (examples ++ [mkInputExample guid (VStr text_a) (VStr text_b)
                                    (VStr label)]))
    0 lines [].
End AFQMCProcessor.

End ClassifierUtils.

(** ** baselines/models/xlnet/run_classifier.py *)

Module RunClassifier.

(** The tab character, the delimiter of [_read_tsv]. *)
Definition TAB : ascii := "009"%char.

(** [DataProcessor._read_tsv(input_file, quotechar=None)]: rows of length
    zero are left out. *)
Definition _read_tsv (csv_reader : string -> ascii -> list (list string))
    (f : string) : list (list string) :=
  let reader := csv_reader f TAB in
  fold_left (fun lines line =>
    if (length line =? 0)%nat then lines else lines ++ [line]) reader [].

(** The state of an adapter loop: the examples built so far and the
    messages logged or printed so far. *)
Definition adapter_state : Type := list InputExample * list string.

Definition append_example (s : adapter_state) (e : InputExample)
    : adapter_state := (s.1 ++ [e], s.2).

Definition log_message (s : adapter_state) (msg : string) : adapter_state :=
  (s.1, s.2 ++ [msg]).

Module InewsProcessor.
Definition get_labels : list string := ["0"; "1"; "2"]%string.

Definition _create_examples (lines : list (list string))
    (set_type : string) : result adapter_state :=
  for_enumerate (fun i line st =>
    if (i =? 0)%nat then Ok st else
    let guid := format_guid set_type i in
    text_a ← py_index line 2;
    text_b ← py_index line 3;
    label ← (if (set_type =? "test")%string then Ok "0"%string
             else py_index line 0);
    Ok (append_example st
          (mkInputExample guid (VStr text_a) (VStr text_b) (VStr label))))
    0 lines ([], []).
End InewsProcessor.

Module TnewsProcessor.
Definition get_labels : list string :=
  fold_left (fun labels i =>
    if (i =? 5) || (i =? 11) then labels
    else labels ++ [str (100 + i)]) (range 17) [].

(** [lines] are the objects [json.loads(line.strip())] gives for the lines
    of [<set_type>.json]. *)
Definition _create_examples (lines : list (gmap string value))
    (set_type : string) : result (list InputExample) :=
  for_enumerate (fun i line examples =>
    let guid := format_guid set_type i in
    text_a ← py_getitem line "sentence";
    let text_b := VNone in
    label ← (if negb (set_type =? "test")%string
             then py_getitem line "label" else Ok VNone);
    Ok (examples ++ [mkInputExample guid text_a text_b label]))
    0 lines [].
End TnewsProcessor.

Module THUCNewsProcessor.
Definition get_labels : list string :=
  fold_left (fun labels i => labels ++ [str i]) (range 14) [].

Definition _create_examples (lines : list (list string))
    (set_type : string) : result adapter_state :=
  for_enumerate (fun i line st =>
    if (i =? 0)%nat || (length line <? 3)%nat then Ok st else
    let guid := format_guid set_type i in
    text_a ← py_index line 3;
    let text_b := VNone in
    label ← py_index line 0;
    Ok (append_example st
          (mkInputExample guid (VStr text_a) text_b (VStr label))))
    0 lines ([], []).
End THUCNewsProcessor.

Module iFLYTEKDataProcessor.
Definition get_labels : list string :=
  fold_left (fun labels i => labels ++ [str i]) (range 119) [].

Definition _create_examples (lines : list (gmap string value))
    (set_type : string) : result (list InputExample) :=
  for_enumerate (fun i line examples =>
    let guid := format_guid set_type i in
    text_a ← py_getitem line "sentence";
    let text_b := VNone in
    label ← (if negb (set_type =? "test")%string
             then py_getitem line "label" else Ok VNone);
    Ok (examples ++ [mkInputExample guid text_a text_b label]))
    0 lines [].
End iFLYTEKDataProcessor.

(** [LCQMCProcessor] and [BQProcessor] have the same [_create_examples]:
    the body of the loop is inside [try ... except Exception], which prints
    the row and goes on. *)
Module LCQMCProcessor.
Definition get_labels : list string := ["0"; "1"]%string.

Definition _create_examples (lines : list (list string))
    (set_type : string) : result adapter_state :=
  for_enumerate (fun i line st =>
    if (i =? 0)%nat then Ok st else
    let guid := format_guid set_type i in
    match (label ← py_index line 2;
           text_a ← py_index line 0;
           text_b ← py_index line 1;
           Ok (mkInputExample guid (VStr text_a) (VStr text_b) (VStr label)))
    with
    | Ok e => Ok (append_example st e)
    | Raise _ => Ok (log_message st "###error.i:")
    end)
    0 lines ([], ["length of lines:"%string]).
End LCQMCProcessor.

Module BQProcessor.
Definition get_labels : list string := ["0"; "1"]%string.

Definition _create_examples (lines : list (list string))
    (set_type : string) : result adapter_state :=
  for_enumerate (fun i line st =>
    if (i =? 0)%nat then Ok st else
    let guid := format_guid set_type i in
    match (label ← py_index line 2;
           text_a ← py_index line 0;
           text_b ← py_index line 1;
           Ok (mkInputExample guid (VStr text_a) (VStr text_b) (VStr label)))
    with
    | Ok e => Ok (append_example st e)
    | Raise _ => Ok (log_message st "###error.i:")
    end)
    0 lines ([], ["length of lines:"%string]).
End BQProcessor.

Module GLUEProcessor.
(** The attributes [__init__] sets; a column is [None] or an [int]. *)
Record t : Type := mk {
  train_file : string;
  dev_file : string;
  test_file : string;
  label_column : option Z;
  text_a_column : option Z;
  text_b_column : option Z;
  contains_header : bool;
  test_text_a_column : option Z;
  test_text_b_column : option Z;
  test_contains_header : bool;
  get_labels : list string
}.

Definition __init__ : t :=
  {| train_file := "train.tsv"; dev_file := "dev.tsv";
     test_file := "test.tsv";
     label_column := None; text_a_column := None; text_b_column := None;
     contains_header := true;
     test_text_a_column := None; test_text_b_column := None;
     test_contains_header := true;
     get_labels := ["0"; "1"]%string |}.

(** [len(line) <= column]; comparing an [int] with [None] raises
    [TypeError]. *)
Definition len_le {A} (line : list A) (column : option Z) : result bool :=
  match column with
  | Some c => Ok (Z.of_nat (length line) <=? c)
  | None => Raise TypeError
  end.

(** [line[column]]; indexing a list with [None] raises [TypeError]. *)
Definition getitem {A} (line : list A) (column : option Z) : result A :=
  match column with
  | Some c => py_index line c
  | None => Raise TypeError
  end.

Definition warning : string := "Incomplete line, ignored.".

Definition _create_examples (self : t) (lines : list (list string))
    (set_type : string) : result adapter_state :=
  for_enumerate (fun i line st =>
    if (i =? 0)%nat && contains_header self
       && negb (set_type =? "test")%string then Ok st else
    if (i =? 0)%nat && test_contains_header self
       && (set_type =? "test")%string then Ok st else
    let guid := format_guid set_type i in
    let a_column := if negb (set_type =? "test")%string
                    then text_a_column self else test_text_a_column self in
    let b_column := if negb (set_type =? "test")%string
                    then text_b_column self else test_text_b_column self in
    short_a ← len_le line a_column;
    if short_a : bool then Ok (log_message st warning) else
    text_a ← getitem line a_column;
    short_b ← match b_column with
              | Some _ => len_le line b_column
              | None => Ok false
              end;
    if short_b : bool then Ok (log_message st warning) else
    text_b ← match b_column with
             | Some _ => VStr <$> getitem line b_column
             | None => Ok VNone
             end;
    if (set_type =? "test")%string then
      label ← py_index (get_labels self) 0;
      Ok (append_example st (mkInputExample guid (VStr text_a) text_b
                                            (VStr label)))
    else
      short_l ← len_le line (label_column self);
      if short_l : bool then Ok (log_message st warning) else
      label ← getitem line (label_column self);
      Ok (append_example st (mkInputExample guid (VStr text_a) text_b
                                            (VStr label))))
    0 lines ([], []).

(** The row has the three columns at [a], [b] (when there is one) and [l]:
    the guards of [_create_examples] let it through on the train and dev
    splits. *)
Definition row_complete {A} (a : Z) (b : option Z) (l : Z) (line : list A)
    : bool :=
  (a <? Z.of_nat (length line))
  && match b with
     | Some b => b <? Z.of_nat (length line)
     | None => true
     end
  && (l <? Z.of_nat (length line)).

(** [get_test_examples] first fills in the test columns that are [None]. *)
Definition get_test_examples (self : t) (lines : list (list string))
    : t * result adapter_state :=
  let self1 :=
    match test_text_a_column self with
    | None => mk (train_file self) (dev_file self) (test_file self)
                 (label_column self) (text_a_column self)
                 (text_b_column self) (contains_header self)
                 (text_a_column self) (test_text_b_column self)
                 (test_contains_header self) (get_labels self)
    | Some _ => self
    end in
  let self2 :=
    match test_text_b_column self1 with
    | None => mk (train_file self1) (dev_file self1) (test_file self1)
                 (label_column self1) (text_a_column self1)
                 (text_b_column self1) (contains_header self1)
                 (test_text_a_column self1) (text_b_column self1)
                 (test_contains_header self1) (get_labels self1)
    | Some _ => self1
    end in
  (self2, _create_examples self2 lines "test").
End GLUEProcessor.

(** [MnliMatchedProcessor.__init__]. *)
Definition MnliMatchedProcessor : GLUEProcessor.t :=
  {| GLUEProcessor.train_file := "train.tsv";
     GLUEProcessor.dev_file := "dev_matched.tsv";
     GLUEProcessor.test_file := "test_matched.tsv";
     GLUEProcessor.label_column := Some (-1);
     GLUEProcessor.text_a_column := Some 8;
     GLUEProcessor.text_b_column := Some 9;
     GLUEProcessor.contains_header := true;
     GLUEProcessor.test_text_a_column := None;
     GLUEProcessor.test_text_b_column := None;
     GLUEProcessor.test_contains_header := true;
     GLUEProcessor.get_labels :=
       ["contradiction"; "entailment"; "neutral"]%string |}.

Module XnliProcessor.
Definition get_labels : list string :=
  ["contradiction"; "entailment"; "neutral"]%string.

Definition get_train_examples (lines : list (gmap string value))
    : result (list InputExample) :=
  for_enumerate (fun i line examples =>
    let guid := format_guid "train" i in
    text_a ← py_getitem line "premise";
    text_b ← py_getitem line "hypo";
    label ← py_getitem line "label";
    Ok (examples ++ [mkInputExample guid text_a text_b label]))
    0 lines [].

Definition get_dev_examples (lines : list (gmap string value))
    : result (list InputExample) :=
  for_enumerate (fun i line examples =>
    let guid := format_guid "dev" i in
    text_a ← py_getitem line "premise";
    text_b ← py_getitem line "hypo";
    label ← py_getitem line "label";
    Ok (examples ++ [mkInputExample guid text_a text_b label]))
    0 lines [].

(** The example is built without a [label] argument, whose default is
    [None]. *)
Definition get_test_examples (lines : list (gmap string value))
    : result (list InputExample) :=
  for_enumerate (fun i line examples =>
    let guid := format_guid "test" i in
    text_a ← py_getitem line "premise";
    text_b ← py_getitem line "hypo";
    Ok (examples ++ [mkInputExample guid text_a text_b VNone]))
    0 lines [].
End XnliProcessor.

Module CSCProcessor.
Definition get_labels : list string := ["0"; "1"]%string.

(** [get_train_examples] and [get_devtest_examples] run the same loop. *)
Definition get_examples (lines : list (list string)) (set_type : string)
    : result adapter_state :=
  for_enumerate (fun i line st =>
    if (i =? 0)%nat then Ok st else
    let guid := format_guid set_type i in
    text_a ← py_index line 1;
    label ← py_index line 0;
    Ok (append_example st
          (mkInputExample guid (VStr text_a) VNone (VStr label))))
    0 lines ([], []).
End CSCProcessor.

(** *** Batch aligner ([main], the [do_eval] branch)

    [while len(eval_examples) % FLAGS.eval_batch_size != 0:
         eval_examples.append(PaddingInputExample())]

    [%] is Python's floor modulo, which is [Z.modulo]; a zero divisor
    raises.  The loop is run with fuel; [None] means the fuel ran out. *)

Fixpoint pad_loop (fuel : nat) (eval_examples : list example)
    (eval_batch_size : Z) : option (result (list example)) :=
  if eval_batch_size =? 0 then Some (Raise ZeroDivisionError)
  else if Z.of_nat (length eval_examples) mod eval_batch_size =? 0
  then Some (Ok eval_examples)
  else match fuel with
       | O => None
       | S fuel' =>
           pad_loop fuel' (eval_examples ++ [PaddingInputExample])
                    eval_batch_size
       end.

Definition pad_to_batch (eval_examples : list example) (eval_batch_size : Z)
    : option (result (list example)) :=
  pad_loop (Z.to_nat (Z.abs eval_batch_size)) eval_examples eval_batch_size.

(** *** TFRecord files

    A [tf.train.Feature] holds an [Int64List] or a [FloatList]; a
    [tf.train.Example] maps feature names to features; a record file is the
    sequence of the examples written to it (serialization to bytes and back
    is taken as the identity on examples). *)

Inductive Feature `{FloatModel} : Type :=
  | Int64List (value : list Z)
  | FloatList (value : list float32).

Abbreviation tf_example := (gmap string Feature).
Abbreviation filesystem := (gmap string (list (gmap string Feature))).

Definition in_int64 (z : Z) : bool := (- 2 ^ 63 <=? z) && (z <? 2 ^ 63).

(** [tf.train.Int64List(value=list(values))]: a [float] among the values
    raises [TypeError], an [int] outside 64 bits raises [ValueError]. *)
Definition int64_value `{FloatModel} (v : number) : result Z :=
  match v with
  | NInt z => if in_int64 z then Ok z else Raise ValueError
  | NFloat _ => Raise TypeError
  end.

Definition create_int_feature `{FloatModel} (values : list number)
    : result Feature :=
  Int64List <$> mapM int64_value values.

(** [tf.train.FloatList(value=list(values))]: every value becomes a
    [float32]. *)
Definition float32_value `{FloatModel} (v : number) : float32 :=
  match v with
  | NInt z => float32_of_int z
  | NFloat x => float32_of_float x
  end.

Definition create_float_feature `{FloatModel} (values : list number)
    : result Feature :=
  Ok (FloatList (float32_value <$> values)).

(** [tf.gfile.Exists]. *)
Definition Exists_ `{FloatModel} (path : string) (fs : filesystem) : bool :=
  bool_decide (is_Some (fs !! path)).

(** [tf.python_io.TFRecordWriter(path)] creates the file, or empties the one
    that is there. *)
Definition TFRecordWriter `{FloatModel} (path : string) (fs : filesystem)
    : filesystem := <[path := []]> fs.

(** [writer.write(tf_example.SerializeToString())]. *)
Definition writer_write `{FloatModel} (path : string) (r : tf_example)
    (fs : filesystem) : filesystem :=
  <[path := default [] (fs !! path) ++ [r]]> fs.

(** [examples *= num_passes]. *)
Definition list_mul {A} (l : list A) (n : Z) : list A :=
  mjoin (replicate (Z.to_nat n) l).

(** The flags the writer and the reader consult. *)
Record flags : Type := mkFlags {
  overwrite_data : bool;
  is_regression : bool
}.

Inductive dtype : Type := tf_int64 | tf_int32 | tf_float32.

Record FixedLenFeature : Type := mkFixedLenFeature {
  shape : list nat;
  dtype_of : dtype
}.

Inductive tensor `{FloatModel} : Type :=
  | IntTensor (dt : dtype) (sh : list nat) (vals : list Z)
  | FloatTensor (sh : list nat) (vals : list float32).

Definition num_elements (sh : list nat) : nat := fold_right Nat.mul 1%nat sh.

(** [tf.cast(t, tf.int32)] on one 64-bit value. *)
Definition wrap32 (z : Z) : Z := (z + 2 ^ 31) mod 2 ^ 32 - 2 ^ 31.

(** [d[key] = v] on a dictionary kept in insertion order. *)
Fixpoint dict_set {V} (d : list (string * V)) (key : string) (v : V)
    : list (string * V) :=
  match d with
  | [] => [(key, v)]
  | (k, w) :: d' =>
      if (k =? key)%string then (k, v) :: d' else (k, w) :: dict_set d' key v
  end.

Section Records.

Context `{FM : FloatModel}.

(** The feature encoder of xlnet/classifier_utils.py, with its tokenizer. *)
Variable tokenizer : Type.
Variable convert_single_example :
  nat -> example -> option (list string) -> Z -> tokenizer ->
  result InputFeatures.
Variable convert_example_list_for_inews :
  nat -> example -> option (list string) -> Z -> tokenizer ->
  result (list InputFeatures).

Variable FLAGS : flags.

(** The record [file_based_convert_examples_to_features] builds for one
    feature. *)
Definition to_record (label_list : option (list string))
    (feature : InputFeatures) : result tf_example :=
  f_ids ← create_int_feature (NInt <$> input_ids feature);
  f_mask ← create_float_feature (input_mask feature);
  f_seg ← create_int_feature (NInt <$> segment_ids feature);
  f_label ← match label_list with
            | Some _ => create_int_feature [label_id feature]
            | None => create_float_feature [NFloat (to_float (label_id feature))]
            end;
  f_real ← create_int_feature [NInt (Z.b2z (is_real_example feature))];
  Ok (<["is_real_example" := f_real]>
      (<["label_ids" := f_label]>
       (<["segment_ids" := f_seg]>
        (<["input_mask" := f_mask]>
         (<["input_ids" := f_ids]> (∅ : tf_example)))))).

(** The record written for the example at position [ex_index]. *)
Definition record_of (label_list : option (list string))
    (max_seq_length : Z) (tokenize_fn : tokenizer) (ex_index : nat)
    (example : example) : result tf_example :=
  feature ← convert_single_example ex_index example label_list
                                  max_seq_length tokenize_fn;
  to_record label_list feature.

(** The loop [for (ex_index, example) in enumerate(examples)] of the writer;
    an exception leaves the records written so far in the file. *)
Fixpoint write_examples (label_list : option (list string))
    (max_seq_length : Z) (tokenize_fn : tokenizer) (output_file : string)
    (ex_index : nat) (examples : list example) (fs : filesystem)
    : result unit * filesystem :=
  match examples with
  | [] => (Ok (), fs)
  | example :: rest =>
      match (feature ← convert_single_example ex_index example label_list
                                              max_seq_length tokenize_fn;
             to_record label_list feature) with
      | Ok r =>
          write_examples label_list max_seq_length tokenize_fn output_file
                         (S ex_index) rest (writer_write output_file r fs)
      | Raise e => (Raise e, fs)
      end
  end.

(** [file_based_convert_examples_to_features]: the outcome, the list the
    caller passed (which [examples *= num_passes] changes in place) and the
    file system afterwards. *)
Definition file_based_convert_examples_to_features
    (examples : list example) (label_list : option (list string))
    (max_seq_length : Z) (tokenize_fn : tokenizer) (output_file : string)
    (num_passes : Z) (fs : filesystem)
    : result unit * list example * filesystem :=
  if Exists_ output_file fs && negb (overwrite_data FLAGS)
  then (Ok (), examples, fs)
  else
    let fs := TFRecordWriter output_file fs in
    let examples :=
      if num_passes >? 1 then list_mul examples num_passes else examples in
    let (r, fs) := write_examples label_list max_seq_length tokenize_fn
                                  output_file 0 examples fs in
    (r, examples, fs).

(** The body of [for feature in feature_list] of the inews writer: the five
    entries of the dictionary [features] are set, then the record is
    written. *)
Definition write_feature_inews (output_file : string)
    (feature : InputFeatures) (st : tf_example * filesystem)
    : result (tf_example * filesystem) :=
  let (features, fs) := st in
  f_ids ← create_int_feature (NInt <$> input_ids feature);
  let features := <["input_ids" := f_ids]> features in
  f_mask ← create_int_feature (input_mask feature);
  let features := <["input_mask" := f_mask]> features in
  f_seg ← create_int_feature (NInt <$> segment_ids feature);
  let features := <["segment_ids" := f_seg]> features in
  f_label ← create_int_feature [label_id feature];
  let features := <["label_ids" := f_label]> features in
  f_real ← create_int_feature [NInt (Z.b2z (is_real_example feature))];
  let features := <["is_real_example" := f_real]> features in
  Ok (features, writer_write output_file features fs).

Fixpoint write_feature_list_inews (output_file : string)
    (feature_list : list InputFeatures) (st : tf_example * filesystem)
    : result unit * filesystem :=
  match feature_list with
  | [] => (Ok (), st.2)
  | feature :: rest =>
      match write_feature_inews output_file feature st with
      | Ok st' => write_feature_list_inews output_file rest st'
      | Raise e => (Raise e, st.2)
      end
  end.

Fixpoint write_examples_inews (label_list : option (list string))
    (max_seq_length : Z) (tokenize_fn : tokenizer) (output_file : string)
    (ex_index : nat) (examples : list example) (fs : filesystem)
    : result unit * filesystem :=
  match examples with
  | [] => (Ok (), fs)
  | example :: rest =>
      match convert_example_list_for_inews ex_index example label_list
                                           max_seq_length tokenize_fn with
      | Ok feature_list =>
          match write_feature_list_inews output_file feature_list (∅, fs)
          with
          | (Ok _, fs') =>
              write_examples_inews label_list max_seq_length tokenize_fn
                                   output_file (S ex_index) rest fs'
          | (Raise e, fs') => (Raise e, fs')
          end
      | Raise e => (Raise e, fs)
      end
  end.

(** [file_based_convert_examples_to_features_for_inews]. *)
Definition file_based_convert_examples_to_features_for_inews
    (examples : list example) (label_list : option (list string))
    (max_seq_length : Z) (tokenize_fn : tokenizer) (output_file : string)
    (num_passes : Z) (fs : filesystem)
    : result unit * list example * filesystem :=
  let fs := TFRecordWriter output_file fs in
  let examples :=
    if num_passes >? 1 then list_mul examples num_passes else examples in
  let (r, fs) := write_examples_inews label_list max_seq_length tokenize_fn
                                      output_file 0 examples fs in
  (r, examples, fs).

(** [name_to_features] of [file_based_input_fn_builder]. *)
Definition name_to_features (seq_length : nat)
    : list (string * FixedLenFeature) :=
  let name_to_features :=
    [("input_ids"%string, mkFixedLenFeature [seq_length] tf_int64);
     ("input_mask"%string, mkFixedLenFeature [seq_length] tf_float32);
     ("segment_ids"%string, mkFixedLenFeature [seq_length] tf_int64);
     ("label_ids"%string, mkFixedLenFeature [] tf_int64);
     ("is_real_example"%string, mkFixedLenFeature [] tf_int64)] in
  if is_regression FLAGS
  then dict_set name_to_features "label_ids" (mkFixedLenFeature [] tf_float32)
  else name_to_features.

(** One entry of [tf.parse_single_example]: the feature must be in the
    record, hold the declared type and have as many values as the declared
    shape. *)
Definition parse_feature (record : tf_example) (name : string)
    (spec : FixedLenFeature) : result tensor :=
  match record !! name with
  | None => Raise (InvalidArgumentError name)
  | Some (Int64List vs) =>
      match dtype_of spec with
      | tf_int64 =>
          if (length vs =? num_elements (shape spec))%nat
          then Ok (IntTensor tf_int64 (shape spec) vs)
          else Raise (InvalidArgumentError name)
      | _ => Raise (InvalidArgumentError name)
      end
  | Some (FloatList vs) =>
      match dtype_of spec with
      | tf_float32 =>
          if (length vs =? num_elements (shape spec))%nat
          then Ok (FloatTensor (shape spec) vs)
          else Raise (InvalidArgumentError name)
      | _ => Raise (InvalidArgumentError name)
      end
  end.

(** [tf.parse_single_example]: the features are checked in the order of
    the schema and the first defective one is named; TensorFlow, handed a
    [dict], may name another defective feature when there are several.
    Whether the record parses does not depend on the order. *)
Fixpoint parse_single_example (record : tf_example)
    (features : list (string * FixedLenFeature))
    : result (gmap string tensor) :=
  match features with
  | [] => Ok ∅
  | (name, spec) :: rest =>
      t ← parse_feature record name spec;
      example ← parse_single_example record rest;
      Ok (<[name := t]> example)
  end.

(** The cast of [_decode_record]: 64-bit integer tensors become 32-bit. *)
Definition cast_to_int32 (t : tensor) : tensor :=
  match t with
  | IntTensor tf_int64 sh vals => IntTensor tf_int32 sh (wrap32 <$> vals)
  | _ => t
  end.

Definition _decode_record (record : tf_example)
    (name_to_features : list (string * FixedLenFeature))
    : result (gmap string tensor) :=
  match parse_single_example record name_to_features with
  | Ok example => Ok (cast_to_int32 <$> example)
  | Raise e => Raise e
  end.

(** The tensors that hold the field values of a feature: what the reader
    is to give back for the record of that feature. *)
Definition tensors_of (label_list : option (list string)) (seq_length : nat)
    (feature : InputFeatures) : gmap string tensor :=
  <["input_ids" := IntTensor tf_int32 [seq_length]
                             (wrap32 <$> input_ids feature)]>
  (<["input_mask" := FloatTensor [seq_length]
                                 (float32_value <$> input_mask feature)]>
   (<["segment_ids" := IntTensor tf_int32 [seq_length]
                                 (wrap32 <$> segment_ids feature)]>
    (<["label_ids" :=
         match label_list, label_id feature with
         | Some _, NInt z => IntTensor tf_int32 [] [wrap32 z]
         | _, l => FloatTensor [] [float32_of_float (to_float l)]
         end]>
     (<["is_real_example" :=
          IntTensor tf_int32 [] [Z.b2z (is_real_example feature)]]> ∅)))).

(** The records [input_fn] decodes from [input_file] when [is_training] is
    false: in the order of the file, each once. *)
Definition read_records (input_file : string) (seq_length : nat)
    (fs : filesystem) : result (list (gmap string tensor)) :=
  match fs !! input_file with
  | None => Raise (NotFoundError input_file)
  | Some records =>
      mapM (fun record => _decode_record record (name_to_features seq_length))
           records
  end.

End Records.

(** The names of the features of a record. *)
Definition record_keys : list string :=
  ["input_ids"; "input_mask"; "segment_ids"; "label_ids";
   "is_real_example"]%string.

(** The record the writer of inews builds for a feature when the
    dictionary [features] is empty. *)
Definition record_of_inews `{FloatModel} (feature : InputFeatures)
    : result tf_example :=
  fst <$> write_feature_inews EmptyString feature (∅, ∅).

(** *** [main]: evaluation steps, and the batches of [input_fn] *)

(** [eval_steps = int(len(eval_examples) // FLAGS.eval_batch_size)]; [//]
    is floor division. *)
Definition eval_steps (eval_examples : list example) (eval_batch_size : Z)
    : result Z :=
  if eval_batch_size =? 0 then Raise ZeroDivisionError
  else Ok (Z.of_nat (length eval_examples) / eval_batch_size).

(** The batches that [map_and_batch(..., batch_size, drop_remainder)] makes
    of the records of a file read in order, when [is_training] is false:
    consecutive groups of [batch_size] records, the last and shorter group
    left out when [drop_remainder]. *)
Fixpoint batches {A} (fuel : nat) (batch_size : nat) (drop_remainder : bool)
    (records : list A) : list (list A) :=
  match fuel with
  | O => []
  | S fuel' =>
      match records with
      | [] => []
      | _ :: _ =>
          if (length records <? batch_size)%nat
          then (if drop_remainder then [] else [records])
          else take batch_size records
               :: batches fuel' batch_size drop_remainder
                          (drop batch_size records)
      end
  end.

Definition map_and_batch {A} (batch_size : Z) (drop_remainder : bool)
    (records : list A) : result (list (list A)) :=
  if batch_size <=? 0 then Raise (InvalidArgumentError "batch_size")
  else Ok (batches (length records) (Z.to_nat batch_size) drop_remainder
                   records).

End RunClassifier.

(** ** Feature encoder

    [convert_single_example] and the truncation of a pair of token
    sequences are defined in xlnet/classifier_utils.py, a module other than
    the two embedded here; the encoder below follows section 4.2 of the
    specification. *)

Module FeatureEncoder.

(** Modelled from the spec: the truncation loop of step 4, missing with
    xlnet/classifier_utils.py.  While the two sequences together are longer
    than the budget, one token is dropped from the end of the longer one, of
    [tokens_b] when the lengths are equal; [None] when a token should be
    dropped and there is none. *)
Fixpoint truncate_loop {A} (fuel : nat) (tokens_a tokens_b : list A)
    (budget : Z) : option (list A * list A) :=
  if Z.of_nat (length tokens_a) + Z.of_nat (length tokens_b) <=? budget
  then Some (tokens_a, tokens_b)
  else match fuel with
       | O => None
       | S fuel' =>
           if (length tokens_b <? length tokens_a)%nat
           then truncate_loop fuel' (removelast tokens_a) tokens_b budget
           else truncate_loop fuel' tokens_a (removelast tokens_b) budget
       end.

(** Modelled from the spec: the paired-sequence truncation of step 4,
    missing with xlnet/classifier_utils.py, the budget being
    [max_seq_length - reserved_slots]. *)
Definition truncate_seq_pair {A} (tokens_a tokens_b : list A)
    (max_seq_length reserved_slots : Z) : option (list A * list A) :=
  truncate_loop (length tokens_a + length tokens_b) tokens_a tokens_b
                (max_seq_length - reserved_slots).

(** One iteration of the truncation loop, as a relation on the pair of
    sequences. *)
Inductive truncate_step {A} (budget : Z)
    : list A * list A -> list A * list A -> Prop :=
  | truncate_a (a b : list A) :
      budget < Z.of_nat (length a) + Z.of_nat (length b) ->
      (length b < length a)%nat ->
      truncate_step budget (a, b) (removelast a, b)
  | truncate_b (a b : list A) :
      budget < Z.of_nat (length a) + Z.of_nat (length b) ->
      (length a <= length b)%nat ->
      truncate_step budget (a, b) (a, removelast b).

(** Modelled from the spec: the marker convention that steps 3, 5 and 6
    leave to configuration. *)
Record convention : Type := mkConvention {
  start_marker : list Z;
  sep_marker : Z;
  end_marker : list Z;
  end_segment : Z;
  reserved_single : Z;
  reserved_pair : Z;
  pad_left : bool
}.

(** A computation that calls the tokenizer: the texts handed to it, in
    order, and the outcome. *)
Definition traced (A : Type) : Type := list string * result A.

#[global] Instance traced_ret : MRet traced := fun A a => ([], Ok a).
#[global] Instance traced_bind : MBind traced := fun A B k m =>
  match m with
  | (log, Ok a) => let (log', r) := k a in (log ++ log', r)
  | (log, Raise e) => (log, Raise e)
  end.

Definition lift {A} (r : result A) : traced A := ([], r).

Section Encode.

Context `{FM : FloatModel}.
Variable tokenize : string -> result (list Z).
Variable conv : convention.
(** [float(label)]. *)
Variable label_to_float : value -> result pyfloat.

Definition call_tokenize (text : string) : traced (list Z) :=
  ([text], tokenize text).

Definition text_of (v : value) : result string :=
  match v with
  | VStr s => Ok s
  | _ => Raise TypeError
  end.

(** Position of a label string in the vocabulary. *)
Fixpoint index_of (label_vocab : list string) (l : string) : result Z :=
  match label_vocab with
  | [] => Raise LabelNotFoundError
  | x :: rest =>
      if (x =? l)%string then Ok 0 else Z.succ <$> index_of rest l
  end.

(** Modelled from the spec: step 7; a [label_vocab] of [None] is the
    regression task. *)
Definition encode_label (label_vocab : option (list string)) (l : value)
    : result number :=
  match label_vocab, l with
  | Some _, VNone => Ok (NInt 0)
  | Some vocab, VStr s => NInt <$> index_of vocab s
  | Some _, _ => Raise LabelNotFoundError
  | None, VNone => Ok (NFloat (float_of_int 0))
  | None, _ => NFloat <$> label_to_float l
  end.

(** Modelled from the spec: the feature of step 1 for a padding example. *)
Definition padding_feature (label_vocab : option (list string))
    (max_seq_length : Z) : InputFeatures :=
  let n := Z.to_nat max_seq_length in
  {| input_ids := replicate n 0;
     input_mask := replicate n (NInt 0);
     segment_ids := replicate n 0;
     label_id := match label_vocab with
                 | Some _ => NInt 0
                 | None => NFloat (float_of_int 0)
                 end;
     is_real_example := false |}.

(** Step 6: padding up to [max_seq_length] on the configured side. *)
Definition pad {B} (n : nat) (x : B) (l : list B) : list B :=
  if pad_left conv then replicate (n - length l) x ++ l
  else l ++ replicate (n - length l) x.

(** Modelled from the spec: [encode] of section 4.2, steps 1 to 7, missing
    with xlnet/classifier_utils.py ([convert_single_example]). *)
Definition encode (index : nat) (ex : example)
    (label_vocab : option (list string)) (max_seq_length : Z)
    : traced InputFeatures :=
  match ex with
  | PaddingInputExample => mret (padding_feature label_vocab max_seq_length)
  | Real e =>
      ta ← lift (text_of (text_a e));
      tokens_a ← call_tokenize ta;
      '(tokens_a, tokens_b) ←
        match text_b e with
        | VNone =>
            mret (take (Z.to_nat (max_seq_length - reserved_single conv))
                       tokens_a, None)
        | vb =>
            tb ← lift (text_of vb);
            tokens_b ← call_tokenize tb;
            match truncate_seq_pair tokens_a tokens_b max_seq_length
                                    (reserved_pair conv) with
            | Some (a, b) => mret (a, Some b)
            | None => lift (Raise IndexError)
            end
        end;
      let tokens :=
        start_marker conv ++ tokens_a ++ [sep_marker conv]
        ++ match tokens_b with
           | Some b => b ++ [sep_marker conv]
           | None => []
           end
        ++ end_marker conv in
      let segments :=
        replicate (length (start_marker conv ++ tokens_a) + 1) 0
        ++ match tokens_b with
           | Some b => replicate (length b + 1) 1
           | None => []
           end
        ++ replicate (length (end_marker conv)) (end_segment conv) in
      let n := Z.to_nat max_seq_length in
      l ← lift (encode_label label_vocab (label e));
      mret {| input_ids := pad n 0 tokens;
              input_mask := pad n (NInt 0) (replicate (length tokens) (NInt 1));
              segment_ids := pad n 0 segments;
              label_id := l;
              is_real_example := true |}
  end.

End Encode.

End FeatureEncoder.

(** ** Instances used to run the definitions *)

(** Floats that hold small integers, which both float types represent
    exactly. *)
Definition integral_floats : FloatModel :=
  {| pyfloat := Z; float32 := Z;
     float32_of_int := fun z => z;
     float32_of_float := fun x => x;
     float_of_int := fun z => z |}.

(** [s.split(d)] for a one-character separator. *)
Fixpoint split_on (d : ascii) (s : string) : list string :=
  match s with
  | EmptyString => [EmptyString]
  | String c s' =>
      if Ascii.eqb c d then EmptyString :: split_on d s'
      else match split_on d s' with
           | f :: fs => String c f :: fs
           | [] => [String c EmptyString]
           end
  end.

(** The lines of a text file, without their line ends. *)
Definition file_lines (s : string) : list string :=
  let pieces := split_on "010"%char s in
  match last pieces with
  | Some EmptyString => removelast pieces
  | _ => pieces
  end.

(** [csv.reader] on a file without quoted fields: one row per line, an
    empty line giving the empty row. *)
Definition csv_plain (f : string) (delimiter : ascii) : list (list string) :=
  (fun line => if (line =? EmptyString)%string then [] else split_on delimiter line)
    <$> file_lines f.

(** Number of sentinels the loop appends to a list of length [n]. *)
Definition padding_needed (n : nat) (b : Z) : nat :=
  Z.to_nat ((b - Z.of_nat n mod b) mod b).

(** ** Well-formed JSON records *)

(** The record has a string under [key]. *)
Definition has_text (key : string) (line : gmap string value) : Prop :=
  exists s, line !! key = Some (VStr s).

(** The value, and the string, a record holds under [key]. *)
Definition field_at (key : string) (line : gmap string value) : value :=
  default VNone (line !! key).

Definition text_at (key : string) (line : gmap string value) : string :=
  match line !! key with
  | Some (VStr s) => s
  | _ => EmptyString
  end.

(** The line is an object with a string under [key]; the fields of a line
    that is an object. *)
Definition object_with_text (key : string) (line : json) : Prop :=
  exists d, line = JObject d /\ has_text key d.

Definition fields (line : json) : gmap string value :=
  match line with
  | JObject d => d
  | JOther => ∅
  end.

(** ** Sample inputs *)

Definition ten_examples : list example :=
  replicate 10 (Real (mkInputExample "dev-1" (VStr "a") VNone (VStr "0"))).

(** The three Tnews records of the scenario, and test records of the pair
    tasks, none with a ["label"]. *)
Definition tnews_line_a : gmap string value :=
  <["label" := VStr "100"]> {["sentence" := VStr "a"]}.
Definition tnews_line_b : gmap string value :=
  <["label" := VStr "103"]> {["sentence" := VStr "b"]}.
Definition tnews_line_c : gmap string value := {["sentence" := VStr "c"]}.
Definition xnli_test_line : gmap string value :=
  <["hypo" := VStr "b"]> {["premise" := VStr "a"]}.
Definition afqmc_test_line : gmap string value :=
  <["sentence2" := VStr "b"]> {["sentence1" := VStr "a"]}.

(** The label vocabulary of Tnews, written out. *)
Definition tnews_labels : list string :=
  ["100"; "101"; "102"; "103"; "104"; "106"; "107"; "108"; "109"; "110";
   "112"; "113"; "114"; "115"; "116"]%string.

(** A THUCNews file: the header and one row of three columns. *)
Definition thucnews_header : list string := ["label"; "a"; "b"; "text"]%string.
Definition thucnews_row3 : list string := ["0"; "x"; "y"]%string.

(** A GLUE adapter with the text in column 0 and the label in column 1. *)
Definition sample_glue : RunClassifier.GLUEProcessor.t :=
  {| RunClassifier.GLUEProcessor.train_file := "train.tsv";
     RunClassifier.GLUEProcessor.dev_file := "dev.tsv";
     RunClassifier.GLUEProcessor.test_file := "test.tsv";
     RunClassifier.GLUEProcessor.label_column := Some 1;
     RunClassifier.GLUEProcessor.text_a_column := Some 0;
     RunClassifier.GLUEProcessor.text_b_column := None;
     RunClassifier.GLUEProcessor.contains_header := true;
     RunClassifier.GLUEProcessor.test_text_a_column := Some 0;
     RunClassifier.GLUEProcessor.test_text_b_column := None;
     RunClassifier.GLUEProcessor.test_contains_header := true;
     RunClassifier.GLUEProcessor.get_labels := ["0"; "1"]%string |}.

(** A tab-separated file of three lines, the second one empty. *)
Definition tsv_with_blank_line : string :=
  String "a" (String "010" (String "010" (String "b"
    (String "010" EmptyString)))).
Definition tsv_without_blank_line : string :=
  String "a" (String "009" (String "b" (String "010" EmptyString))).

(** A tokenizer that maps every character to its code, and a marker
    convention without start marker. *)
Definition char_tokenize (text : string) : result (list Z) :=
  Ok ((fun c => Z.of_nat (nat_of_ascii c)) <$> list_ascii_of_string text).

Definition sample_convention : FeatureEncoder.convention :=
  {| FeatureEncoder.start_marker := [];
     FeatureEncoder.sep_marker := 4;
     FeatureEncoder.end_marker := [3];
     FeatureEncoder.end_segment := 2;
     FeatureEncoder.reserved_single := 2;
     FeatureEncoder.reserved_pair := 3;
     FeatureEncoder.pad_left := false |}.

(** The encoder of the specification as [convert_single_example], and as
    [convert_example_list_for_inews] with one feature per example. *)
Definition sample_convert (ex_index : nat) (ex : example)
    (label_list : option (list string)) (max_seq_length : Z)
    (tokenize_fn : string -> result (list Z))
    : result (@InputFeatures integral_floats) :=
  (FeatureEncoder.encode (FM := integral_floats) tokenize_fn
     sample_convention (fun _ => Raise ValueError) ex_index ex label_list
     max_seq_length).2.

Definition sample_convert_inews (ex_index : nat) (ex : example)
    (label_list : option (list string)) (max_seq_length : Z)
    (tokenize_fn : string -> result (list Z))
    : result (list (@InputFeatures integral_floats)) :=
  (fun f => [f]) <$> sample_convert ex_index ex label_list max_seq_length
                                    tokenize_fn.

Definition two_examples : list example :=
  [Real (mkInputExample "train-0" (VStr "ab") VNone (VStr "0"));
   Real (mkInputExample "train-1" (VStr "c") VNone (VStr "1"))].

Definition one_example : list example :=
  [Real (mkInputExample "dev-0" (VStr "ab") VNone (VStr "1"))].

Definition sample_flags : RunClassifier.flags :=
  RunClassifier.mkFlags false false.

(** The records of two passes over [two_examples]. *)
Definition two_pass_records
    : list (gmap string (@RunClassifier.Feature integral_floats)) :=
  match mapM id (imap (RunClassifier.record_of (FM := integral_floats)
                         _ sample_convert (Some ["0"; "1"]%string) 6
                         char_tokenize)
                      (RunClassifier.list_mul two_examples 2)) with
  | Ok records => records
  | Raise _ => []
  end.

(** A feature of length six. *)
Definition sample_feature : @InputFeatures integral_floats :=
  {| input_ids := [97; 98; 4; 3; 0; 0];
     input_mask := [NInt 1; NInt 1; NInt 1; NInt 1; NInt 0; NInt 0];
     segment_ids := [0; 0; 0; 2; 0; 0];
     label_id := NInt 1;
     is_real_example := true |}.

(** The record the writer of inews builds for [sample_feature]. *)
Definition inews_record : gmap string (@RunClassifier.Feature integral_floats) :=
  <["is_real_example" := RunClassifier.Int64List [1]]>
  (<["label_ids" := RunClassifier.Int64List [1]]>
   (<["segment_ids" := RunClassifier.Int64List [0; 0; 0; 2; 0; 0]]>
    (<["input_mask" := RunClassifier.Int64List [1; 1; 1; 1; 0; 0]]>
     (<["input_ids" := RunClassifier.Int64List [97; 98; 4; 3; 0; 0]]> ∅)))).

(** A hundred tokens and five tokens. *)
Definition tokens_100 : list Z := replicate 100 7.
Definition tokens_5 : list Z := replicate 5 9.

(** Rows of a file of MNLI: the header, a row of ten columns and a row of
    one column. *)
Definition mnli_rows : list (list string) :=
  [replicate 10 "h"%string; replicate 10 "x"%string; ["y"%string]].

(** Two Tnews records of the train split, and the examples they give. *)
Definition tnews_train_lines : list (gmap string value) :=
  [tnews_line_a; tnews_line_b].

Definition tnews_train_json : list json :=
  [JObject tnews_line_a; JObject tnews_line_b].

Definition tnews_train_examples : list InputExample :=
  [mkInputExample "train-0" (VStr "a") VNone (VStr "100");
   mkInputExample "train-1" (VStr "b") VNone (VStr "103")].

(** The record the writer with the float mask builds for
    [sample_feature]. *)
Definition float_record
    : gmap string (@RunClassifier.Feature integral_floats) :=
  <["is_real_example" := RunClassifier.Int64List [1]]>
  (<["label_ids" := RunClassifier.Int64List [1]]>
   (<["segment_ids" := RunClassifier.Int64List [0; 0; 0; 2; 0; 0]]>
    (<["input_mask" :=
        @RunClassifier.FloatList integral_floats [1; 1; 1; 1; 0; 0]]>
     (<["input_ids" := RunClassifier.Int64List [97; 98; 4; 3; 0; 0]]> ∅)))).

(** * Properties *)

(** ** The batch aligner *)

Section Aligner.

Variable b : Z.
Hypothesis b_pos : 0 < b.

Lemma padding_needed_lt n : Z.of_nat (padding_needed n b) < b.
Proof.
  unfold padding_needed.
  pose proof (Z.mod_pos_bound (b - Z.of_nat n mod b) b b_pos). lia.
Qed.

Lemma padding_needed_zero n :
  Z.of_nat n mod b = 0 -> padding_needed n b = 0%nat.
Proof.
  intros H. unfold padding_needed. rewrite H, Z.sub_0_r, Z.mod_same by lia.
  reflexivity.
Qed.

Lemma padding_needed_succ n :
  Z.of_nat n mod b <> 0 ->
  padding_needed n b = S (padding_needed (S n) b).
Proof.
  intros H. unfold padding_needed.
  pose proof (Z.mod_pos_bound (Z.of_nat n) b b_pos) as Hn.
  rewrite (Z.mod_small (b - Z.of_nat n mod b)) by lia.
  replace (Z.of_nat (S n)) with (Z.of_nat n + 1) by lia.
  destruct (Z.eq_dec (Z.of_nat n mod b) (b - 1)) as [E|E].
  - assert (Hs : (Z.of_nat n + 1) mod b = 0).
    { rewrite <- Zplus_mod_idemp_l, E.
      replace (b - 1 + 1) with b by lia. apply Z.mod_same. lia. }
    rewrite Hs, Z.sub_0_r, Z.mod_same, E by lia.
    replace (b - (b - 1)) with 1 by lia. reflexivity.
  - assert (Hs : (Z.of_nat n + 1) mod b = Z.of_nat n mod b + 1).
    { rewrite <- Zplus_mod_idemp_l. apply Z.mod_small. lia. }
    rewrite Hs, (Z.mod_small (b - _)) by lia. lia.
Qed.

Lemma padding_needed_aligned n :
  (Z.of_nat (n + padding_needed n b)) mod b = 0.
Proof.
  unfold padding_needed.
  pose proof (Z.mod_pos_bound (Z.of_nat n) b b_pos) as Hn.
  pose proof (Z.mod_pos_bound (b - Z.of_nat n mod b) b b_pos) as Hk.
  rewrite Nat2Z.inj_add, Z2Nat.id by lia.
  rewrite Zplus_mod_idemp_r.
  replace (Z.of_nat n + (b - Z.of_nat n mod b))
    with (Z.of_nat n - Z.of_nat n mod b + 1 * b) by lia.
  rewrite Z.mod_add by lia.
  rewrite <- Zminus_mod_idemp_l, Z.sub_diag. apply Z.mod_0_l. lia.
Qed.

Lemma pad_loop_enough fuel :
  forall E : list example,
    (padding_needed (length E) b <= fuel)%nat ->
    RunClassifier.pad_loop fuel E b
    = Some (Ok (E ++ replicate (padding_needed (length E) b)
                               PaddingInputExample)).
Proof.
  induction fuel as [|fuel IH]; intros E Hfuel.
  - simpl. destruct (Z.eqb_spec b 0) as [?|_]; [lia|].
    destruct (Z.eqb_spec (Z.of_nat (length E) mod b) 0) as [Hz|Hnz].
    + rewrite padding_needed_zero by assumption. simpl.
      now rewrite app_nil_r.
    + rewrite padding_needed_succ in Hfuel by assumption. lia.
  - simpl. destruct (Z.eqb_spec b 0) as [?|_]; [lia|].
    destruct (Z.eqb_spec (Z.of_nat (length E) mod b) 0) as [Hz|Hnz].
    + rewrite padding_needed_zero by assumption. simpl.
      now rewrite app_nil_r.
    + rewrite padding_needed_succ in * by assumption.
      rewrite IH.
      * rewrite length_app. simpl.
        replace (length E + 1)%nat with (S (length E)) by lia.
        now rewrite <- app_assoc.
      * rewrite length_app. simpl.
        replace (length E + 1)%nat with (S (length E)) by lia. lia.
Qed.

End Aligner.

(** C1.  For every example list [E] and batch size [b > 0] the aligner
    returns (it terminates, with any fuel of at least [b]) the list [E]
    followed by [k < b] padding sentinels and nothing else; the length of
    the result is a multiple of [b] and its first [len(E)] elements are
    [E], unchanged and in order. *)
Theorem pad_to_batch_spec (E : list example) (b : Z) :
  0 < b ->
  exists k : nat,
    RunClassifier.pad_to_batch E b = Some (Ok (E ++ replicate k PaddingInputExample))
    /\ (forall fuel, (Z.to_nat b <= fuel)%nat ->
          RunClassifier.pad_loop fuel E b = RunClassifier.pad_to_batch E b)
    /\ Z.of_nat k < b
    /\ Z.of_nat (length (E ++ replicate k PaddingInputExample)) mod b = 0
    /\ take (length E) (E ++ replicate k PaddingInputExample) = E
    /\ drop (length E) (E ++ replicate k PaddingInputExample)
       = replicate k PaddingInputExample.
Proof.
  intros Hb. exists (padding_needed (length E) b).
  pose proof (padding_needed_lt b Hb (length E)) as Hlt.
  assert (Hrun : forall fuel, (Z.to_nat b <= fuel)%nat ->
            RunClassifier.pad_loop fuel E b
            = Some (Ok (E ++ replicate (padding_needed (length E) b)
                                       PaddingInputExample))).
  { intros fuel Hf. apply pad_loop_enough; lia. }
  assert (Hmain : RunClassifier.pad_to_batch E b
            = Some (Ok (E ++ replicate (padding_needed (length E) b)
                                       PaddingInputExample))).
  { unfold RunClassifier.pad_to_batch. apply Hrun. lia. }
  split; [exact Hmain|].
  split; [intros fuel Hf; now rewrite Hmain, Hrun|].
  split; [exact Hlt|].
  split.
  - rewrite length_app, length_replicate. now apply padding_needed_aligned.
  - split.
    + now rewrite take_app_length.
    + now rewrite drop_app_length.
Qed.

Lemma pad_to_batch_spec_witness :
  0 < 4 /\
  exists k : nat,
    RunClassifier.pad_to_batch ten_examples 4
    = Some (Ok (ten_examples ++ replicate k PaddingInputExample))
    /\ (forall fuel, (Z.to_nat 4 <= fuel)%nat ->
          RunClassifier.pad_loop fuel ten_examples 4
          = RunClassifier.pad_to_batch ten_examples 4)
    /\ Z.of_nat k < 4
    /\ Z.of_nat (length (ten_examples ++ replicate k PaddingInputExample))
         mod 4 = 0
    /\ take (length ten_examples)
            (ten_examples ++ replicate k PaddingInputExample) = ten_examples
    /\ drop (length ten_examples)
            (ten_examples ++ replicate k PaddingInputExample)
       = replicate k PaddingInputExample.
Proof.
  split; [lia | apply (pad_to_batch_spec ten_examples 4); lia].
Defined.

(** ** The feature encoder *)

Section Truncation.

Context {A : Type}.
Variable budget : Z.
Hypothesis budget_nonneg : 0 <= budget.

Lemma removelast_take (l : list A) (k : nat) :
  (k < length l)%nat -> take k (removelast l) = take k l.
Proof.
  intros Hk. rewrite removelast_firstn_len, take_take.
  f_equal. lia.
Qed.

Lemma removelast_length_pred (l : list A) :
  length (removelast l) = pred (length l).
Proof.
  rewrite removelast_firstn_len, length_take. lia.
Qed.

Lemma truncate_loop_spec (fuel : nat) :
  forall a b : list A,
    (length a + length b <= fuel)%nat ->
    exists a' b',
      FeatureEncoder.truncate_loop fuel a b budget = Some (a', b')
      /\ rtc (FeatureEncoder.truncate_step budget) (a, b) (a', b')
      /\ a' = take (length a') a
      /\ b' = take (length b') b
      /\ (length a' <= length a)%nat
      /\ (length b' <= length b)%nat
      /\ Z.of_nat (length a') + Z.of_nat (length b') <= budget
      /\ (Z.of_nat (length a) + Z.of_nat (length b) <= budget ->
          a' = a /\ b' = b)
      /\ (budget < Z.of_nat (length a) + Z.of_nat (length b) ->
          Z.of_nat (length a') + Z.of_nat (length b') = budget)
      /\ (length a' < length a -> length b' <= length a')%nat
      /\ (length b' < length b -> length a' <= length b' + 1)%nat.
Proof.
  induction fuel as [|fuel IH]; intros a b Hfuel; simpl.
  - destruct (Z.leb_spec (Z.of_nat (length a) + Z.of_nat (length b)) budget)
      as [Hle|Hgt]; [|lia].
    exists a, b. rewrite !firstn_all. repeat split; try lia. constructor.
  - destruct (Z.leb_spec (Z.of_nat (length a) + Z.of_nat (length b)) budget)
      as [Hle|Hgt].
    { exists a, b. rewrite !firstn_all. repeat split; try lia. constructor. }
    destruct (Nat.ltb_spec (length b) (length a)) as [Hlt|Hge].
    + destruct (IH (removelast a) b) as
        (a' & b' & Hrun & Hsteps & Ha & Hb & Hla & Hlb & Hfit & Hid & Hex
         & H1 & H2).
      { rewrite removelast_length_pred. lia. }
      rewrite removelast_length_pred in *.
      exists a', b'. split; [exact Hrun|].
      split. { eapply rtc_l; [|exact Hsteps]. now constructor. }
      split. { rewrite Ha at 1. apply removelast_take. lia. }
      split; [exact Hb|].
      assert (Hexact : Z.of_nat (length a') + Z.of_nat (length b') = budget).
      { destruct (Z.le_gt_cases
                    (Z.of_nat (pred (length a)) + Z.of_nat (length b)) budget)
          as [Hfits|Hover]; [|apply Hex; lia].
        destruct (Hid Hfits) as [-> ->].
        rewrite removelast_length_pred. lia. }
      repeat split; lia.
    + destruct (IH a (removelast b)) as
        (a' & b' & Hrun & Hsteps & Ha & Hb & Hla & Hlb & Hfit & Hid & Hex
         & H1 & H2).
      { rewrite removelast_length_pred. lia. }
      rewrite removelast_length_pred in *.
      exists a', b'. split; [exact Hrun|].
      split. { eapply rtc_l; [|exact Hsteps]. now constructor. }
      split; [exact Ha|].
      split. { rewrite Hb at 1. apply removelast_take. lia. }
      assert (Hexact : Z.of_nat (length a') + Z.of_nat (length b') = budget).
      { destruct (Z.le_gt_cases
                    (Z.of_nat (length a) + Z.of_nat (pred (length b))) budget)
          as [Hfits|Hover]; [|apply Hex; lia].
        destruct (Hid Hfits) as [-> ->].
        rewrite removelast_length_pred. lia. }
      repeat split; lia.
Qed.

End Truncation.

(** C3.  With a budget [max_seq_length - reserved_slots] that is not
    negative, the truncation loop ends, having dropped tokens one at a time,
    each from the end of the sequence that was strictly longer at that
    moment and from [tokens_b] when the two were level, until the two
    lengths add up to at most the budget; no more is dropped than needed and
    the loss is balanced.  With lengths 100 and 5, [max_seq_length = 20] and
    [reserved_slots = 3] only [tokens_a] is cut: the lengths become 12 and
    5. *)
Theorem truncate_seq_pair_spec {A} (a b : list A)
    (max_seq_length reserved_slots : Z) :
  reserved_slots <= max_seq_length ->
  exists a' b',
    FeatureEncoder.truncate_seq_pair a b max_seq_length reserved_slots
    = Some (a', b')
    /\ rtc (FeatureEncoder.truncate_step (max_seq_length - reserved_slots))
           (a, b) (a', b')
    /\ Z.of_nat (length a') + Z.of_nat (length b')
       <= max_seq_length - reserved_slots
    /\ a' = take (length a') a
    /\ b' = take (length b') b
    /\ (max_seq_length - reserved_slots
        < Z.of_nat (length a) + Z.of_nat (length b) ->
        Z.of_nat (length a') + Z.of_nat (length b')
        = max_seq_length - reserved_slots)
    /\ (length a' < length a -> length b' <= length a')%nat
    /\ (length b' < length b -> length a' <= length b' + 1)%nat
    /\ (length a = 100%nat -> length b = 5%nat ->
        max_seq_length = 20 -> reserved_slots = 3 ->
        length a' = 12%nat /\ b' = b).
Proof.
  intros Hres. unfold FeatureEncoder.truncate_seq_pair.
  destruct (truncate_loop_spec (A := A) (max_seq_length - reserved_slots)
              ltac:(lia) (length a + length b) a b (le_n _))
    as (a' & b' & Hrun & Hsteps & Ha & Hb & Hla & Hlb & Hfit & Hid & Hex
        & H1 & H2).
  exists a', b'. do 8 (split; [assumption|]).
  intros Hal Hbl -> ->.
  assert (length b' = length b) as Hlen by lia.
  split; [lia|]. rewrite Hb, Hlen. apply firstn_all.
Qed.

Lemma truncate_seq_pair_spec_witness :
  3 <= 20 /\
  exists a' b' : list Z,
    FeatureEncoder.truncate_seq_pair tokens_100 tokens_5 20 3 = Some (a', b')
    /\ rtc (FeatureEncoder.truncate_step (20 - 3))
           (tokens_100, tokens_5) (a', b')
    /\ Z.of_nat (length a') + Z.of_nat (length b') <= 20 - 3
    /\ a' = take (length a') tokens_100
    /\ b' = take (length b') tokens_5
    /\ (20 - 3 < Z.of_nat (length tokens_100) + Z.of_nat (length tokens_5) ->
        Z.of_nat (length a') + Z.of_nat (length b') = 20 - 3)
    /\ (length a' < length tokens_100 -> length b' <= length a')%nat
    /\ (length b' < length tokens_5 -> length a' <= length b' + 1)%nat
    /\ (length tokens_100 = 100%nat -> length tokens_5 = 5%nat ->
        20 = 20 -> 3 = 3 ->
        length a' = 12%nat /\ b' = tokens_5).
Proof.
  split; [lia|].
  apply (truncate_seq_pair_spec tokens_100 tokens_5 20 3). lia.
Defined.

Example truncate_100_and_5 :
  FeatureEncoder.truncate_seq_pair tokens_100 tokens_5 20 3
  = Some (replicate 12 7, tokens_5).
Proof. vm_compute. reflexivity. Qed.

Example truncate_tie_cuts_b_first :
  FeatureEncoder.truncate_seq_pair [1; 2; 3; 4] [5; 6; 7; 8] 7 0
  = Some ([1; 2; 3; 4], [5; 6; 7])
  /\ FeatureEncoder.truncate_seq_pair [1; 2; 3; 4] [5; 6; 7; 8] 5 0
     = Some ([1; 2; 3], [5; 6]).
Proof. split; vm_compute; reflexivity. Qed.

(** C4.  On the padding sentinel the encoder returns, whatever the
    tokenizer, the index and the configuration, a feature whose token, mask
    and segment arrays hold [max_seq_length] zeros, whose label is 0 (0.0
    when there is no label vocabulary, the regression task) and which is not
    a real example; the tokenizer is handed no text. *)
Theorem encode_padding `{FM : FloatModel}
    (tokenize : string -> result (list Z)) (conv : FeatureEncoder.convention)
    (label_to_float : value -> result pyfloat) (index : nat)
    (label_vocab : option (list string)) (max_seq_length : Z) :
  exists f : InputFeatures,
    FeatureEncoder.encode tokenize conv label_to_float index
                          PaddingInputExample label_vocab max_seq_length
    = ([], Ok f)
    /\ input_ids f = replicate (Z.to_nat max_seq_length) 0
    /\ input_mask f = replicate (Z.to_nat max_seq_length) (NInt 0)
    /\ segment_ids f = replicate (Z.to_nat max_seq_length) 0
    /\ label_id f = match label_vocab with
                    | Some _ => NInt 0
                    | None => NFloat (float_of_int 0)
                    end
    /\ is_real_example f = false.
Proof.
  exists (FeatureEncoder.padding_feature label_vocab max_seq_length).
  repeat split.
Qed.

(** A real example hands its texts to the tokenizer; the padding sentinel
    hands it none, also when the tokenizer fails on every text. *)
Example encode_real_calls_tokenizer :
  (FeatureEncoder.encode (FM := integral_floats) char_tokenize
     sample_convention (fun _ => Raise ValueError) 0
     (Real (mkInputExample "dev-0" (VStr "ab") (VStr "xyz") (VStr "1")))
     (Some ["0"; "1"]%string) 12).1
  = ["ab"; "xyz"]%string.
Proof. vm_compute. reflexivity. Qed.

Example encode_padding_failing_tokenizer :
  FeatureEncoder.encode (FM := integral_floats)
    (fun _ => Raise TokenizationError)
    sample_convention (fun _ => Raise ValueError) 0 PaddingInputExample
    (Some ["0"; "1"]%string) 4
  = ([], Ok {| input_ids := [0; 0; 0; 0];
               input_mask := [NInt 0; NInt 0; NInt 0; NInt 0];
               segment_ids := [0; 0; 0; 0];
               label_id := NInt 0;
               is_real_example := false |}).
Proof. vm_compute. reflexivity. Qed.

(** ** The JSON-lines adapters *)

Section Loops.

Context {A B : Type}.

Lemma for_enumerate_append (body : nat -> A -> list B -> result (list B))
    (g : nat -> A -> B) (l : list A) :
  (forall i x acc, x ∈ l -> body i x acc = Ok (acc ++ [g i x])) ->
  forall i acc,
    for_enumerate body i l acc
    = Ok (acc ++ imap (fun k x => g (i + k)%nat x) l).
Proof.
  induction l as [|x l IH]; intros Hbody i acc; simpl.
  - now rewrite app_nil_r.
  - rewrite Hbody by constructor. simpl.
    rewrite IH by (intros; apply Hbody; now constructor).
    rewrite <- app_assoc. simpl. rewrite Nat.add_0_r.
    do 3 f_equal. apply imap_ext. intros k y _. simpl. f_equal. lia.
Qed.

End Loops.

Lemma lookup_text (line : gmap string value) (key : string) :
  has_text key line ->
  py_getitem line key ≫= ClassifierUtils.convert_to_unicode
  = Ok (text_at key line)
  /\ py_getitem line key = Ok (field_at key line)
  /\ field_at key line = VStr (text_at key line).
Proof.
  intros [s Hs]. unfold py_getitem, text_at, field_at. rewrite Hs.
  repeat split.
Qed.

Lemma lookup_field (line : gmap string value) (key : string) :
  is_Some (line !! key) -> py_getitem line key = Ok (field_at key line).
Proof.
  intros [v Hv]. unfold py_getitem, field_at. now rewrite Hv.
Qed.

(** The examples the adapters build on the test split, per record. *)

Ltac test_split_loop g :=
  intros Hlines;
  rewrite (for_enumerate_append _ g); [reflexivity|];
  intros i line acc Hin;
  rewrite Forall_forall in Hlines; specialize (Hlines line Hin).

Lemma cu_tnews_test (lines : list (gmap string value)) :
  Forall (has_text "sentence") lines ->
  ClassifierUtils.TnewsProcessor._create_examples lines "test"
  = Ok (imap (fun i line =>
          mkInputExample (format_guid "test" i)
                         (VStr (text_at "sentence" line)) VNone VNone) lines).
Proof.
  unfold ClassifierUtils.TnewsProcessor._create_examples.
  test_split_loop (fun i line =>
    mkInputExample (format_guid "test" i)
                   (VStr (text_at "sentence" line)) VNone VNone).
  destruct (lookup_text line "sentence" Hlines) as (-> & _). reflexivity.
Qed.

Lemma cu_iflytek_test (lines : list (gmap string value)) :
  Forall (has_text "sentence") lines ->
  ClassifierUtils.iFLYTEKDataProcessor._create_examples lines "test"
  = Ok (imap (fun i line =>
          mkInputExample (format_guid "test" i)
                         (VStr (text_at "sentence" line)) VNone VNone) lines).
Proof.
  unfold ClassifierUtils.iFLYTEKDataProcessor._create_examples.
  test_split_loop (fun i line =>
    mkInputExample (format_guid "test" i)
                   (VStr (text_at "sentence" line)) VNone VNone).
  destruct (lookup_text line "sentence" Hlines) as (-> & _). reflexivity.
Qed.

Lemma cu_xnli_test (lines : list (gmap string value)) :
  Forall (fun line => has_text "premise" line /\ has_text "hypo" line) lines ->
  ClassifierUtils.XnliProcessor._create_examples lines "test"
  = Ok (imap (fun i line =>
          mkInputExample (format_guid "test" i)
                         (VStr (text_at "premise" line))
                         (VStr (text_at "hypo" line))
                         (VStr "contradiction")) lines).
Proof.
  unfold ClassifierUtils.XnliProcessor._create_examples.
  test_split_loop (fun i line =>
    mkInputExample (format_guid "test" i)
                   (VStr (text_at "premise" line))
                   (VStr (text_at "hypo" line)) (VStr "contradiction")).
  destruct Hlines as [Hp Hh].
  destruct (lookup_text line "premise" Hp) as (-> & _).
  destruct (lookup_text line "hypo" Hh) as (-> & _). reflexivity.
Qed.

Lemma cu_afqmc_test (lines : list (gmap string value)) :
  Forall (fun line => has_text "sentence1" line /\ has_text "sentence2" line)
         lines ->
  ClassifierUtils.AFQMCProcessor._create_examples lines "test"
  = Ok (imap (fun i line =>
          mkInputExample (format_guid "test" i)
                         (VStr (text_at "sentence1" line))
                         (VStr (text_at "sentence2" line))
                         (VStr "0")) lines).
Proof.
  unfold ClassifierUtils.AFQMCProcessor._create_examples.
  test_split_loop (fun i line =>
    mkInputExample (format_guid "test" i)
                   (VStr (text_at "sentence1" line))
                   (VStr (text_at "sentence2" line)) (VStr "0")).
  destruct Hlines as [Hp Hh].
  destruct (lookup_text line "sentence1" Hp) as (-> & _).
  destruct (lookup_text line "sentence2" Hh) as (-> & _). reflexivity.
Qed.

Lemma rc_tnews_test (lines : list (gmap string value)) :
  Forall (fun line => is_Some (line !! "sentence")) lines ->
  RunClassifier.TnewsProcessor._create_examples lines "test"
  = Ok (imap (fun i line =>
          mkInputExample (format_guid "test" i)
                         (field_at "sentence" line) VNone VNone) lines).
Proof.
  unfold RunClassifier.TnewsProcessor._create_examples.
  test_split_loop (fun i line =>
    mkInputExample (format_guid "test" i)
                   (field_at "sentence" line) VNone VNone).
  rewrite (lookup_field line "sentence" Hlines). reflexivity.
Qed.

Lemma rc_iflytek_test (lines : list (gmap string value)) :
  Forall (fun line => is_Some (line !! "sentence")) lines ->
  RunClassifier.iFLYTEKDataProcessor._create_examples lines "test"
  = Ok (imap (fun i line =>
          mkInputExample (format_guid "test" i)
                         (field_at "sentence" line) VNone VNone) lines).
Proof.
  unfold RunClassifier.iFLYTEKDataProcessor._create_examples.
  test_split_loop (fun i line =>
    mkInputExample (format_guid "test" i)
                   (field_at "sentence" line) VNone VNone).
  rewrite (lookup_field line "sentence" Hlines). reflexivity.
Qed.

Lemma rc_xnli_test (lines : list (gmap string value)) :
  Forall (fun line => is_Some (line !! "premise") /\ is_Some (line !! "hypo"))
         lines ->
  RunClassifier.XnliProcessor.get_test_examples lines
  = Ok (imap (fun i line =>
          mkInputExample (format_guid "test" i)
                         (field_at "premise" line) (field_at "hypo" line)
                         VNone) lines).
Proof.
  unfold RunClassifier.XnliProcessor.get_test_examples.
  test_split_loop (fun i line =>
    mkInputExample (format_guid "test" i)
                   (field_at "premise" line) (field_at "hypo" line) VNone).
  destruct Hlines as [Hp Hh].
  rewrite (lookup_field line "premise" Hp), (lookup_field line "hypo" Hh).
  reflexivity.
Qed.

Lemma Forall_has_text_is_Some (key : string)
    (lines : list (gmap string value)) :
  Forall (has_text key) lines ->
  Forall (fun line => is_Some (line !! key)) lines.
Proof.
  intros H. eapply Forall_impl; [exact H|].
  intros line [s Hs]. now exists (VStr s).
Qed.

Lemma imap_label_const {X} (g : nat -> X -> InputExample) (v : value)
    (l : list X) :
  (forall i x, label (g i x) = v) ->
  Forall (fun e => label e = v) (imap g l).
Proof.
  intros Hg. revert g Hg. induction l as [|x l IH]; intros g Hg; simpl.
  - constructor.
  - constructor; [apply Hg|]. apply IH. intros i y. apply Hg.
Qed.

(** C8.  [get_labels] of the Tnews adapter, in both files, is the constant
    list of the fifteen strings [str(100 + i)], [i] from 0 to 16 without 5
    and 11, in increasing order; on the test split every record with a
    sentence, with or without a label, gives an example whose label is
    [None], and no exception.  The scenario of three records is included. *)
Theorem tnews_labels_and_test_split (lines : list (gmap string value)) :
  Forall (has_text "sentence") lines ->
  ClassifierUtils.TnewsProcessor.get_labels = tnews_labels
  /\ RunClassifier.TnewsProcessor.get_labels = tnews_labels
  /\ tnews_labels
     = (fun i => str (100 + i))
         <$> filter (fun i => i <> 5 /\ i <> 11) (range 17)
  /\ length tnews_labels = 15%nat
  /\ (exists exs,
        ClassifierUtils.TnewsProcessor._create_examples lines "test" = Ok exs
        /\ length exs = length lines
        /\ Forall (fun e => label e = VNone) exs)
  /\ (exists exs,
        RunClassifier.TnewsProcessor._create_examples lines "test" = Ok exs
        /\ length exs = length lines
        /\ Forall (fun e => label e = VNone) exs)
  /\ ClassifierUtils.TnewsProcessor._create_examples
       [tnews_line_a; tnews_line_b] "train"
     = Ok [mkInputExample "train-0" (VStr "a") VNone (VStr "100");
           mkInputExample "train-1" (VStr "b") VNone (VStr "103")]
  /\ ClassifierUtils.TnewsProcessor._create_examples [tnews_line_c] "test"
     = Ok [mkInputExample "test-0" (VStr "c") VNone VNone]
  /\ RunClassifier.TnewsProcessor._create_examples [tnews_line_c] "test"
     = Ok [mkInputExample "test-0" (VStr "c") VNone VNone].
Proof.
  intros Hlines.
  split; [vm_compute; reflexivity|].
  split; [vm_compute; reflexivity|].
  split; [vm_compute; reflexivity|].
  split; [reflexivity|].
  split.
  { eexists. split; [apply cu_tnews_test, Hlines|].
    split; [apply length_imap|]. now apply imap_label_const. }
  split.
  { eexists.
    split; [apply rc_tnews_test, Forall_has_text_is_Some, Hlines|].
    split; [apply length_imap|]. now apply imap_label_const. }
  repeat split; vm_compute; reflexivity.
Qed.

Lemma tnews_labels_and_test_split_witness :
  Forall (has_text "sentence") [tnews_line_c]
  /\ (exists exs,
        ClassifierUtils.TnewsProcessor._create_examples [tnews_line_c] "test"
        = Ok exs
        /\ length exs = length [tnews_line_c]
        /\ Forall (fun e => label e = VNone) exs).
Proof.
  assert (H : Forall (has_text "sentence") [tnews_line_c]).
  { repeat constructor. exists "c"%string. reflexivity. }
  split; [exact H|].
  exact (proj1 (proj2 (proj2 (proj2 (proj2
           (tnews_labels_and_test_split [tnews_line_c] H)))))).
Defined.

(** The classifier_utils adapter of XNLI gives the test example of a record
    without a label the label ["contradiction"], not [None]. *)
Lemma xnli_test_label_is_placeholder :
  ClassifierUtils.XnliProcessor._create_examples [xnli_test_line] "test"
  = Ok [mkInputExample "test-0" (VStr "a") (VStr "b") (VStr "contradiction")]
  /\ ~ (exists exs,
         ClassifierUtils.XnliProcessor._create_examples [xnli_test_line] "test"
         = Ok exs
         /\ Forall (fun e => label e = VNone) exs).
Proof.
  assert (Hrun :
    ClassifierUtils.XnliProcessor._create_examples [xnli_test_line] "test"
    = Ok [mkInputExample "test-0" (VStr "a") (VStr "b")
                         (VStr "contradiction")])
    by (vm_compute; reflexivity).
  split; [exact Hrun|].
  intros (exs & Hexs & Hnone). rewrite Hrun in Hexs.
  injection Hexs as <-. inversion Hnone as [|e l Hlabel _]; subst.
  discriminate Hlabel.
Qed.

(** C6, amended.  On the test split no JSON-lines adapter reads the label
    of a record, so a record without one raises nothing: every adapter
    builds one example per record, and the label of the example is [None]
    for Tnews and iFLYTEK (both files) and for XNLI of run_classifier, the
    placeholder ["contradiction"] for XNLI of classifier_utils and the
    placeholder ["0"] for AFQMC. *)
Theorem json_adapters_test_split
    (pair_lines sentence_lines afqmc_lines : list (gmap string value)) :
  Forall (fun line => has_text "premise" line /\ has_text "hypo" line)
         pair_lines ->
  Forall (has_text "sentence") sentence_lines ->
  Forall (fun line => has_text "sentence1" line /\ has_text "sentence2" line)
         afqmc_lines ->
  (exists exs,
     ClassifierUtils.TnewsProcessor._create_examples sentence_lines "test"
     = Ok exs
     /\ length exs = length sentence_lines
     /\ Forall (fun e => label e = VNone) exs)
  /\ (exists exs,
        ClassifierUtils.iFLYTEKDataProcessor._create_examples
          sentence_lines "test"
        = Ok exs
        /\ length exs = length sentence_lines
        /\ Forall (fun e => label e = VNone) exs)
  /\ (exists exs,
        RunClassifier.TnewsProcessor._create_examples sentence_lines "test"
        = Ok exs
        /\ length exs = length sentence_lines
        /\ Forall (fun e => label e = VNone) exs)
  /\ (exists exs,
        RunClassifier.iFLYTEKDataProcessor._create_examples
          sentence_lines "test"
        = Ok exs
        /\ length exs = length sentence_lines
        /\ Forall (fun e => label e = VNone) exs)
  /\ (exists exs,
        RunClassifier.XnliProcessor.get_test_examples pair_lines = Ok exs
        /\ length exs = length pair_lines
        /\ Forall (fun e => label e = VNone) exs)
  /\ (exists exs,
        ClassifierUtils.XnliProcessor._create_examples pair_lines "test"
        = Ok exs
        /\ length exs = length pair_lines
        /\ Forall (fun e => label e = VStr "contradiction") exs)
  /\ (exists exs,
        ClassifierUtils.AFQMCProcessor._create_examples afqmc_lines "test"
        = Ok exs
        /\ length exs = length afqmc_lines
        /\ Forall (fun e => label e = VStr "0") exs).
Proof.
  intros Hpair Hsent Hafqmc.
  pose proof (Forall_has_text_is_Some _ _ Hsent) as Hsent'.
  assert (Hpair' : Forall (fun line => is_Some (line !! "premise")
                                       /\ is_Some (line !! "hypo"))
                          pair_lines).
  { eapply Forall_impl; [exact Hpair|].
    intros line [[s Hs] [t Ht]]. split; eauto. }
  split. { eexists. split; [now apply cu_tnews_test|].
           split; [apply length_imap | now apply imap_label_const]. }
  split. { eexists. split; [now apply cu_iflytek_test|].
           split; [apply length_imap | now apply imap_label_const]. }
  split. { eexists. split; [now apply rc_tnews_test|].
           split; [apply length_imap | now apply imap_label_const]. }
  split. { eexists. split; [now apply rc_iflytek_test|].
           split; [apply length_imap | now apply imap_label_const]. }
  split. { eexists. split; [now apply rc_xnli_test|].
           split; [apply length_imap | now apply imap_label_const]. }
  split. { eexists. split; [now apply cu_xnli_test|].
           split; [apply length_imap | now apply imap_label_const]. }
  eexists. split; [now apply cu_afqmc_test|].
  split; [apply length_imap | now apply imap_label_const].
Qed.

Lemma json_adapters_test_split_witness :
  Forall (fun line => has_text "premise" line /\ has_text "hypo" line)
         [xnli_test_line]
  /\ Forall (has_text "sentence") [tnews_line_c]
  /\ Forall (fun line => has_text "sentence1" line
                         /\ has_text "sentence2" line) [afqmc_test_line]
  /\ (exists exs,
        RunClassifier.XnliProcessor.get_test_examples [xnli_test_line]
        = Ok exs
        /\ length exs = length [xnli_test_line]
        /\ Forall (fun e => label e = VNone) exs)
  /\ (exists exs,
        ClassifierUtils.XnliProcessor._create_examples [xnli_test_line] "test"
        = Ok exs
        /\ length exs = length [xnli_test_line]
        /\ Forall (fun e => label e = VStr "contradiction") exs).
Proof.
  assert (H1 : Forall (fun line => has_text "premise" line
                                   /\ has_text "hypo" line) [xnli_test_line]).
  { repeat constructor; [exists "a"%string | exists "b"%string]; reflexivity. }
  assert (H2 : Forall (has_text "sentence") [tnews_line_c]).
  { repeat constructor. exists "c"%string. reflexivity. }
  assert (H3 : Forall (fun line => has_text "sentence1" line
                                   /\ has_text "sentence2" line)
                      [afqmc_test_line]).
  { repeat constructor; [exists "a"%string | exists "b"%string]; reflexivity. }
  destruct (json_adapters_test_split [xnli_test_line] [tnews_line_c]
              [afqmc_test_line] H1 H2 H3)
    as (_ & _ & _ & _ & Hrc & Hcu & _).
  split; [exact H1|]. split; [exact H2|]. split; [exact H3|].
  split; [exact Hrc | exact Hcu].
Defined.

(** ** The row-oriented adapters *)

Lemma py_index_in_range {X} (l : list X) (i : Z) :
  0 <= i < Z.of_nat (length l) -> exists x, py_index l i = Ok x.
Proof.
  intros Hi. unfold py_index.
  assert (Hneg : (i <? 0) = false) by lia.
  assert (Hend : (Z.of_nat (length l) <=? i) = false) by lia.
  cbv zeta. rewrite Hneg. cbn iota. rewrite Hneg, Hend. cbn.
  destruct (lookup_lt_is_Some_2 l (Z.to_nat i)) as [x Hx]; [lia|].
  rewrite Hx. now exists x.
Qed.

Lemma py_index_past_end {X} (l : list X) (i : Z) :
  Z.of_nat (length l) <= i -> py_index l i = Raise IndexError.
Proof.
  intros Hi. unfold py_index.
  assert (Hneg : (i <? 0) = false) by lia.
  assert (Hend : (Z.of_nat (length l) <=? i) = true) by lia.
  cbv zeta. rewrite Hneg. cbn iota. rewrite Hneg, Hend. reflexivity.
Qed.

Lemma for_enumerate_total {X St} (body : nat -> X -> St -> result St)
    (l : list X) :
  (forall i x s, exists s', body i x s = Ok s') ->
  forall i s, exists s', for_enumerate body i l s = Ok s'.
Proof.
  intros Hbody. induction l as [|x l IH]; intros i s; simpl.
  - now exists s.
  - destruct (Hbody i x s) as [s' ->]. simpl. apply IH.
Qed.

(** LCQMC and BQ: a short row is reported and skipped, the load goes on. *)
Lemma lcqmc_never_raises (lines : list (list string)) (set_type : string) :
  exists st,
    RunClassifier.LCQMCProcessor._create_examples lines set_type = Ok st
    /\ RunClassifier.BQProcessor._create_examples lines set_type = Ok st.
Proof.
  assert (H : exists st,
    RunClassifier.LCQMCProcessor._create_examples lines set_type = Ok st).
  { unfold RunClassifier.LCQMCProcessor._create_examples.
    apply for_enumerate_total. intros i line st.
    destruct (i =? 0)%nat; [now eexists|].
    match goal with |- context [match ?r with Ok _ => _ | Raise _ => _ end] =>
      destruct r end; now eexists. }
  destruct H as [st Hst]. exists st. split; exact Hst.
Qed.

(** The GLUE adapters whose columns are configured and not negative guard
    every index: no row makes them raise. *)
Lemma glue_never_raises (self : RunClassifier.GLUEProcessor.t)
    (lines : list (list string)) (set_type : string) (a l : Z) :
  RunClassifier.GLUEProcessor.text_a_column self = Some a ->
  RunClassifier.GLUEProcessor.test_text_a_column self = Some a ->
  RunClassifier.GLUEProcessor.test_text_b_column self
  = RunClassifier.GLUEProcessor.text_b_column self ->
  RunClassifier.GLUEProcessor.label_column self = Some l ->
  0 <= a -> 0 <= l ->
  (forall b, RunClassifier.GLUEProcessor.text_b_column self = Some b ->
             0 <= b) ->
  RunClassifier.GLUEProcessor.get_labels self <> [] ->
  exists st,
    RunClassifier.GLUEProcessor._create_examples self lines set_type = Ok st.
Proof.
  intros Ha Hta Htb Hl Ha0 Hl0 Hb0 Hlabels.
  unfold RunClassifier.GLUEProcessor._create_examples.
  apply for_enumerate_total. intros i line st.
  rewrite Ha, Hta, Htb, Hl.
  destruct ((i =? 0)%nat && RunClassifier.GLUEProcessor.contains_header self
            && negb (set_type =? "test")%string); [now eexists|].
  destruct ((i =? 0)%nat
            && RunClassifier.GLUEProcessor.test_contains_header self
            && (set_type =? "test")%string); [now eexists|].
  assert (Hcol : (if negb (set_type =? "test")%string
                  then Some a else Some a) = Some a)
    by now destruct (set_type =? "test")%string.
  rewrite Hcol.
  assert (Hcolb : (if negb (set_type =? "test")%string
                   then RunClassifier.GLUEProcessor.text_b_column self
                   else RunClassifier.GLUEProcessor.text_b_column self)
                  = RunClassifier.GLUEProcessor.text_b_column self)
    by now destruct (set_type =? "test")%string.
  rewrite Hcolb. simpl.
  destruct (Z.leb_spec (Z.of_nat (length line)) a) as [?|Hlen_a];
    [now eexists|].
  destruct (py_index_in_range line a) as [ta ->]; [lia|]. simpl.
  assert (Hlabel0 : exists lab,
            py_index (RunClassifier.GLUEProcessor.get_labels self) 0 = Ok lab).
  { apply py_index_in_range.
    destruct (RunClassifier.GLUEProcessor.get_labels self);
      [congruence | simpl; lia]. }
  destruct Hlabel0 as [lab0 Hlab0].
  destruct (RunClassifier.GLUEProcessor.text_b_column self) as [b|] eqn:Hb;
    simpl.
  - specialize (Hb0 b eq_refl).
    destruct (Z.leb_spec (Z.of_nat (length line)) b) as [?|Hlen_b];
      [now eexists|].
    destruct (py_index_in_range line b) as [tb ->]; [lia|]. simpl.
    destruct (set_type =? "test")%string.
    + rewrite Hlab0. now eexists.
    + simpl. destruct (Z.leb_spec (Z.of_nat (length line)) l) as [?|Hlen_l];
        [now eexists|].
      destruct (py_index_in_range line l) as [tl ->]; [lia|]. now eexists.
  - destruct (set_type =? "test")%string.
    + rewrite Hlab0. now eexists.
    + simpl. destruct (Z.leb_spec (Z.of_nat (length line)) l) as [?|Hlen_l];
        [now eexists|].
      destruct (py_index_in_range line l) as [tl ->]; [lia|]. now eexists.
Qed.

(** A short row between two rows: GLUE and LCQMC skip it and go on, the
    adapters without a guard stop with [IndexError]. *)
Example glue_skips_short_row :
  RunClassifier.GLUEProcessor._create_examples sample_glue
    [["text"; "label"]; ["a"]; ["b"; "1"]]%string "train"
  = Ok ([mkInputExample "train-2" (VStr "b") VNone (VStr "1")],
        [RunClassifier.GLUEProcessor.warning]).
Proof. vm_compute. reflexivity. Qed.

Example lcqmc_skips_short_row :
  RunClassifier.LCQMCProcessor._create_examples
    [["a"; "b"; "label"]; ["x"; "y"]; ["u"; "v"; "1"]]%string "train"
  = Ok ([mkInputExample "train-2" (VStr "u") (VStr "v") (VStr "1")],
        ["length of lines:"; "###error.i:"]%string).
Proof. vm_compute. reflexivity. Qed.

Example inews_short_row_raises :
  RunClassifier.InewsProcessor._create_examples
    [["label"; "id"; "a"; "b"]; ["0"; "7"; "x"]; ["1"; "8"; "u"; "v"]]%string
    "train"
  = Raise IndexError.
Proof. vm_compute. reflexivity. Qed.

Example csc_short_row_raises :
  RunClassifier.CSCProcessor.get_examples
    [["label"; "text"]; ["0"]; ["1"; "u"]]%string "train"
  = Raise IndexError.
Proof. vm_compute. reflexivity. Qed.

Example thucnews_skips_two_column_row :
  RunClassifier.THUCNewsProcessor._create_examples
    [thucnews_header; ["0"; "x"]; ["1"; "a"; "b"; "text"]]%string "train"
  = Ok ([mkInputExample "train-2" (VStr "text") VNone (VStr "1")], []).
Proof. vm_compute. reflexivity. Qed.

(** C7.  THUCNews skips the rows shorter than three columns and then reads
    column 3: a row of exactly three columns passes the guard and the load
    ends with [IndexError].  (The adapter builds no example and returns
    nothing for the rows that follow.) *)
Theorem thucnews_three_column_row_raises (header row : list string)
    (rest : list (list string)) (set_type : string) :
  length row = 3%nat ->
  RunClassifier.THUCNewsProcessor._create_examples (header :: row :: rest)
                                                   set_type
  = Raise IndexError.
Proof.
  intros Hlen. unfold RunClassifier.THUCNewsProcessor._create_examples.
  simpl. rewrite Hlen. simpl.
  rewrite (py_index_past_end row 3) by lia. reflexivity.
Qed.

Lemma thucnews_three_column_row_raises_witness :
  length thucnews_row3 = 3%nat
  /\ RunClassifier.THUCNewsProcessor._create_examples
       [thucnews_header; thucnews_row3] "train"
     = Raise IndexError.
Proof.
  split; [reflexivity|].
  apply (thucnews_three_column_row_raises thucnews_header thucnews_row3 []
                                          "train").
  reflexivity.
Defined.

(** ** The two [_read_tsv] *)

Section ReadTsv.

Context {X : Type}.

Lemma fold_left_append (l acc : list X) :
  fold_left (fun lines line => lines ++ [line]) l acc = acc ++ l.
Proof.
  revert acc. induction l as [|x l IH]; intros acc; simpl.
  - now rewrite app_nil_r.
  - rewrite IH, <- app_assoc. reflexivity.
Qed.

Lemma fold_left_append_nonempty (l acc : list (list X)) :
  fold_left (fun lines line =>
               if (length line =? 0)%nat then lines else lines ++ [line])
            l acc
  = acc ++ filter (fun row => length row <> 0%nat) l.
Proof.
  revert acc. induction l as [|x l IH]; intros acc; simpl.
  - now rewrite app_nil_r.
  - rewrite IH. destruct (Nat.eqb_spec (length x) 0) as [Hz|Hnz].
    + rewrite filter_cons_False by (intros H; now apply H). reflexivity.
    + rewrite filter_cons_True by assumption.
      rewrite <- app_assoc. reflexivity.
Qed.

Lemma filter_id_Forall (P : list X -> Prop) `{forall x, Decision (P x)}
    (l : list (list X)) :
  filter P l = l <-> Forall P l.
Proof.
  split.
  - induction l as [|x l IH]; intros Hf; [constructor|].
    destruct (decide (P x)) as [Hp|Hn].
    + rewrite filter_cons_True in Hf by assumption.
      constructor; [assumption|]. apply IH. congruence.
    + rewrite filter_cons_False in Hf by assumption.
      pose proof (length_filter P l) as Hlen.
      rewrite Hf in Hlen. simpl in Hlen. lia.
  - induction 1 as [|x l Hp _ IH]; [reflexivity|].
    rewrite filter_cons_True by assumption. now rewrite IH.
Qed.

End ReadTsv.

(** On a file with an empty line the two readers differ: the reader of
    classifier_utils keeps the empty row, the one of run_classifier drops
    it. *)
Lemma read_tsv_differ_on_blank_line :
  ClassifierUtils._read_tsv csv_plain tsv_with_blank_line RunClassifier.TAB
  = [["a"]; []; ["b"]]%string
  /\ RunClassifier._read_tsv csv_plain tsv_with_blank_line
     = [["a"]; ["b"]]%string
  /\ ClassifierUtils._read_tsv csv_plain tsv_with_blank_line RunClassifier.TAB
     <> RunClassifier._read_tsv csv_plain tsv_with_blank_line.
Proof.
  repeat split; try (vm_compute; reflexivity).
  vm_compute. discriminate.
Qed.

(** C10, amended.  For every file, [_read_tsv] of run_classifier returns the
    rows that [_read_tsv] of classifier_utils returns for the tab delimiter
    with the rows of length zero left out, in the same order; the two agree
    exactly on the files that have no row of length zero. *)
Theorem read_tsv_refinement
    (csv_reader : string -> ascii -> list (list string)) (f : string) :
  RunClassifier._read_tsv csv_reader f
  = filter (fun row => length row <> 0%nat)
           (ClassifierUtils._read_tsv csv_reader f RunClassifier.TAB)
  /\ ClassifierUtils._read_tsv csv_reader f RunClassifier.TAB
     = csv_reader f RunClassifier.TAB
  /\ (RunClassifier._read_tsv csv_reader f
      = ClassifierUtils._read_tsv csv_reader f RunClassifier.TAB
      <-> Forall (fun row => length row <> 0%nat)
                 (csv_reader f RunClassifier.TAB)).
Proof.
  unfold RunClassifier._read_tsv, ClassifierUtils._read_tsv.
  rewrite fold_left_append, fold_left_append_nonempty. simpl.
  split; [reflexivity|]. split; [reflexivity|].
  apply filter_id_Forall.
Qed.

Lemma read_tsv_refinement_witness :
  Forall (fun row => length row <> 0%nat)
         (csv_plain tsv_without_blank_line RunClassifier.TAB)
  /\ RunClassifier._read_tsv csv_plain tsv_without_blank_line
     = ClassifierUtils._read_tsv csv_plain tsv_without_blank_line
                                 RunClassifier.TAB.
Proof.
  assert (H : Forall (fun row => length row <> 0%nat)
                     (csv_plain tsv_without_blank_line RunClassifier.TAB)).
  { vm_compute. repeat constructor. discriminate. }
  split; [exact H|].
  apply (proj2 (proj2 (read_tsv_refinement csv_plain
                                           tsv_without_blank_line))).
  exact H.
Defined.

(** ** The record writer *)

Lemma mapM_cons_result {X Y} (f : X -> result Y) (x : X) (l : list X) :
  mapM f (x :: l)
  = match f x with
    | Ok y => match mapM f l with
              | Ok k => Ok (y :: k)
              | Raise e => Raise e
              end
    | Raise e => Raise e
    end.
Proof.
  simpl. destruct (f x); simpl; [|reflexivity].
  destruct (mapM f l); reflexivity.
Qed.

Lemma length_mapM_result {X Y} (f : X -> result Y) (l : list X)
    (k : list Y) :
  mapM f l = Ok k -> length k = length l.
Proof.
  revert k. induction l as [|x l IH]; intros k; simpl.
  - intros [= <-]. reflexivity.
  - destruct (f x) as [y|e]; simpl; [|discriminate].
    destruct (mapM f l) as [k'|e]; simpl; [|discriminate].
    intros [= <-]. simpl. f_equal. now apply IH.
Qed.

Lemma length_list_mul {X} (l : list X) (n : Z) :
  length (RunClassifier.list_mul l n) = (Z.to_nat n * length l)%nat.
Proof.
  unfold RunClassifier.list_mul.
  induction (Z.to_nat n) as [|k IH]; simpl; [reflexivity|].
  rewrite length_app, IH. reflexivity.
Qed.

Lemma lookup_list_mul {X} (l : list X) (n : Z) (pass k : nat) :
  (pass < Z.to_nat n)%nat -> (k < length l)%nat ->
  RunClassifier.list_mul l n !! (pass * length l + k)%nat = l !! k.
Proof.
  unfold RunClassifier.list_mul.
  generalize (Z.to_nat n) as m. intros m. revert pass.
  induction m as [|m IH]; intros pass Hpass Hk; [lia|]. simpl.
  destruct pass as [|pass].
  - simpl. now apply lookup_app_l.
  - rewrite lookup_app_r by (simpl; lia).
    replace (S pass * length l + k - length l)%nat
      with (pass * length l + k)%nat by (simpl; lia).
    apply IH; lia.
Qed.

Section Writer.

Context `{FM : FloatModel}.
Variable tokenizer : Type.
Variable convert_single_example :
  nat -> example -> option (list string) -> Z -> tokenizer ->
  result InputFeatures.
Variable FLAGS : RunClassifier.flags.
Variable label_list : option (list string).
Variable max_seq_length : Z.
Variable tokenize_fn : tokenizer.
Variable output_file : string.

Local Abbreviation record_of :=
  (RunClassifier.record_of tokenizer convert_single_example label_list
                           max_seq_length tokenize_fn).
Local Abbreviation write_examples :=
  (RunClassifier.write_examples tokenizer convert_single_example label_list
                                max_seq_length tokenize_fn output_file).
Local Abbreviation writer :=
  (RunClassifier.file_based_convert_examples_to_features
     tokenizer convert_single_example FLAGS).

Lemma write_examples_run (examples : list example) :
  forall (i : nat) (fs : gmap string (list (gmap string RunClassifier.Feature)))
         written records,
    fs !! output_file = Some written ->
    mapM id (imap (fun k e => record_of (i + k)%nat e) examples) = Ok records ->
    write_examples i examples fs
    = (Ok (), <[output_file := written ++ records]> fs).
Proof.
  induction examples as [|e examples IH]; intros i fs written records Hfile;
    simpl.
  - intros Hnil. cbv in Hnil. injection Hnil as <-.
    rewrite app_nil_r. now rewrite insert_id.
  - rewrite Nat.add_0_r. unfold id at 1.
    unfold RunClassifier.record_of in *.
    destruct (convert_single_example i e label_list max_seq_length
                                     tokenize_fn ≫= _) as [r|err] eqn:Hr;
      simpl; [|discriminate].
    destruct (mapM id _) as [records'|err] eqn:Hrest; simpl; [|discriminate].
    intros [= <-].
    rewrite (IH (S i) _ (written ++ [r]) records').
    + unfold RunClassifier.writer_write. rewrite Hfile. simpl.
      rewrite insert_insert_eq, <- app_assoc. reflexivity.
    + unfold RunClassifier.writer_write. rewrite Hfile. simpl.
      apply lookup_insert_eq.
    + rewrite <- Hrest. f_equal. apply imap_ext. intros k x _. simpl.
      do 2 f_equal. lia.
Qed.

Lemma write_examples_keeps_file (examples : list example) :
  forall (i : nat) (fs : gmap string (list (gmap string RunClassifier.Feature))),
    is_Some (fs !! output_file) ->
    is_Some ((write_examples i examples fs).2 !! output_file).
Proof.
  induction examples as [|e examples IH]; intros i fs Hfile; simpl.
  - exact Hfile.
  - destruct (convert_single_example i e label_list max_seq_length
                                     tokenize_fn ≫= _) as [r|err]; simpl.
    + apply IH. unfold RunClassifier.writer_write.
      rewrite lookup_insert_eq. eauto.
    + exact Hfile.
Qed.

(** The guard of the writer: with the file there and [overwrite_data]
    false nothing is written and the list is left as it was. *)
Lemma writer_keeps_cached_file (examples : list example) (num_passes : Z)
    (fs : gmap string (list (gmap string RunClassifier.Feature))) :
  is_Some (fs !! output_file) ->
  RunClassifier.overwrite_data FLAGS = false ->
  writer examples label_list max_seq_length tokenize_fn output_file
         num_passes fs
  = (Ok (), examples, fs).
Proof.
  intros Hfile Hflag.
  unfold RunClassifier.file_based_convert_examples_to_features,
    RunClassifier.Exists_.
  rewrite bool_decide_eq_true_2 by assumption. now rewrite Hflag.
Qed.

(** X16.  After a call of the writer the file is there, whatever the
    outcome of the call, so a second call with [overwrite_data] false
    changes neither the file system nor the list. *)
Lemma writer_second_call (examples : list example) (num_passes : Z)
    (fs : gmap string (list (gmap string RunClassifier.Feature))) :
  RunClassifier.overwrite_data FLAGS = false ->
  forall r examples1 fs1,
    writer examples label_list max_seq_length tokenize_fn output_file
           num_passes fs = (r, examples1, fs1) ->
    writer examples1 label_list max_seq_length tokenize_fn output_file
           num_passes fs1 = (Ok (), examples1, fs1).
Proof.
  intros Hflag r examples1 fs1 Hcall.
  apply writer_keeps_cached_file; [|assumption].
  revert Hcall.
  unfold RunClassifier.file_based_convert_examples_to_features,
    RunClassifier.Exists_.
  rewrite Hflag. simpl. rewrite andb_true_r.
  destruct (bool_decide_reflect (is_Some (fs !! output_file))) as [Hex|Hnew].
  - intros [= _ _ <-]. exact Hex.
  - match goal with
    | |- context [write_examples 0%nat ?l ?fs0] =>
        pose proof (write_examples_keeps_file l 0%nat fs0) as Hkeep;
        destruct (write_examples 0%nat l fs0) as [r' fs'] eqn:Hw
    end.
    intros [= _ _ <-]. apply Hkeep.
    unfold RunClassifier.TFRecordWriter. rewrite lookup_insert_eq. eauto.
Qed.

(** C9, amended.  When the writer is not stopped by its guard and every
    example of the list it walks converts, the file it writes holds the
    records of that list, in order, one per example; the list is the input
    repeated
    [num_passes] times when [num_passes > 1], each pass in the order of the
    input, and the input itself otherwise, and is also what the caller's
    list has become. *)
Theorem writer_num_passes (examples : list example) (num_passes : Z)
    (fs : gmap string (list (gmap string RunClassifier.Feature)))
    (records : list (gmap string RunClassifier.Feature)) :
  RunClassifier.Exists_ output_file fs
  && negb (RunClassifier.overwrite_data FLAGS) = false ->
  mapM id (imap record_of
             (if num_passes >? 1
              then RunClassifier.list_mul examples num_passes
              else examples)) = Ok records ->
  exists examples',
    writer examples label_list max_seq_length tokenize_fn output_file
           num_passes fs
    = (Ok (), examples', <[output_file := records]> fs)
    /\ length records = length examples'
    /\ (1 < num_passes ->
        examples' = mjoin (replicate (Z.to_nat num_passes) examples)
        /\ length records = (Z.to_nat num_passes * length examples)%nat
        /\ forall pass k,
             (pass < Z.to_nat num_passes)%nat -> (k < length examples)%nat ->
             examples' !! (pass * length examples + k)%nat = examples !! k)
    /\ (num_passes <= 1 -> examples' = examples).
Proof.
  intros Hguard Hrecords.
  unfold RunClassifier.file_based_convert_examples_to_features.
  rewrite Hguard.
  set (examples' := if num_passes >? 1
                    then RunClassifier.list_mul examples num_passes
                    else examples) in *.
  exists examples'.
  rewrite (write_examples_run examples' 0 _ [] records).
  - split.
    { unfold RunClassifier.TFRecordWriter. now rewrite insert_insert_eq. }
    split.
    { rewrite (length_mapM_result _ _ _ Hrecords). apply length_imap. }
    split.
    + intros Hn. subst examples'.
      destruct (Z.gtb_spec num_passes 1) as [_|?]; [|lia].
      split; [reflexivity|]. split.
      * rewrite (length_mapM_result _ _ _ Hrecords), length_imap.
        apply length_list_mul.
      * intros pass k Hpass Hk. now apply lookup_list_mul.
    + intros Hn. subst examples'.
      destruct (Z.gtb_spec num_passes 1) as [?|_]; [lia|]. reflexivity.
  - unfold RunClassifier.TFRecordWriter. apply lookup_insert_eq.
  - exact Hrecords.
Qed.

End Writer.

Lemma writer_num_passes_witness :
  RunClassifier.Exists_ (H := integral_floats) "train.tf_record" ∅
  && negb (RunClassifier.overwrite_data sample_flags) = false
  /\ mapM id (imap (RunClassifier.record_of (FM := integral_floats)
                      _ sample_convert (Some ["0"; "1"]%string) 6
                      char_tokenize)
                   (if 2 >? 1 then RunClassifier.list_mul two_examples 2
                    else two_examples))
     = Ok two_pass_records
  /\ exists examples',
       RunClassifier.file_based_convert_examples_to_features
         (FM := integral_floats) _ sample_convert sample_flags two_examples
         (Some ["0"; "1"]%string) 6 char_tokenize "train.tf_record" 2 ∅
       = (Ok (), examples', <["train.tf_record"%string := two_pass_records]> ∅)
       /\ length two_pass_records = length examples'
       /\ (1 < 2 ->
           examples' = mjoin (replicate (Z.to_nat 2) two_examples)
           /\ length two_pass_records
              = (Z.to_nat 2 * length two_examples)%nat
           /\ forall pass k,
                (pass < Z.to_nat 2)%nat -> (k < length two_examples)%nat ->
                examples' !! (pass * length two_examples + k)%nat
                = two_examples !! k)
       /\ (2 <= 1 -> examples' = two_examples).
Proof.
  assert (H1 : RunClassifier.Exists_ (H := integral_floats)
                 "train.tf_record" ∅
               && negb (RunClassifier.overwrite_data sample_flags) = false)
    by reflexivity.
  assert (H2 : mapM id (imap (RunClassifier.record_of (FM := integral_floats)
                                _ sample_convert (Some ["0"; "1"]%string) 6
                                char_tokenize)
                             (if 2 >? 1
                              then RunClassifier.list_mul two_examples 2
                              else two_examples))
               = Ok two_pass_records)
    by reflexivity.
  split; [exact H1|]. split; [exact H2|].
  exact (writer_num_passes (string -> result (list Z)) sample_convert
           sample_flags (Some ["0"; "1"]%string) 6 char_tokenize
           "train.tf_record" two_examples 2 ∅ two_pass_records H1 H2).
Defined.

(** C9 as first stated fails on a call that the guard stops: with the file
    there and [overwrite_data] false, a call with [num_passes = 2] converts
    nothing (a converter that always raises is never called); the list
    keeps its two examples and the file the one record it held, not
    four. *)
Lemma writer_num_passes_cached_file :
  RunClassifier.file_based_convert_examples_to_features
    (FM := integral_floats) _ sample_convert sample_flags two_examples
    (Some ["0"; "1"]%string) 6 char_tokenize "train.tf_record" 2
    (<["train.tf_record"%string := [float_record]]> ∅)
  = (Ok (), two_examples, <["train.tf_record"%string := [float_record]]> ∅)
  /\ RunClassifier.file_based_convert_examples_to_features
       (FM := integral_floats) (string -> result (list Z))
       (fun _ _ _ _ _ => Raise TokenizationError) sample_flags two_examples
       (Some ["0"; "1"]%string) 6 char_tokenize "train.tf_record" 2
       (<["train.tf_record"%string := [float_record]]> ∅)
     = (Ok (), two_examples, <["train.tf_record"%string := [float_record]]> ∅)
  /\ two_examples <> RunClassifier.list_mul two_examples 2
  /\ length [float_record] <> (Z.to_nat 2 * length two_examples)%nat.
Proof.
  split; [|split; [|split]].
  - apply writer_keeps_cached_file; [|reflexivity].
    rewrite lookup_insert_eq. eauto.
  - apply writer_keeps_cached_file; [|reflexivity].
    rewrite lookup_insert_eq. eauto.
  - intros H. apply (f_equal length) in H.
    rewrite length_list_mul in H. simpl in H. lia.
  - simpl. lia.
Qed.

(** ** The writer of inews *)

Section InewsWriter.

Context `{FM : FloatModel}.
Variable tokenizer : Type.
Variable convert_example_list_for_inews :
  nat -> example -> option (list string) -> Z -> tokenizer ->
  result (list InputFeatures).
Variable label_list : option (list string).
Variable max_seq_length : Z.
Variable tokenize_fn : tokenizer.
Variable output_file : string.

Local Abbreviation inews_writer :=
  (RunClassifier.file_based_convert_examples_to_features_for_inews
     tokenizer convert_example_list_for_inews).

(** C5.  The writer of inews has no guard: it opens [output_file] for
    writing whatever is there and whatever the flags say, so what a call
    leaves in the file does not depend on what the file held; called with an
    empty list it leaves an existing file empty. *)
Theorem inews_writer_discards_cached_file (examples : list example)
    (num_passes : Z)
    (fs : gmap string (list (gmap string RunClassifier.Feature)))
    (cached : list (gmap string RunClassifier.Feature)) :
  inews_writer examples label_list max_seq_length tokenize_fn output_file
               num_passes (<[output_file := cached]> fs)
  = inews_writer examples label_list max_seq_length tokenize_fn output_file
                 num_passes (<[output_file := []]> fs)
  /\ inews_writer [] label_list max_seq_length tokenize_fn output_file
                  num_passes (<[output_file := cached]> fs)
     = (Ok (), [], <[output_file := []]> fs).
Proof.
  unfold RunClassifier.file_based_convert_examples_to_features_for_inews,
    RunClassifier.TFRecordWriter.
  rewrite !insert_insert_eq. split; [reflexivity|].
  assert (Hnil : RunClassifier.list_mul ([] : list example) num_passes = []).
  { unfold RunClassifier.list_mul.
    induction (Z.to_nat num_passes) as [|k IH]; simpl; [reflexivity|].
    exact IH. }
  destruct (num_passes >? 1); [rewrite Hnil|]; reflexivity.
Qed.

End InewsWriter.

Section InewsRecords.

Context `{FM : FloatModel}.
Variable FLAGS : RunClassifier.flags.

Lemma name_to_features_head (seq_length : nat) :
  exists label_spec,
    RunClassifier.name_to_features FLAGS seq_length
    = [("input_ids"%string,
        RunClassifier.mkFixedLenFeature [seq_length] RunClassifier.tf_int64);
       ("input_mask"%string,
        RunClassifier.mkFixedLenFeature [seq_length]
                                        RunClassifier.tf_float32);
       ("segment_ids"%string,
        RunClassifier.mkFixedLenFeature [seq_length] RunClassifier.tf_int64);
       ("label_ids"%string, RunClassifier.mkFixedLenFeature [] label_spec);
       ("is_real_example"%string,
        RunClassifier.mkFixedLenFeature [] RunClassifier.tf_int64)]
    /\ label_spec = (if RunClassifier.is_regression FLAGS
                     then RunClassifier.tf_float32
                     else RunClassifier.tf_int64).
Proof.
  unfold RunClassifier.name_to_features.
  destruct (RunClassifier.is_regression FLAGS); eexists; split; reflexivity.
Qed.

Lemma parse_feature_error (record : gmap string RunClassifier.Feature)
    (name : string) (spec : RunClassifier.FixedLenFeature) (e : exn) :
  RunClassifier.parse_feature record name spec = Raise e ->
  e = InvalidArgumentError name.
Proof.
  unfold RunClassifier.parse_feature.
  destruct (record !! name) as [[vs|vs]|];
    destruct (RunClassifier.dtype_of spec);
    try destruct (length vs =? _)%nat; congruence.
Qed.

Lemma parse_feature_wrong_type (record : gmap string RunClassifier.Feature)
    (name : string) (spec : RunClassifier.FixedLenFeature) (vs : list Z) :
  record !! name = Some (RunClassifier.Int64List vs) ->
  RunClassifier.dtype_of spec <> RunClassifier.tf_int64 ->
  RunClassifier.parse_feature record name spec
  = Raise (InvalidArgumentError name).
Proof.
  intros Hlookup Htype. unfold RunClassifier.parse_feature.
  rewrite Hlookup. destruct (RunClassifier.dtype_of spec); congruence.
Qed.

(** C2.  A record the writer of inews builds holds its mask as an
    [Int64List]; the schema of the reader declares [input_mask] as
    [tf.float32], so decoding the record fails, at [input_mask] or before
    it at [input_ids]. *)
Theorem inews_record_unreadable (output_file : string)
    (feature : InputFeatures)
    (features0 features1 : gmap string RunClassifier.Feature)
    (fs fs1 : gmap string (list (gmap string RunClassifier.Feature)))
    (seq_length : nat) :
  RunClassifier.write_feature_inews output_file feature (features0, fs)
  = Ok (features1, fs1) ->
  exists key,
    RunClassifier._decode_record
      features1 (RunClassifier.name_to_features FLAGS seq_length)
    = Raise (InvalidArgumentError key)
    /\ (key = "input_ids"%string \/ key = "input_mask"%string)
    /\ exists mask,
         features1 !! "input_mask" = Some (RunClassifier.Int64List mask).
Proof.
  unfold RunClassifier.write_feature_inews.
  destruct (RunClassifier.create_int_feature (NInt <$> input_ids feature))
    as [f_ids|] eqn:Hids; simpl; [|discriminate].
  destruct (RunClassifier.create_int_feature (input_mask feature))
    as [f_mask|] eqn:Hmask; simpl; [|discriminate].
  destruct (RunClassifier.create_int_feature (NInt <$> segment_ids feature))
    as [f_seg|]; simpl; [|discriminate].
  destruct (RunClassifier.create_int_feature [label_id feature])
    as [f_label|]; simpl; [|discriminate].
  destruct (RunClassifier.create_int_feature
              [NInt (Z.b2z (is_real_example feature))])
    as [f_real|]; simpl; [|discriminate].
  intros [= <- _].
  assert (Hmask' : exists mask, f_mask = RunClassifier.Int64List mask).
  { unfold RunClassifier.create_int_feature in Hmask.
    destruct (mapM RunClassifier.int64_value (input_mask feature)) as [m|];
      simpl in Hmask; [|discriminate].
    injection Hmask as <-. now exists m. }
  destruct Hmask' as [mask ->].
  destruct (name_to_features_head seq_length) as (label_spec & -> & _).
  set (record := <["is_real_example" := f_real]> _).
  assert (Hlookup : record !! "input_mask"
                    = Some (RunClassifier.Int64List mask)).
  { subst record. rewrite !lookup_insert_ne by done.
    apply lookup_insert_eq. }
  unfold RunClassifier._decode_record.
  cbn [RunClassifier.parse_single_example].
  destruct (RunClassifier.parse_feature record "input_ids" _)
    as [t|e] eqn:Hids_parse; cbn [mbind result_bind].
  - rewrite (parse_feature_wrong_type record "input_mask" _ mask Hlookup)
      by (simpl; discriminate).
    exists "input_mask"%string. eauto.
  - apply parse_feature_error in Hids_parse as ->.
    exists "input_ids"%string. eauto.
Qed.

End InewsRecords.

Lemma inews_record_unreadable_witness :
  RunClassifier.write_feature_inews (FM := integral_floats) "dev.tf_record"
    sample_feature (∅, <["dev.tf_record"%string := []]> ∅)
  = Ok (inews_record, <["dev.tf_record"%string := [inews_record]]> ∅)
  /\ exists key,
       RunClassifier._decode_record (FM := integral_floats) inews_record
         (RunClassifier.name_to_features sample_flags 6)
       = Raise (InvalidArgumentError key)
       /\ (key = "input_ids"%string \/ key = "input_mask"%string)
       /\ exists mask,
            inews_record !! "input_mask" = Some (RunClassifier.Int64List mask).
Proof.
  assert (H : RunClassifier.write_feature_inews (FM := integral_floats)
                "dev.tf_record" sample_feature
                (∅, <["dev.tf_record"%string := []]> ∅)
              = Ok (inews_record,
                    <["dev.tf_record"%string := [inews_record]]> ∅))
    by reflexivity.
  split; [exact H|].
  exact (inews_record_unreadable sample_flags "dev.tf_record" sample_feature
           ∅ inews_record _ _ 6 H).
Defined.
(** ** The writer with the float mask, read back *)

Section FloatWriter.

Context `{FM : FloatModel}.
Variable FLAGS : RunClassifier.flags.

Lemma mapM_int64_value_ints (l l' : list Z) :
  mapM RunClassifier.int64_value (NInt <$> l) = Ok l' -> l' = l.
Proof.
  revert l'. induction l as [|z l IH]; intros l'.
  - intros H. cbv in H. congruence.
  - rewrite fmap_cons, mapM_cons_result. simpl.
    destruct (RunClassifier.in_int64 z); [|discriminate].
    destruct (mapM RunClassifier.int64_value (NInt <$> l)) as [k|];
      [|discriminate].
    intros [= <-]. f_equal. now apply IH.
Qed.

Lemma create_int_feature_ints (l : list Z) (f : RunClassifier.Feature) :
  RunClassifier.create_int_feature (NInt <$> l) = Ok f ->
  f = RunClassifier.Int64List l.
Proof.
  unfold RunClassifier.create_int_feature.
  destruct (mapM RunClassifier.int64_value (NInt <$> l)) as [k|] eqn:Hk;
    simpl; [|discriminate].
  intros [= <-]. f_equal. now apply mapM_int64_value_ints.
Qed.

Lemma create_int_feature_one (n : number) (f : RunClassifier.Feature) :
  RunClassifier.create_int_feature [n] = Ok f ->
  exists z, n = NInt z /\ f = RunClassifier.Int64List [z].
Proof.
  unfold RunClassifier.create_int_feature. simpl.
  destruct n as [z|x]; simpl; [|discriminate].
  destruct (RunClassifier.in_int64 z); simpl; [|discriminate].
  intros H. cbv in H. injection H as <-. now exists z.
Qed.

(** [int(feature.is_real_example)] always makes a feature. *)
Lemma create_int_feature_flag (b : bool) :
  RunClassifier.create_int_feature [NInt (Z.b2z b)]
  = Ok (RunClassifier.Int64List [Z.b2z b]).
Proof. destruct b; reflexivity. Qed.

Lemma parse_feature_ints (record : gmap string RunClassifier.Feature)
    (name : string) (sh : list nat) (vs : list Z) :
  record !! name = Some (RunClassifier.Int64List vs) ->
  length vs = RunClassifier.num_elements sh ->
  RunClassifier.parse_feature
    record name (RunClassifier.mkFixedLenFeature sh RunClassifier.tf_int64)
  = Ok (RunClassifier.IntTensor RunClassifier.tf_int64 sh vs).
Proof.
  intros Hlookup Hlen. unfold RunClassifier.parse_feature.
  rewrite Hlookup. simpl. rewrite Hlen, Nat.eqb_refl. reflexivity.
Qed.

Lemma parse_feature_floats (record : gmap string RunClassifier.Feature)
    (name : string) (sh : list nat) (vs : list float32) :
  record !! name = Some (RunClassifier.FloatList vs) ->
  length vs = RunClassifier.num_elements sh ->
  RunClassifier.parse_feature
    record name (RunClassifier.mkFixedLenFeature sh RunClassifier.tf_float32)
  = Ok (RunClassifier.FloatTensor sh vs).
Proof.
  intros Hlookup Hlen. unfold RunClassifier.parse_feature.
  rewrite Hlookup. simpl. rewrite Hlen, Nat.eqb_refl. reflexivity.
Qed.

(** Every record of the writer with the float mask decodes under the
    schema of the reader, to the field values of the feature it was built
    from, when the three arrays have the declared length and the label list
    is absent exactly in the regression task. *)
Lemma float_writer_record_decodes (label_list : option (list string))
    (feature : InputFeatures) (record : gmap string RunClassifier.Feature)
    (seq_length : nat) :
  RunClassifier.to_record label_list feature = Ok record ->
  length (input_ids feature) = seq_length ->
  length (input_mask feature) = seq_length ->
  length (segment_ids feature) = seq_length ->
  RunClassifier.is_regression FLAGS
  = match label_list with Some _ => false | None => true end ->
  RunClassifier._decode_record
    record (RunClassifier.name_to_features FLAGS seq_length)
  = Ok (RunClassifier.tensors_of label_list seq_length feature).
Proof.
  intros Hrecord Hids Hmask Hseg Hreg.
  unfold RunClassifier.to_record in Hrecord.
  destruct (RunClassifier.create_int_feature (NInt <$> input_ids feature))
    as [f_ids|] eqn:Hf_ids; [|discriminate].
  apply create_int_feature_ints in Hf_ids as ->.
  destruct (RunClassifier.create_int_feature (NInt <$> segment_ids feature))
    as [f_seg|] eqn:Hf_seg; [|discriminate].
  apply create_int_feature_ints in Hf_seg as ->.
  rewrite create_int_feature_flag in Hrecord.
  assert (Hlabel : exists f_label t_label,
    match label_list with
    | Some _ => RunClassifier.create_int_feature [label_id feature]
    | None => RunClassifier.create_float_feature
                [NFloat (to_float (label_id feature))]
    end = Ok f_label
    /\ (forall r : gmap string RunClassifier.Feature,
          r !! "label_ids" = Some f_label ->
          RunClassifier.parse_feature r "label_ids"
            (RunClassifier.mkFixedLenFeature []
               (if RunClassifier.is_regression FLAGS
                then RunClassifier.tf_float32 else RunClassifier.tf_int64))
          = Ok t_label)
    /\ RunClassifier.cast_to_int32 t_label
       = match label_list, label_id feature with
         | Some _, NInt z =>
             RunClassifier.IntTensor RunClassifier.tf_int32 []
                                     [RunClassifier.wrap32 z]
         | _, l => RunClassifier.FloatTensor []
                     [float32_of_float (to_float l)]
         end).
  { rewrite Hreg. destruct label_list as [labels|].
    - destruct (RunClassifier.create_int_feature [label_id feature])
        as [f_label|] eqn:Hf_label; [|discriminate].
      apply create_int_feature_one in Hf_label as (z & Hz & ->).
      exists (RunClassifier.Int64List [z]),
             (RunClassifier.IntTensor RunClassifier.tf_int64 [] [z]).
      split; [reflexivity|]. split.
      + intros r Hr. now apply parse_feature_ints.
      + rewrite Hz. reflexivity.
    - exists (RunClassifier.FloatList
                [float32_of_float (to_float (label_id feature))]),
             (RunClassifier.FloatTensor
                [] [float32_of_float (to_float (label_id feature))]).
      split; [reflexivity|]. split.
      + intros r Hr. now apply parse_feature_floats.
      + simpl. now destruct (label_id feature). }
  destruct Hlabel as (f_label & t_label & Hf_label & Hparse & Hcast).
  rewrite Hf_label in Hrecord.
  cbn [mbind result_bind RunClassifier.create_float_feature] in Hrecord.
  injection Hrecord as <-.
  destruct (name_to_features_head FLAGS seq_length)
    as (label_spec & -> & ->).
  unfold RunClassifier._decode_record.
  cbn [RunClassifier.parse_single_example].
  rewrite (parse_feature_ints _ "input_ids" [seq_length]
                              (input_ids feature)).
  2: { rewrite !lookup_insert_ne by done. apply lookup_insert_eq. }
  2: { simpl. lia. }
  rewrite (parse_feature_floats _ "input_mask" [seq_length]
             (RunClassifier.float32_value <$> input_mask feature)).
  2: { rewrite !lookup_insert_ne by done. apply lookup_insert_eq. }
  2: { rewrite length_fmap. simpl. lia. }
  rewrite (parse_feature_ints _ "segment_ids" [seq_length]
                              (segment_ids feature)).
  2: { rewrite !lookup_insert_ne by done. apply lookup_insert_eq. }
  2: { simpl. lia. }
  rewrite Hparse.
  2: { rewrite !lookup_insert_ne by done. apply lookup_insert_eq. }
  rewrite (parse_feature_ints _ "is_real_example" []
                              [Z.b2z (is_real_example feature)]).
  2: { apply lookup_insert_eq. }
  2: { reflexivity. }
  cbn [mbind result_bind].
  rewrite !fmap_insert, fmap_empty, Hcast.
  unfold RunClassifier.tensors_of. cbn [RunClassifier.cast_to_int32].
  do 5 f_equal.
  rewrite insert_empty. do 2 f_equal.
  now destruct (is_real_example feature).
Qed.

(** Round trip of a file: the records of a sequence of features, read back
    in the order of the file, give the field values of the features, in the
    same order. *)
Lemma float_writer_roundtrip (label_list : option (list string))
    (features : list InputFeatures)
    (records : list (gmap string RunClassifier.Feature))
    (seq_length : nat) (input_file : string)
    (fs : gmap string (list (gmap string RunClassifier.Feature))) :
  mapM (RunClassifier.to_record label_list) features = Ok records ->
  Forall (fun feature =>
            length (input_ids feature) = seq_length
            /\ length (input_mask feature) = seq_length
            /\ length (segment_ids feature) = seq_length) features ->
  RunClassifier.is_regression FLAGS
  = match label_list with Some _ => false | None => true end ->
  RunClassifier.read_records FLAGS input_file seq_length
                             (<[input_file := records]> fs)
  = Ok (RunClassifier.tensors_of label_list seq_length <$> features).
Proof.
  intros Hrecords Hlen Hreg.
  unfold RunClassifier.read_records. rewrite lookup_insert_eq.
  revert records Hrecords.
  induction Hlen as [|feature features (Hids & Hmask & Hseg) _ IH];
    intros records.
  - intros H. cbv in H. injection H as <-. reflexivity.
  - rewrite mapM_cons_result.
    destruct (RunClassifier.to_record label_list feature) as [r|] eqn:Hr;
      [|discriminate].
    destruct (mapM (RunClassifier.to_record label_list) features)
      as [rs|]; [|discriminate].
    intros [= <-]. rewrite mapM_cons_result.
    rewrite (float_writer_record_decodes label_list feature r seq_length)
      by assumption.
    rewrite (IH rs eq_refl). reflexivity.
Qed.

(** [tf.cast] to 32 bits keeps the values that fit in 32 bits. *)
Lemma wrap32_small (z : Z) :
  - 2 ^ 31 <= z < 2 ^ 31 -> RunClassifier.wrap32 z = z.
Proof.
  intros Hz. unfold RunClassifier.wrap32.
  rewrite Z.mod_small by lia. lia.
Qed.

End FloatWriter.

(** The two writers on the same example, read back with the schema of the
    reader: the records of the writer with the float mask decode, those of
    the writer of inews do not. *)
Example read_back_float_writer :
  RunClassifier.read_records (FM := integral_floats) sample_flags
    "dev.tf_record" 6
    (RunClassifier.file_based_convert_examples_to_features
       (FM := integral_floats) _ sample_convert sample_flags one_example
       (Some ["0"; "1"]%string) 6 char_tokenize "dev.tf_record" 1 ∅).2
  = Ok [RunClassifier.tensors_of (Some ["0"; "1"]%string) 6 sample_feature].
Proof. reflexivity. Qed.

Example read_back_inews_writer :
  RunClassifier.read_records (FM := integral_floats) sample_flags
    "dev.tf_record" 6
    (RunClassifier.file_based_convert_examples_to_features_for_inews
       (FM := integral_floats) _ sample_convert_inews one_example
       (Some ["0"; "1"]%string) 6 char_tokenize "dev.tf_record" 1 ∅).2
  = Raise (InvalidArgumentError "input_mask").
Proof. vm_compute. reflexivity. Qed.

(** A cached file of one record, and the writer of inews called on two
    other examples while [overwrite_data] is false: the file then holds the
    two new records. *)
Example inews_writer_replaces_cache :
  length <$>
    ((RunClassifier.file_based_convert_examples_to_features_for_inews
        (FM := integral_floats) _ sample_convert_inews two_examples
        (Some ["0"; "1"]%string) 6 char_tokenize "dev.tf_record" 1
        (<["dev.tf_record"%string := [inews_record]]> ∅)).2
     !! "dev.tf_record"%string)
  = Some 2%nat.
Proof. vm_compute. reflexivity. Qed.

(** The writer with the guard, called twice with [num_passes = 2]: the
    second call writes nothing, though the first call doubled the list. *)
Example writer_twice :
  let first :=
    RunClassifier.file_based_convert_examples_to_features
      (FM := integral_floats) _ sample_convert sample_flags two_examples
      (Some ["0"; "1"]%string) 6 char_tokenize "train.tf_record" 2 ∅ in
  length first.1.2 = 4%nat
  /\ RunClassifier.file_based_convert_examples_to_features
       (FM := integral_floats) _ sample_convert sample_flags first.1.2
       (Some ["0"; "1"]%string) 6 char_tokenize "train.tf_record" 2 first.2
     = (Ok (), first.1.2, first.2).
Proof. split; reflexivity. Qed.

(** * Further properties *)

(** ** Loops over rows *)

Section LoopFacts.

Context {X St : Type}.
Variable body : nat -> X -> St -> result St.

(** A loop ends well exactly when its body does on every element. *)
Lemma for_enumerate_ok_iff (P : nat -> X -> Prop) (l : list X) :
  (forall i x s, P i x -> exists s', body i x s = Ok s') ->
  (forall i x s s', body i x s = Ok s' -> P i x) ->
  forall i s,
    (exists s', for_enumerate body i l s = Ok s')
    <-> (forall k x, l !! k = Some x -> P (i + k)%nat x).
Proof.
  intros Hgood Hinv. induction l as [|x l IH]; intros i s; simpl.
  - split; [intros _ k y Hk; discriminate Hk | intros _; now exists s].
  - split.
    + intros [s' Hrun]. destruct (body i x s) as [s1|e] eqn:Hb;
        simpl in Hrun; [|discriminate].
      intros [|k] y Hk; simpl in Hk.
      * injection Hk as <-. rewrite Nat.add_0_r. eapply Hinv, Hb.
      * replace (i + S k)%nat with (S i + k)%nat by lia.
        eapply IH; eauto.
    + intros Hall. destruct (Hgood i x s) as [s1 ->].
      { specialize (Hall 0%nat x eq_refl). now rewrite Nat.add_0_r in Hall. }
      simpl. apply IH. intros k y Hk.
      replace (S i + k)%nat with (i + S k)%nat by lia. now apply Hall.
Qed.

(** An exception of the loop is an exception of its body. *)
Lemma for_enumerate_raise (R : exn -> Prop) (l : list X) :
  (forall i x s e, body i x s = Raise e -> R e) ->
  forall i s e, for_enumerate body i l s = Raise e -> R e.
Proof.
  intros Hbody. induction l as [|x l IH]; intros i s e; simpl;
    [discriminate|].
  destruct (body i x s) as [s1|e1] eqn:Hb; simpl.
  - apply IH.
  - intros [= <-]. eapply Hbody, Hb.
Qed.

(** An invariant of the body, indexed by the position, holds at the end. *)
Lemma for_enumerate_invariant (I : nat -> St -> Prop) (l : list X) :
  (forall i x s s', I i s -> body i x s = Ok s' -> I (S i) s') ->
  forall i s s',
    I i s -> for_enumerate body i l s = Ok s' -> I (i + length l)%nat s'.
Proof.
  intros Hstep. induction l as [|x l IH]; intros i s s' Hi; simpl.
  - intros [= <-]. now rewrite Nat.add_0_r.
  - destruct (body i x s) as [s1|e] eqn:Hb; simpl; [|discriminate].
    intros Hrun. replace (i + S (length l))%nat with (S i + length l)%nat
      by lia.
    eapply IH; [|exact Hrun]. eapply Hstep; eauto.
Qed.

End LoopFacts.

(** What one body does well, another does the same: so do the loops. *)
Lemma for_enumerate_simulation {X St}
    (body1 body2 : nat -> X -> St -> result St) (l : list X) :
  (forall i x s s', body1 i x s = Ok s' -> body2 i x s = Ok s') ->
  forall i s s',
    for_enumerate body1 i l s = Ok s' -> for_enumerate body2 i l s = Ok s'.
Proof.
  intros Hsim. induction l as [|x l IH]; intros i s s'; simpl; [easy|].
  destruct (body1 i x s) as [s1|e] eqn:Hb; simpl; [|discriminate].
  rewrite (Hsim _ _ _ _ Hb). simpl. apply IH.
Qed.

Lemma rows_after_header {X} (Q : X -> Prop) (l : list X) :
  (forall k x, l !! k = Some x -> k = 0%nat \/ Q x) <-> Forall Q (drop 1 l).
Proof.
  rewrite Forall_lookup. split.
  - intros H k x Hk. rewrite lookup_drop in Hk.
    destruct (H _ _ Hk) as [?|?]; [lia|assumption].
  - intros H [|k] x Hk; [now left|right].
    apply (H k). now rewrite lookup_drop.
Qed.

Lemma py_index_ok_nonneg {X} (l : list X) (i : Z) (x : X) :
  0 <= i -> py_index l i = Ok x -> i < Z.of_nat (length l).
Proof.
  intros Hi Hx. destruct (Z.lt_ge_cases i (Z.of_nat (length l))) as [?|Hge];
    [assumption|].
  rewrite py_index_past_end in Hx by assumption. discriminate.
Qed.

Lemma py_index_raises {X} (l : list X) (i : Z) (e : exn) :
  py_index l i = Raise e -> e = IndexError.
Proof.
  unfold py_index.
  destruct ((_ <? 0) || (_ <=? _)); [congruence|].
  destruct (l !! _); congruence.
Qed.

Lemma py_index_any_sign {X} (l : list X) (i : Z) :
  - Z.of_nat (length l) <= i < Z.of_nat (length l) ->
  exists x, py_index l i = Ok x.
Proof.
  intros Hi. destruct (Z.lt_ge_cases i 0) as [Hneg|Hpos].
  - unfold py_index. cbv zeta.
    assert (H1 : (i <? 0) = true) by lia. rewrite H1.
    assert (H2 : (i + Z.of_nat (length l) <? 0) = false) by lia.
    assert (H3 : (Z.of_nat (length l) <=? i + Z.of_nat (length l)) = false)
      by lia.
    rewrite H2, H3. cbn.
    destruct (lookup_lt_is_Some_2 l (Z.to_nat (i + Z.of_nat (length l))))
      as [x Hx]; [lia|].
    rewrite Hx. now exists x.
  - apply py_index_in_range. lia.
Qed.

Lemma row_complete_spec {X} (a : Z) (b : option Z) (l : Z) (line : list X) :
  RunClassifier.GLUEProcessor.row_complete a b l line = true
  <-> a < Z.of_nat (length line)
      /\ (forall b', b = Some b' -> b' < Z.of_nat (length line))
      /\ l < Z.of_nat (length line).
Proof.
  unfold RunClassifier.GLUEProcessor.row_complete.
  rewrite !andb_true_iff, !Z.ltb_lt. destruct b as [b|].
  - rewrite Z.ltb_lt. split.
    + intros [[? ?] ?]. repeat split; try assumption. now intros b' [= <-].
    + intros (? & Hb & ?). repeat split; try assumption. now apply Hb.
  - split.
    + intros [[? _] ?]. repeat split; try assumption. discriminate.
    + intros (? & _ & ?). repeat split; assumption.
Qed.

(** An invariant that may look at the rows already walked. *)
Lemma for_enumerate_prefix_invariant {X St}
    (body : nat -> X -> St -> result St) (I : list X -> St -> Prop)
    (l : list X) :
  (forall pre x s s',
     I pre s -> body (length pre) x s = Ok s' -> I (pre ++ [x]) s') ->
  forall s s', I [] s -> for_enumerate body 0 l s = Ok s' -> I l s'.
Proof.
  intros Hstep.
  assert (Hgen : forall rest pre s s',
            I pre s -> for_enumerate body (length pre) rest s = Ok s' ->
            I (pre ++ rest) s').
  { induction rest as [|x rest IH]; intros pre s s' Hpre; simpl.
    - intros [= <-]. now rewrite app_nil_r.
    - destruct (body (length pre) x s) as [s1|e] eqn:Hb; simpl;
        [|discriminate].
      intros Hrun. rewrite (cons_middle x pre rest), app_assoc.
      apply (IH (pre ++ [x]) s1 s'); [eapply Hstep; eauto|].
      rewrite length_app. simpl.
      now replace (length pre + 1)%nat with (S (length pre)) by lia. }
  intros s s' H0 Hrun. exact (Hgen l [] s s' H0 Hrun).
Qed.

(** ** The adapters of delimited text *)

(** X1.  Inews loads a file exactly when every row after the header has at
    least four columns; then it gives one example per such row and logs
    nothing; otherwise the load ends with [IndexError]. *)
Theorem inews_rows (lines : list (list string)) (set_type : string) :
  ((exists st,
      RunClassifier.InewsProcessor._create_examples lines set_type = Ok st)
   <-> Forall (fun row => (4 <= length row)%nat) (drop 1 lines))
  /\ (forall st,
        RunClassifier.InewsProcessor._create_examples lines set_type = Ok st ->
        length st.1 = length (drop 1 lines) /\ st.2 = [])
  /\ (forall e,
        RunClassifier.InewsProcessor._create_examples lines set_type
        = Raise e -> e = IndexError).
Proof.
  unfold RunClassifier.InewsProcessor._create_examples.
  split; [|split].
  - rewrite <- rows_after_header.
    apply (for_enumerate_ok_iff _
             (fun i row => i = 0%nat \/ (4 <= length row)%nat)).
    + intros i row st [->|Hlen]; [now eexists|].
      destruct (i =? 0)%nat; [now eexists|].
      destruct (py_index_in_range row 2) as [x2 ->]; [lia|].
      destruct (py_index_in_range row 3) as [x3 ->]; [lia|].
      destruct (py_index_in_range row 0) as [x0 ->]; [lia|].
      simpl. destruct (set_type =? "test")%string; now eexists.
    + intros i row st st'. destruct (Nat.eqb_spec i 0) as [->|_];
        [now left|]. right.
      destruct (py_index row 2) as [x2|]; simpl; [|discriminate].
      destruct (py_index row 3) as [x3|] eqn:H3; simpl; [|discriminate].
      apply py_index_ok_nonneg in H3; lia.
  - intros st Hrun.
    rewrite length_drop.
    apply (for_enumerate_invariant _
      (fun i (s : RunClassifier.adapter_state) =>
         length s.1 = pred i /\ s.2 = [])) in Hrun;
      [simpl in Hrun; intuition lia | |].
    + intros i row s s' [Hn Hlog].
      destruct (Nat.eqb_spec i 0) as [->|Hi].
      { intros [= <-]. simpl in *. intuition. }
      destruct (py_index row 2) as [x2|]; simpl; [|discriminate].
      destruct (py_index row 3) as [x3|]; simpl; [|discriminate].
      destruct (if (set_type =? "test")%string then _ else _) as [x0|];
        simpl; [|discriminate].
      intros [= <-]. simpl. rewrite length_app. simpl. split; [lia|easy].
    + simpl. easy.
  - apply (for_enumerate_raise _ (fun e => e = IndexError)).
    intros i row s e. destruct (i =? 0)%nat; [discriminate|].
    destruct (py_index row 2) as [x2|] eqn:H2; simpl;
      [|intros [= <-]; eapply py_index_raises, H2].
    destruct (py_index row 3) as [x3|] eqn:H3; simpl;
      [|intros [= <-]; eapply py_index_raises, H3].
    destruct (set_type =? "test")%string; simpl; [discriminate|].
    destruct (py_index row 0) as [x0|] eqn:H0; simpl;
      [discriminate|intros [= <-]; eapply py_index_raises, H0].
Qed.

(** X2.  THUCNews loads a file exactly when no row after the header has
    exactly three columns; then it gives one example per row of four
    columns or more, skips the shorter rows without a message, and
    otherwise the load ends with [IndexError]. *)
Theorem thucnews_rows (lines : list (list string)) (set_type : string) :
  ((exists st,
      RunClassifier.THUCNewsProcessor._create_examples lines set_type = Ok st)
   <-> Forall (fun row => length row <> 3%nat) (drop 1 lines))
  /\ (forall st,
        RunClassifier.THUCNewsProcessor._create_examples lines set_type
        = Ok st ->
        length st.1
        = length (filter (fun row => (4 <= length row)%nat) (drop 1 lines))
        /\ st.2 = [])
  /\ (forall e,
        RunClassifier.THUCNewsProcessor._create_examples lines set_type
        = Raise e -> e = IndexError).
Proof.
  unfold RunClassifier.THUCNewsProcessor._create_examples.
  split; [|split].
  - rewrite <- rows_after_header.
    apply (for_enumerate_ok_iff _
             (fun i row => i = 0%nat \/ length row <> 3%nat)).
    + intros i row st [->|Hlen]; [now eexists|].
      destruct (i =? 0)%nat; [now eexists|]. simpl.
      destruct (Nat.ltb_spec (length row) 3) as [?|Hge]; [now eexists|].
      destruct (py_index_in_range row 3) as [x3 ->]; [lia|].
      destruct (py_index_in_range row 0) as [x0 ->]; [lia|].
      now eexists.
    + intros i row st st'. destruct (Nat.eqb_spec i 0) as [->|_];
        [now left|]. right. simpl.
      destruct (Nat.ltb_spec (length row) 3) as [?|Hge]; [lia|].
      destruct (py_index row 3) as [x3|] eqn:H3; simpl; [|discriminate].
      apply py_index_ok_nonneg in H3; lia.
  - intros st Hrun.
    apply (for_enumerate_prefix_invariant _
      (fun pre (s : RunClassifier.adapter_state) =>
         length s.1
         = length (filter (fun row => (4 <= length row)%nat) (drop 1 pre))
         /\ s.2 = []) lines) in Hrun; [exact Hrun| |easy].
    intros pre row s s' [Hn Hlog].
    destruct pre as [|hd pre]; simpl in *.
    { intros [= <-]. simpl. easy. }
    rewrite drop_0 in *. rewrite filter_app.
    destruct (Nat.ltb_spec (length row) 3) as [?|Hge].
    { intros [= <-].
      rewrite filter_cons_False, filter_nil, app_nil_r by lia. easy. }
    destruct (py_index row 3) as [x3|] eqn:H3; simpl; [|discriminate].
    apply py_index_ok_nonneg in H3; [|lia].
    destruct (py_index row 0) as [x0|]; simpl; [|discriminate].
    intros [= <-]. simpl.
    rewrite filter_cons_True, filter_nil by lia.
    rewrite !length_app. simpl. split; [lia|easy].
  - apply (for_enumerate_raise _ (fun e => e = IndexError)).
    intros i row s e.
    destruct ((i =? 0)%nat || (length row <? 3)%nat); [discriminate|].
    destruct (py_index row 3) as [x3|] eqn:H3; simpl;
      [|intros [= <-]; eapply py_index_raises, H3].
    destruct (py_index row 0) as [x0|] eqn:H0; simpl;
      [discriminate|intros [= <-]; eapply py_index_raises, H0].
Qed.

(** X3.  CSC loads a file exactly when every row after the header has at
    least two columns, with one example per such row; otherwise the load
    ends with [IndexError]. *)
Theorem csc_rows (lines : list (list string)) (set_type : string) :
  ((exists st, RunClassifier.CSCProcessor.get_examples lines set_type = Ok st)
   <-> Forall (fun row => (2 <= length row)%nat) (drop 1 lines))
  /\ (forall st,
        RunClassifier.CSCProcessor.get_examples lines set_type = Ok st ->
        length st.1 = length (drop 1 lines) /\ st.2 = [])
  /\ (forall e,
        RunClassifier.CSCProcessor.get_examples lines set_type = Raise e ->
        e = IndexError).
Proof.
  unfold RunClassifier.CSCProcessor.get_examples.
  split; [|split].
  - rewrite <- rows_after_header.
    apply (for_enumerate_ok_iff _
             (fun i row => i = 0%nat \/ (2 <= length row)%nat)).
    + intros i row st [->|Hlen]; [now eexists|].
      destruct (i =? 0)%nat; [now eexists|].
      destruct (py_index_in_range row 1) as [x1 ->]; [lia|].
      destruct (py_index_in_range row 0) as [x0 ->]; [lia|].
      now eexists.
    + intros i row st st'. destruct (Nat.eqb_spec i 0) as [->|_];
        [now left|]. right.
      destruct (py_index row 1) as [x1|] eqn:H1; simpl; [|discriminate].
      apply py_index_ok_nonneg in H1; lia.
  - intros st Hrun.
    rewrite length_drop.
    apply (for_enumerate_invariant _
      (fun i (s : RunClassifier.adapter_state) =>
         length s.1 = pred i /\ s.2 = [])) in Hrun;
      [simpl in Hrun; intuition lia | |].
    + intros i row s s' [Hn Hlog].
      destruct (Nat.eqb_spec i 0) as [->|Hi].
      { intros [= <-]. simpl in *. intuition. }
      destruct (py_index row 1) as [x1|]; simpl; [|discriminate].
      destruct (py_index row 0) as [x0|]; simpl; [|discriminate].
      intros [= <-]. simpl. rewrite length_app. simpl. split; [lia|easy].
    + simpl. easy.
  - apply (for_enumerate_raise _ (fun e => e = IndexError)).
    intros i row s e. destruct (i =? 0)%nat; [discriminate|].
    destruct (py_index row 1) as [x1|] eqn:H1; simpl;
      [|intros [= <-]; eapply py_index_raises, H1].
    destruct (py_index row 0) as [x0|] eqn:H0; simpl;
      [discriminate|intros [= <-]; eapply py_index_raises, H0].
Qed.

(** A body that always ends well and keeps an invariant over the rows
    already walked: so does the loop. *)
Lemma for_enumerate_total_invariant {X St}
    (body : nat -> X -> St -> result St) (I : list X -> St -> Prop)
    (l : list X) :
  (forall pre x s,
     I pre s -> exists s', body (length pre) x s = Ok s' /\ I (pre ++ [x]) s') ->
  forall s, I [] s -> exists s', for_enumerate body 0 l s = Ok s' /\ I l s'.
Proof.
  intros Hstep.
  assert (Hgen : forall rest pre s,
            I pre s ->
            exists s', for_enumerate body (length pre) rest s = Ok s'
                       /\ I (pre ++ rest) s').
  { induction rest as [|x rest IH]; intros pre s Hpre; simpl.
    - exists s. now rewrite app_nil_r.
    - destruct (Hstep pre x s Hpre) as (s1 & -> & H1). simpl.
      destruct (IH (pre ++ [x]) s1 H1) as (s' & Hrun & Hs').
      exists s'. rewrite (cons_middle x pre rest), app_assoc.
      split; [|exact Hs'].
      rewrite <- Hrun, length_app. simpl.
      now replace (length pre + 1)%nat with (S (length pre)) by lia. }
  intros s H0. exact (Hgen l [] s H0).
Qed.

Lemma drop_snoc_header {X} (h : nat) (pre : list X) (x : X) :
  (h <= 1)%nat ->
  drop h (pre ++ [x])
  = if (h =? 1)%nat && (length pre =? 0)%nat then [] else drop h pre ++ [x].
Proof.
  intros Hh. destruct h as [|[|h]]; [reflexivity| |lia].
  destruct pre as [|y pre]; reflexivity.
Qed.

(** X4.  LCQMC and BQ never raise: every row after the header with three
    columns or more gives one example, every shorter one gives one printed
    error line after the line printed at the start, and the load goes on to
    the end of the file. *)
Theorem lcqmc_rows (lines : list (list string)) (set_type : string) :
  exists exs log,
    RunClassifier.LCQMCProcessor._create_examples lines set_type
    = Ok (exs, log)
    /\ RunClassifier.BQProcessor._create_examples lines set_type
       = Ok (exs, log)
    /\ length exs
       = length (filter (fun row => (3 <= length row)%nat) (drop 1 lines))
    /\ length log
       = S (length (filter (fun row => (length row < 3)%nat) (drop 1 lines))).
Proof.
  unfold RunClassifier.BQProcessor._create_examples,
    RunClassifier.LCQMCProcessor._create_examples.
  match goal with
  | |- context [for_enumerate ?body 0%nat lines ?s0] =>
      destruct (for_enumerate_total_invariant body
        (fun pre (s : RunClassifier.adapter_state) =>
           length s.1
           = length (filter (fun row => (3 <= length row)%nat) (drop 1 pre))
           /\ length s.2
              = S (length (filter (fun row => (length row < 3)%nat)
                                  (drop 1 pre))))
        lines) with (s := s0) as ([exs log] & Hrun & Hn & Hlog)
  end.
  - intros pre row [exs log] [Hn Hlog]. simpl in Hn, Hlog.
    rewrite (drop_snoc_header 1) by lia.
    destruct pre as [|hd pre]; simpl in *.
    { eexists. split; [reflexivity|]. simpl. easy. }
    rewrite drop_0 in *. rewrite !filter_app.
    destruct (le_lt_dec 3 (length row)) as [Hlen|Hlen].
    + destruct (py_index_in_range row 2) as [x2 ->]; [lia|].
      destruct (py_index_in_range row 0) as [x0 ->]; [lia|].
      destruct (py_index_in_range row 1) as [x1 ->]; [lia|].
      eexists. split; [reflexivity|]. simpl.
      rewrite filter_cons_True, (filter_cons_False _ row), !filter_nil by lia.
      rewrite !length_app. simpl. lia.
    + rewrite (py_index_past_end row 2) by lia.
      eexists. split; [reflexivity|]. simpl.
      rewrite filter_cons_False, (filter_cons_True _ row), !filter_nil by lia.
      rewrite !length_app. simpl. lia.
  - simpl. easy.
  - exists exs, log. simpl in Hn, Hlog. easy.
Qed.

Ltac glue_row_skipped Hlog :=
  eexists; split; [reflexivity|]; simpl;
  rewrite filter_cons_False, filter_nil
    by (rewrite row_complete_spec; intros (Hc1 & Hc2 & Hc3);
        try specialize (Hc2 _ eq_refl); lia);
  rewrite ?app_nil_r, ?length_app; simpl;
  repeat split; try lia;
  apply Forall_app; split; [exact Hlog | now repeat constructor].

Ltac glue_row_taken Hlog :=
  eexists; split; [reflexivity|]; simpl;
  rewrite filter_cons_True, filter_nil
    by (rewrite row_complete_spec; repeat split;
        try lia; intros ? [= <-]; lia);
  rewrite ?length_app; simpl;
  repeat split; try lia; exact Hlog.

(** X5.  A GLUE adapter whose text columns are configured and not negative,
    and whose label column is not further to the left than the first text
    column is to the right, never raises on the train and dev splits: every
    row (after the header, when there is one) gives one example when it is
    long enough for the three columns and one warning otherwise. *)
Theorem glue_train_rows (self : RunClassifier.GLUEProcessor.t)
    (lines : list (list string)) (set_type : string) (a l : Z) :
  set_type <> "test"%string ->
  RunClassifier.GLUEProcessor.text_a_column self = Some a ->
  0 <= a ->
  (forall b, RunClassifier.GLUEProcessor.text_b_column self = Some b ->
             0 <= b) ->
  RunClassifier.GLUEProcessor.label_column self = Some l ->
  - (a + 1) <= l ->
  exists exs log,
    RunClassifier.GLUEProcessor._create_examples self lines set_type
    = Ok (exs, log)
    /\ length exs
       = length (filter (fun row =>
                   RunClassifier.GLUEProcessor.row_complete
                     a (RunClassifier.GLUEProcessor.text_b_column self) l row
                   = true)
                   (drop (if RunClassifier.GLUEProcessor.contains_header self
                          then 1 else 0)%nat lines))
    /\ (length exs + length log
        = length (drop (if RunClassifier.GLUEProcessor.contains_header self
                        then 1 else 0)%nat lines))%nat
    /\ Forall (fun msg => msg = RunClassifier.GLUEProcessor.warning) log.
Proof.
  intros Hset Ha Ha0 Hb0 Hl Hl0.
  apply String.eqb_neq in Hset.
  unfold RunClassifier.GLUEProcessor._create_examples.
  rewrite Hset, Ha, Hl. simpl.
  set (h := (if RunClassifier.GLUEProcessor.contains_header self
             then 1 else 0)%nat).
  assert (Hh : (h <= 1)%nat) by (subst h; destruct
    (RunClassifier.GLUEProcessor.contains_header self); lia).
  match goal with
  | |- context [for_enumerate ?body 0%nat lines ?s0] =>
      destruct (for_enumerate_total_invariant body
        (fun pre (s : RunClassifier.adapter_state) =>
           length s.1
           = length (filter (fun row =>
                       RunClassifier.GLUEProcessor.row_complete
                         a (RunClassifier.GLUEProcessor.text_b_column self)
                         l row = true) (drop h pre))
           /\ (length s.1 + length s.2 = length (drop h pre))%nat
           /\ Forall (fun msg => msg = RunClassifier.GLUEProcessor.warning)
                     s.2)
        lines) with (s := s0) as ([exs log] & Hrun & Hn & Hsum & Hlog)
  end.
  - intros pre row [exs log] (Hn & Hsum & Hlog). simpl in Hn, Hsum, Hlog.
    rewrite (drop_snoc_header h) by assumption.
    rewrite !andb_false_r.
    destruct (Nat.eqb_spec (length pre) 0) as [Hpre|Hpre];
      destruct (RunClassifier.GLUEProcessor.contains_header self) eqn:Hhdr;
      subst h; simpl.
    { eexists. split; [reflexivity|]. simpl.
      destruct pre; [|discriminate]. simpl in *. easy. }
    all: rewrite ?drop_0 in *; rewrite ?filter_app.
    all: unfold RunClassifier.GLUEProcessor.len_le,
           RunClassifier.GLUEProcessor.getitem.
    all: destruct (Z.leb_spec (Z.of_nat (length row)) a) as [Hsa|Hsa];
           cbn [mbind result_bind]; [glue_row_skipped Hlog|].
    all: destruct (py_index_in_range row a) as [ta ->]; [lia|];
           cbn [mbind result_bind].
    all: destruct (RunClassifier.GLUEProcessor.text_b_column self)
           as [b|] eqn:Hb; cbn [mbind result_bind fmap result_fmap].
    all: try (specialize (Hb0 b eq_refl);
              destruct (Z.leb_spec (Z.of_nat (length row)) b) as [Hsb|Hsb];
              cbn [mbind result_bind fmap result_fmap];
              [glue_row_skipped Hlog|];
              destruct (py_index_in_range row b) as [tb ->]; [lia|];
              cbn [mbind result_bind fmap result_fmap]).
    all: destruct (Z.leb_spec (Z.of_nat (length row)) l) as [Hsl|Hsl];
           cbn [mbind result_bind]; [glue_row_skipped Hlog|].
    all: destruct (py_index_any_sign row l) as [tl ->]; [lia|].
    all: glue_row_taken Hlog.
  - simpl. rewrite drop_nil. repeat split; constructor.
  - exists exs, log. simpl in Hn, Hsum, Hlog. easy.
Qed.

Ltac glue_test_row_skipped Hlog Hlab :=
  eexists; split; [reflexivity|]; simpl;
  rewrite ?length_app; simpl;
  repeat split; try lia; try exact Hlab;
  apply Forall_app; split; [exact Hlog | now repeat constructor].

(** X6.  [get_test_examples] of a GLUE adapter whose test columns are not
    set reads the test file with the train columns; it never raises and
    never looks at a label column: every row (after the header, when the
    test file has one) gives one example or one warning, and every example
    carries the first label of the vocabulary. *)
Theorem glue_test_rows (self : RunClassifier.GLUEProcessor.t)
    (lines : list (list string)) (a : Z) (label0 : string)
    (labels : list string) :
  RunClassifier.GLUEProcessor.text_a_column self = Some a ->
  0 <= a ->
  (forall b, RunClassifier.GLUEProcessor.text_b_column self = Some b ->
             0 <= b) ->
  RunClassifier.GLUEProcessor.test_text_a_column self = None ->
  RunClassifier.GLUEProcessor.test_text_b_column self = None ->
  RunClassifier.GLUEProcessor.get_labels self = label0 :: labels ->
  exists self' exs log,
    RunClassifier.GLUEProcessor.get_test_examples self lines
    = (self', Ok (exs, log))
    /\ RunClassifier.GLUEProcessor.test_text_a_column self' = Some a
    /\ RunClassifier.GLUEProcessor.test_text_b_column self'
       = RunClassifier.GLUEProcessor.text_b_column self
    /\ (length exs + length log
        = length (drop (if RunClassifier.GLUEProcessor.test_contains_header
                              self then 1 else 0)%nat lines))%nat
    /\ Forall (fun msg => msg = RunClassifier.GLUEProcessor.warning) log
    /\ Forall (fun e => label e = VStr label0) exs.
Proof.
  intros Ha Ha0 Hb0 Hta Htb Hlabels.
  unfold RunClassifier.GLUEProcessor.get_test_examples.
  rewrite Hta. cbn [RunClassifier.GLUEProcessor.test_text_b_column].
  rewrite Htb.
  eexists. unfold RunClassifier.GLUEProcessor._create_examples.
  cbn [RunClassifier.GLUEProcessor.test_text_a_column
       RunClassifier.GLUEProcessor.test_text_b_column
       RunClassifier.GLUEProcessor.text_a_column
       RunClassifier.GLUEProcessor.text_b_column
       RunClassifier.GLUEProcessor.contains_header
       RunClassifier.GLUEProcessor.test_contains_header
       RunClassifier.GLUEProcessor.get_labels
       RunClassifier.GLUEProcessor.label_column].
  rewrite Ha, Hlabels.
  change ("test" =? "test")%string with true.
  cbn [negb].
  set (h := (if RunClassifier.GLUEProcessor.test_contains_header self
             then 1 else 0)%nat).
  assert (Hh : (h <= 1)%nat) by (subst h; destruct
    (RunClassifier.GLUEProcessor.test_contains_header self); lia).
  match goal with
  | |- context [for_enumerate ?body 0%nat lines ?s0] =>
      destruct (for_enumerate_total_invariant body
        (fun pre (s : RunClassifier.adapter_state) =>
           (length s.1 + length s.2 = length (drop h pre))%nat
           /\ Forall (fun msg => msg = RunClassifier.GLUEProcessor.warning)
                     s.2
           /\ Forall (fun e => label e = VStr label0) s.1)
        lines) with (s := s0) as ([exs log] & Hrun & Hsum & Hlog & Hlab)
  end.
  - intros pre row [exs log] (Hsum & Hlog & Hlab). simpl in Hsum, Hlog, Hlab.
    rewrite (drop_snoc_header h) by assumption.
    rewrite !andb_false_r, !andb_true_r.
    destruct (Nat.eqb_spec (length pre) 0) as [Hpre|Hpre];
      destruct (RunClassifier.GLUEProcessor.test_contains_header self)
        eqn:Hhdr; subst h; simpl.
    { eexists. split; [reflexivity|]. simpl.
      destruct pre; [|discriminate]. simpl in *. easy. }
    all: rewrite ?drop_0 in *.
    all: unfold RunClassifier.GLUEProcessor.len_le,
           RunClassifier.GLUEProcessor.getitem.
    all: destruct (Z.leb_spec (Z.of_nat (length row)) a) as [Hsa|Hsa];
           cbn [mbind result_bind]; [glue_test_row_skipped Hlog Hlab|].
    all: destruct (py_index_in_range row a) as [ta ->]; [lia|];
           cbn [mbind result_bind].
    all: destruct (RunClassifier.GLUEProcessor.text_b_column self)
           as [b|] eqn:Hb; cbn [mbind result_bind fmap result_fmap].
    all: try (specialize (Hb0 b eq_refl);
              destruct (Z.leb_spec (Z.of_nat (length row)) b) as [Hsb|Hsb];
              cbn [mbind result_bind fmap result_fmap];
              [glue_test_row_skipped Hlog Hlab|];
              destruct (py_index_in_range row b) as [tb ->]; [lia|];
              cbn [mbind result_bind fmap result_fmap]).
    all: eexists; (split; [reflexivity|]); simpl; rewrite ?length_app; simpl.
    all: repeat split; try lia; try exact Hlog.
    all: apply Forall_app; split; [exact Hlab | now repeat constructor].
  - simpl. rewrite drop_nil. repeat split; constructor.
  - exists exs, log. simpl in Hsum, Hlog, Hlab.
    split; [now rewrite Hrun|]. easy.
Qed.

(** ** The JSON-lines adapters on every split *)

Lemma getitem_text_inv (line : gmap string value) (key s : string) :
  py_getitem line key ≫= ClassifierUtils.convert_to_unicode = Ok s ->
  line !! key = Some (VStr s).
Proof.
  unfold py_getitem. destruct (line !! key) as [[t| | |]|]; simpl;
    congruence.
Qed.

Lemma getitem_text_raise (line : gmap string value) (key : string)
    (e : exn) :
  py_getitem line key ≫= ClassifierUtils.convert_to_unicode = Raise e ->
  e = KeyError key \/ e = ValueError.
Proof.
  unfold py_getitem. destruct (line !! key) as [[t| | |]|]; simpl;
    intros [= <-]; auto.
Qed.

Lemma getitem_inv (line : gmap string value) (key : string) (v : value) :
  py_getitem line key = Ok v -> line !! key = Some v.
Proof.
  unfold py_getitem. destruct (line !! key); congruence.
Qed.

(** The body of a loop that ended well ended well at every element, and
    an exception of the loop is the exception of its body at an element. *)
Lemma for_enumerate_ok_at {X St} (body : nat -> X -> St -> result St)
    (l : list X) :
  forall i s s',
    for_enumerate body i l s = Ok s' ->
    forall k x, l !! k = Some x ->
                exists s1 s2, body (i + k)%nat x s1 = Ok s2.
Proof.
  induction l as [|y l IH]; intros i s s'; simpl.
  - intros _ k x Hk. discriminate Hk.
  - destruct (body i y s) as [s1|e] eqn:Hb; simpl; [|discriminate].
    intros Hrun [|k] x Hk; simpl in Hk.
    + injection Hk as <-. rewrite Nat.add_0_r. eauto.
    + replace (i + S k)%nat with (S i + k)%nat by lia.
      eapply IH; eauto.
Qed.

Lemma for_enumerate_raise_at {X St} (body : nat -> X -> St -> result St)
    (l : list X) :
  forall i s e,
    for_enumerate body i l s = Raise e ->
    exists k x s1, l !! k = Some x /\ body (i + k)%nat x s1 = Raise e.
Proof.
  induction l as [|y l IH]; intros i s e; simpl; [discriminate|].
  destruct (body i y s) as [s1|e1] eqn:Hb; simpl.
  - intros Hrun. destruct (IH _ _ _ Hrun) as (k & x & s2 & Hk & Hx).
    exists (S k), x, s2. split; [exact Hk|].
    now replace (i + S k)%nat with (S i + k)%nat by lia.
  - intros [= <-]. exists 0%nat, y, s. rewrite Nat.add_0_r. auto.
Qed.

Lemma subscript_text_inv (line : json) (key s : string) :
  py_subscript line key ≫= ClassifierUtils.convert_to_unicode = Ok s ->
  exists d, line = JObject d /\ d !! key = Some (VStr s).
Proof.
  destruct line as [d|]; simpl; [|discriminate].
  intros H. exists d. split; [reflexivity|]. now apply getitem_text_inv.
Qed.

Lemma subscript_text_raise (line : json) (key : string) (e : exn) :
  py_subscript line key ≫= ClassifierUtils.convert_to_unicode = Raise e ->
  (line = JOther /\ e = TypeError)
  \/ (line <> JOther /\ (e = KeyError key \/ e = ValueError)).
Proof.
  destruct line as [d|]; simpl.
  - intros H. right. split; [discriminate|].
    now apply getitem_text_raise in H.
  - intros [= <-]. now left.
Qed.

(** X7.  The Tnews adapter of classifier_utils on the lines that
    [_read_json] hands over, on the train and dev splits.  It loads a file
    exactly when every line is an object with a string under ["sentence"]
    and a string under ["label"]; the examples are then those strings, one
    per line and in the order of the file.  A line that is not an object
    ends the load with [TypeError] (and only such a line does), an object
    without one of the keys with [KeyError], a value that is not a string
    with [ValueError]; there is no other failure.  On objects the loop is
    the one over dictionaries. *)
Theorem cu_tnews_train (lines : list json) (set_type : string) :
  set_type <> "test"%string ->
  ((exists exs,
      ClassifierUtils.TnewsProcessor.Json._create_examples lines set_type
      = Ok exs)
   <-> Forall (fun line => object_with_text "sentence" line
                           /\ object_with_text "label" line) lines)
  /\ (forall exs,
        ClassifierUtils.TnewsProcessor.Json._create_examples lines set_type
        = Ok exs ->
        exs = imap (fun i line =>
                mkInputExample (format_guid set_type i)
                  (VStr (text_at "sentence" (fields line))) VNone
                  (VStr (text_at "label" (fields line)))) lines)
  /\ (forall e,
        ClassifierUtils.TnewsProcessor.Json._create_examples lines set_type
        = Raise e ->
        (e = TypeError /\ JOther ∈ lines)
        \/ e = KeyError "sentence" \/ e = KeyError "label" \/ e = ValueError)
  /\ (forall rest,
        Forall (fun line => object_with_text "sentence" line
                            /\ object_with_text "label" line) lines ->
        ClassifierUtils.TnewsProcessor.Json._create_examples
          (lines ++ JOther :: rest) set_type
        = Raise TypeError)
  /\ (forall objects,
        lines = JObject <$> objects ->
        ClassifierUtils.TnewsProcessor.Json._create_examples lines set_type
        = ClassifierUtils.TnewsProcessor._create_examples objects set_type).
Proof.
  intros Hset. apply String.eqb_neq in Hset.
  unfold ClassifierUtils.TnewsProcessor.Json._create_examples,
    ClassifierUtils.TnewsProcessor._create_examples.
  rewrite Hset. cbn [negb].
  set (body := fun (i : nat) (line : json) (examples : list InputExample) =>
         text_a ← py_subscript line "sentence"
                  ≫= ClassifierUtils.convert_to_unicode;
         label ← VStr <$> (py_subscript line "label"
                           ≫= ClassifierUtils.convert_to_unicode);
         Ok (examples ++ [mkInputExample (format_guid set_type i)
                                         (VStr text_a) VNone label])).
  assert (Hgood : forall i line acc,
            object_with_text "sentence" line
            /\ object_with_text "label" line ->
            body i line acc
            = Ok (acc ++ [mkInputExample (format_guid set_type i)
                            (VStr (text_at "sentence" (fields line))) VNone
                            (VStr (text_at "label" (fields line)))])).
  { intros i line acc [(d & -> & Hs) (d' & Hd & Hl)].
    injection Hd as <-. subst body. simpl.
    destruct (lookup_text d "sentence" Hs) as (-> & _).
    destruct (lookup_text d "label" Hl) as (-> & _). reflexivity. }
  assert (Hiff :
    (exists exs, for_enumerate body 0 lines [] = Ok exs)
    <-> Forall (fun line => object_with_text "sentence" line
                            /\ object_with_text "label" line) lines).
  { rewrite Forall_lookup.
    apply (for_enumerate_ok_iff body
             (fun _ line => object_with_text "sentence" line
                            /\ object_with_text "label" line)).
    - intros i line acc Hline. rewrite (Hgood i line acc Hline). now eexists.
    - intros i line acc acc'. subst body. simpl.
      destruct (py_subscript line "sentence" ≫= _) as [s|] eqn:Hs; simpl;
        [|discriminate].
      destruct (py_subscript line "label" ≫= _) as [l|] eqn:Hl; simpl;
        [|discriminate].
      intros _.
      apply subscript_text_inv in Hs as (d & -> & Hs).
      apply subscript_text_inv in Hl as (d' & Hd & Hl).
      injection Hd as <-.
      split; exists d; (split; [reflexivity|]); eexists; eassumption. }
  split; [exact Hiff|]. split; [|split; [|split]].
  - intros exs Hrun.
    assert (Hall : Forall (fun line => object_with_text "sentence" line
                                       /\ object_with_text "label" line)
                          lines)
      by (apply Hiff; eauto).
    rewrite (for_enumerate_append body
      (fun i line => mkInputExample (format_guid set_type i)
                       (VStr (text_at "sentence" (fields line))) VNone
                       (VStr (text_at "label" (fields line))))) in Hrun.
    + now injection Hrun as <-.
    + intros i line acc Hin. rewrite Forall_forall in Hall.
      apply Hgood, Hall, Hin.
  - intros e Hrun.
    apply for_enumerate_raise_at in Hrun as (k & line & acc & Hk & Hbody).
    apply list_elem_of_lookup_2 in Hk.
    revert Hbody. subst body. simpl.
    destruct (py_subscript line "sentence" ≫= _) as [s|e1] eqn:Hs; simpl.
    + destruct (py_subscript line "label" ≫= _) as [l|e2] eqn:Hl; simpl;
        [discriminate|].
      intros [= <-].
      apply subscript_text_raise in Hl as [[-> ->]|[_ [->| ->]]]; auto.
    + intros [= <-].
      apply subscript_text_raise in Hs as [[-> ->]|[_ [->| ->]]]; auto.
  - intros rest Hall.
    assert (Hgen : forall pre i acc,
              Forall (fun line => object_with_text "sentence" line
                                  /\ object_with_text "label" line) pre ->
              for_enumerate body i (pre ++ JOther :: rest) acc
              = Raise TypeError).
    { induction pre as [|x pre IH]; intros i acc Hpre; simpl.
      - reflexivity.
      - apply Forall_cons in Hpre as [Hx Hpre].
        rewrite (Hgood i x acc Hx). simpl. now apply IH. }
    now apply Hgen.
  - intros objects ->. clear Hgood Hiff. subst body.
    assert (Hgen : forall (i : nat) (acc : list InputExample),
      for_enumerate
        (fun (i : nat) (line : json) (examples : list InputExample) =>
           text_a ← py_subscript line "sentence"
                    ≫= ClassifierUtils.convert_to_unicode;
           label ← VStr <$> (py_subscript line "label"
                             ≫= ClassifierUtils.convert_to_unicode);
           Ok (examples ++ [mkInputExample (format_guid set_type i)
                                           (VStr text_a) VNone label]))
        i (JObject <$> objects) acc
      = for_enumerate
          (fun (i : nat) (line : gmap string value)
               (examples : list InputExample) =>
             text_a ← py_getitem line "sentence"
                      ≫= ClassifierUtils.convert_to_unicode;
             label ← VStr <$> (py_getitem line "label"
                               ≫= ClassifierUtils.convert_to_unicode);
             Ok (examples ++ [mkInputExample (format_guid set_type i)
                                             (VStr text_a) VNone label]))
          i objects acc).
    { induction objects as [|d objects IH]; intros i acc; simpl;
        [reflexivity|].
      destruct (py_getitem d "sentence" ≫= _) as [s|]; simpl;
        [|reflexivity].
      destruct (py_getitem d "label" ≫= _) as [l|]; simpl; [|reflexivity].
      apply IH. }
    apply Hgen.
Qed.

(** [str] tells the natural numbers apart. *)
Lemma str_inj (a b : Z) : str a = str b -> a = b.
Proof.
  unfold str. intros H.
  assert (Hnil : forall z, Z.to_int z <> Decimal.Pos Decimal.Nil
                           /\ Z.to_int z <> Decimal.Neg Decimal.Nil).
  { intros z. split; intros Hz; pose proof (f_equal Z.of_int Hz) as Hz0;
      rewrite DecimalZ.of_to in Hz0; cbn in Hz0; subst z; cbv in Hz;
      discriminate Hz. }
  apply DecimalZ.to_int_inj.
  destruct (Hnil a) as [Ha1 Ha2], (Hnil b) as [Hb1 Hb2].
  pose proof (NilZero.isi _ Ha1 Ha2) as Ia.
  pose proof (NilZero.isi _ Hb1 Hb2) as Ib.
  rewrite H in Ia. congruence.
Qed.

Lemma format_guid_inj (set_type : string) : Inj eq eq (format_guid set_type).
Proof.
  intros i j H. unfold format_guid in H.
  apply String.app_inj in H. apply (String.app_inj "-") in H.
  apply str_inj in H. lia.
Qed.

Lemma guids_of_loop {X} (set_type : string)
    (body : nat -> X -> list InputExample -> result (list InputExample))
    (l : list X) (exs : list InputExample) :
  (forall i x acc acc',
     body i x acc = Ok acc' ->
     exists e, acc' = acc ++ [e] /\ guid e = format_guid set_type i) ->
  for_enumerate body 0 l [] = Ok exs ->
  guid <$> exs = format_guid set_type <$> seq 0 (length l)
  /\ NoDup (guid <$> exs).
Proof.
  intros Hbody Hrun.
  assert (Hguids : guid <$> exs = format_guid set_type <$> seq 0 (length l)).
  { apply (for_enumerate_invariant body
             (fun i acc => guid <$> acc = format_guid set_type <$> seq 0 i))
      in Hrun; [exact Hrun| |reflexivity].
    intros i x acc acc' Hacc Hb.
    destruct (Hbody _ _ _ _ Hb) as (e & -> & Hg).
    rewrite fmap_app, Hacc, seq_S, fmap_app. simpl. now rewrite Hg. }
  split; [exact Hguids|]. rewrite Hguids.
  apply (NoDup_fmap_2 (format_guid set_type) (Inj0 := format_guid_inj set_type)).
  apply NoDup_seq.
Qed.

(** X8.  Whatever the split, the examples that the JSON-lines adapters of
    classifier_utils build carry the guids [set_type-0], [set_type-1], ...
    in the order of the file, one per record: no two examples of a load
    share a guid. *)
Theorem cu_json_guids (lines : list (gmap string value)) (set_type : string)
    (exs : list InputExample) :
  ClassifierUtils.XnliProcessor._create_examples lines set_type = Ok exs
  \/ ClassifierUtils.TnewsProcessor._create_examples lines set_type = Ok exs
  \/ ClassifierUtils.iFLYTEKDataProcessor._create_examples lines set_type
     = Ok exs
  \/ ClassifierUtils.AFQMCProcessor._create_examples lines set_type = Ok exs ->
  guid <$> exs = format_guid set_type <$> seq 0 (length lines)
  /\ NoDup (guid <$> exs)
  /\ length exs = length lines.
Proof.
  intros Hrun.
  assert (H : guid <$> exs = format_guid set_type <$> seq 0 (length lines)
              /\ NoDup (guid <$> exs)).
  { destruct Hrun as [Hrun|[Hrun|[Hrun|Hrun]]];
      (eapply guids_of_loop; [|exact Hrun]);
      intros i line acc acc'; simpl;
      repeat match goal with
      | |- context [?m ≫= ?k] =>
          match m with
          | context [_ ≫= _] => fail 1
          | _ => destruct m; simpl; [|discriminate]
          end
      end.
    all: try (destruct (negb (set_type =? "test")%string); simpl).
    all: repeat match goal with
      | |- context [py_getitem ?l ?k ≫= ?f] =>
          destruct (py_getitem l k ≫= f); simpl; [|discriminate]
      end.
    all: intros [= <-]; eexists; split; reflexivity. }
  destruct H as [Hg Hn]. repeat split; try assumption.
  apply (f_equal length) in Hg. now rewrite !length_fmap, length_seq in Hg.
Qed.

(** X9.  The two Tnews adapters on the same records: whatever the one of
    classifier_utils loads, the one of run_classifier loads to the same
    examples; and where the one of run_classifier loads, the one of
    classifier_utils gives the same examples or stops with [ValueError],
    at a value that is not a string, and with no other exception. *)
Theorem tnews_adapters_agree (lines : list (gmap string value))
    (set_type : string) :
  (forall exs,
     ClassifierUtils.TnewsProcessor._create_examples lines set_type = Ok exs ->
     RunClassifier.TnewsProcessor._create_examples lines set_type = Ok exs)
  /\ (forall exs,
        RunClassifier.TnewsProcessor._create_examples lines set_type
        = Ok exs ->
        ClassifierUtils.TnewsProcessor._create_examples lines set_type
        = Ok exs
        \/ ClassifierUtils.TnewsProcessor._create_examples lines set_type
           = Raise ValueError).
Proof.
  assert (Hsim : forall exs,
     ClassifierUtils.TnewsProcessor._create_examples lines set_type = Ok exs ->
     RunClassifier.TnewsProcessor._create_examples lines set_type = Ok exs).
  { unfold ClassifierUtils.TnewsProcessor._create_examples,
      RunClassifier.TnewsProcessor._create_examples.
    apply for_enumerate_simulation. intros i line acc acc'.
    unfold py_getitem.
    destruct (line !! "sentence") as [[s| | |]|]; simpl; try discriminate.
    destruct (negb (set_type =? "test")%string); simpl; [|easy].
    destruct (line !! "label") as [[l| | |]|]; simpl; try discriminate.
    easy. }
  split; [exact Hsim|].
  intros exs Hrc.
  destruct (ClassifierUtils.TnewsProcessor._create_examples lines set_type)
    as [exs'|e] eqn:Hcu.
  - left. specialize (Hsim exs' eq_refl). congruence.
  - right. f_equal.
    unfold ClassifierUtils.TnewsProcessor._create_examples in Hcu.
    apply for_enumerate_raise_at in Hcu as (k & line & acc & Hk & Hbody).
    unfold RunClassifier.TnewsProcessor._create_examples in Hrc.
    destruct (for_enumerate_ok_at _ _ _ _ _ Hrc k line Hk)
      as (s1 & s2 & Hok).
    revert Hbody Hok. simpl. unfold py_getitem.
    destruct (line !! "sentence") as [[s| | |]|]; simpl;
      try discriminate; try (now intros [= <-]).
    destruct (negb (set_type =? "test")%string); simpl; [|discriminate].
    destruct (line !! "label") as [[l| | |]|]; simpl;
      try discriminate; now intros [= <-].
Qed.

(** ** The writers and the files they leave alone *)

Section WriterFrame.

Context `{FM : FloatModel}.
Variable tokenizer : Type.
Variable convert_single_example :
  nat -> example -> option (list string) -> Z -> tokenizer ->
  result InputFeatures.
Variable convert_example_list_for_inews :
  nat -> example -> option (list string) -> Z -> tokenizer ->
  result (list InputFeatures).
Variable FLAGS : RunClassifier.flags.
Variable label_list : option (list string).
Variable max_seq_length : Z.
Variable tokenize_fn : tokenizer.
Variable output_file : string.

Lemma write_examples_frame (examples : list example) (path : string) :
  path <> output_file ->
  forall (i : nat) (fs : gmap string (list (gmap string RunClassifier.Feature))),
    (RunClassifier.write_examples tokenizer convert_single_example label_list
       max_seq_length tokenize_fn output_file i examples fs).2 !! path
    = fs !! path.
Proof.
  intros Hpath. induction examples as [|e examples IH]; intros i fs; simpl;
    [reflexivity|].
  destruct (convert_single_example i e label_list max_seq_length
                                   tokenize_fn ≫= _) as [r|err]; simpl;
    [|reflexivity].
  rewrite IH. unfold RunClassifier.writer_write.
  now apply lookup_insert_ne.
Qed.

Lemma write_feature_list_inews_frame (feature_list : list InputFeatures)
    (path : string) :
  path <> output_file ->
  forall st : gmap string RunClassifier.Feature
              * gmap string (list (gmap string RunClassifier.Feature)),
    (RunClassifier.write_feature_list_inews output_file feature_list st).2
      !! path
    = st.2 !! path.
Proof.
  intros Hpath. induction feature_list as [|f fl IH]; intros [features fs];
    [reflexivity|].
  cbn [RunClassifier.write_feature_list_inews].
  destruct (RunClassifier.write_feature_inews output_file f (features, fs))
    as [[features' fs']|err] eqn:Hw; [|reflexivity].
  rewrite IH. cbn [snd]. revert Hw.
  unfold RunClassifier.write_feature_inews.
  repeat (match goal with
          | |- context [RunClassifier.create_int_feature ?v ≫= _] =>
              destruct (RunClassifier.create_int_feature v); simpl;
              [|discriminate]
          end).
  intros [= _ <-]. unfold RunClassifier.writer_write.
  now apply lookup_insert_ne.
Qed.

Lemma write_examples_inews_frame (examples : list example) (path : string) :
  path <> output_file ->
  forall (i : nat) (fs : gmap string (list (gmap string RunClassifier.Feature))),
    (RunClassifier.write_examples_inews tokenizer
       convert_example_list_for_inews label_list max_seq_length tokenize_fn
       output_file i examples fs).2 !! path
    = fs !! path.
Proof.
  intros Hpath. induction examples as [|e examples IH]; intros i fs; simpl;
    [reflexivity|].
  destruct (convert_example_list_for_inews i e label_list max_seq_length
                                           tokenize_fn) as [fl|err]; simpl;
    [|reflexivity].
  pose proof (write_feature_list_inews_frame fl path Hpath (∅, fs)) as Hfl.
  destruct (RunClassifier.write_feature_list_inews output_file fl (∅, fs))
    as [[u|err] fs']; simpl in *.
  - now rewrite IH.
  - exact Hfl.
Qed.

(** X10.  Neither writer touches a file other than [output_file]: whatever
    the examples, the flags and the outcome, every other path holds after
    the call what it held before. *)
Theorem writers_touch_one_file (examples : list example) (num_passes : Z)
    (fs : gmap string (list (gmap string RunClassifier.Feature)))
    (path : string) :
  path <> output_file ->
  (RunClassifier.file_based_convert_examples_to_features
     tokenizer convert_single_example FLAGS examples label_list
     max_seq_length tokenize_fn output_file num_passes fs).2 !! path
  = fs !! path
  /\ (RunClassifier.file_based_convert_examples_to_features_for_inews
        tokenizer convert_example_list_for_inews examples label_list
        max_seq_length tokenize_fn output_file num_passes fs).2 !! path
     = fs !! path.
Proof.
  intros Hpath. split.
  - unfold RunClassifier.file_based_convert_examples_to_features.
    destruct (RunClassifier.Exists_ output_file fs && _); [reflexivity|].
    match goal with
    | |- context [RunClassifier.write_examples _ _ _ _ _ _ ?i ?l ?fs0] =>
        pose proof (write_examples_frame l path Hpath i fs0) as Hw;
        destruct (RunClassifier.write_examples tokenizer
                    convert_single_example label_list max_seq_length
                    tokenize_fn output_file i l fs0) as [r fs']
    end.
    simpl in *. rewrite Hw. unfold RunClassifier.TFRecordWriter.
    now apply lookup_insert_ne.
  - unfold RunClassifier.file_based_convert_examples_to_features_for_inews.
    match goal with
    | |- context [RunClassifier.write_examples_inews _ _ _ _ _ _ ?i ?l ?fs0] =>
        pose proof (write_examples_inews_frame l path Hpath i fs0) as Hw;
        destruct (RunClassifier.write_examples_inews tokenizer
                    convert_example_list_for_inews label_list max_seq_length
                    tokenize_fn output_file i l fs0) as [r fs']
    end.
    simpl in *. rewrite Hw. unfold RunClassifier.TFRecordWriter.
    now apply lookup_insert_ne.
Qed.

End WriterFrame.

(** ** The records of the writer of inews *)

Lemma mapM_app_result {X Y} (f : X -> result Y) (l1 l2 : list X)
    (r : list Y) :
  mapM f (l1 ++ l2) = Ok r ->
  exists r1 r2, mapM f l1 = Ok r1 /\ mapM f l2 = Ok r2 /\ r = r1 ++ r2.
Proof.
  revert r. induction l1 as [|x l1 IH]; intros r.
  - intros H. exists [], r. repeat split. exact H.
  - rewrite <- app_comm_cons, !mapM_cons_result.
    destruct (f x) as [y|]; [|discriminate].
    destruct (mapM f (l1 ++ l2)) as [k|] eqn:Hk; [|discriminate].
    intros [= <-]. destruct (IH k eq_refl) as (r1 & r2 & -> & H2 & ->).
    exists (y :: r1), r2. repeat split. exact H2.
Qed.

Section InewsContainer.

Context `{FM : FloatModel}.

Lemma record_keys_cases (k : string) :
  k ∈ RunClassifier.record_keys ->
  k = "input_ids"%string \/ k = "input_mask"%string
  \/ k = "segment_ids"%string \/ k = "label_ids"%string
  \/ k = "is_real_example"%string.
Proof.
  unfold RunClassifier.record_keys. rewrite !elem_of_cons, elem_of_nil.
  tauto.
Qed.

Lemma five_inserts_any_dict
    (features0 : gmap string RunClassifier.Feature)
    (f1 f2 f3 f4 f5 : RunClassifier.Feature) :
  (forall k, is_Some (features0 !! k) -> k ∈ RunClassifier.record_keys) ->
  <["is_real_example" := f5]>
    (<["label_ids" := f4]>
       (<["segment_ids" := f3]>
          (<["input_mask" := f2]> (<["input_ids" := f1]> features0))))
  = <["is_real_example" := f5]>
      (<["label_ids" := f4]>
         (<["segment_ids" := f3]>
            (<["input_mask" := f2]> (<["input_ids" := f1]> ∅)))).
Proof.
  intros Hdom. apply map_eq. intros k.
  destruct (decide (k = "is_real_example"%string)) as [->|H5];
    [now rewrite !lookup_insert_eq|].
  rewrite !(lookup_insert_ne _ "is_real_example") by done.
  destruct (decide (k = "label_ids"%string)) as [->|H4];
    [now rewrite !lookup_insert_eq|].
  rewrite !(lookup_insert_ne _ "label_ids") by done.
  destruct (decide (k = "segment_ids"%string)) as [->|H3];
    [now rewrite !lookup_insert_eq|].
  rewrite !(lookup_insert_ne _ "segment_ids") by done.
  destruct (decide (k = "input_mask"%string)) as [->|H2];
    [now rewrite !lookup_insert_eq|].
  rewrite !(lookup_insert_ne _ "input_mask") by done.
  destruct (decide (k = "input_ids"%string)) as [->|H1];
    [now rewrite !lookup_insert_eq|].
  rewrite !(lookup_insert_ne _ "input_ids") by done.
  rewrite lookup_empty.
  destruct (features0 !! k) as [v|] eqn:Hk; [|reflexivity].
  destruct (record_keys_cases k (Hdom k (mk_is_Some _ _ Hk)))
    as [?|[?|[?|[?|?]]]]; congruence.
Qed.

(** The dictionary [features] is used again for every feature of an
    example; as each of its entries is set again, the record written does
    not depend on what the dictionary held. *)
Lemma write_feature_inews_any_dict (output_file : string)
    (feature : InputFeatures)
    (features0 : gmap string RunClassifier.Feature)
    (fs : gmap string (list (gmap string RunClassifier.Feature))) :
  (forall k, is_Some (features0 !! k) -> k ∈ RunClassifier.record_keys) ->
  RunClassifier.write_feature_inews output_file feature (features0, fs)
  = match RunClassifier.record_of_inews feature with
    | Ok r => Ok (r, RunClassifier.writer_write output_file r fs)
    | Raise e => Raise e
    end.
Proof.
  intros Hdom.
  unfold RunClassifier.record_of_inews, RunClassifier.write_feature_inews.
  repeat (match goal with
          | |- context [RunClassifier.create_int_feature ?v ≫= _] =>
              destruct (RunClassifier.create_int_feature v);
              cbn [mbind result_bind fmap result_fmap fst];
              [|reflexivity]
          end).
  now rewrite (five_inserts_any_dict features0) by assumption.
Qed.

Lemma record_of_inews_keys (feature : InputFeatures)
    (r : gmap string RunClassifier.Feature) :
  RunClassifier.record_of_inews feature = Ok r ->
  forall k, is_Some (r !! k) <-> k ∈ RunClassifier.record_keys.
Proof.
  unfold RunClassifier.record_of_inews, RunClassifier.write_feature_inews.
  repeat (match goal with
          | |- context [RunClassifier.create_int_feature ?v ≫= _] =>
              destruct (RunClassifier.create_int_feature v);
              cbn [mbind result_bind fmap result_fmap fst];
              [|discriminate]
          end).
  intros [= <-] k. unfold RunClassifier.record_keys.
  rewrite !lookup_insert_is_Some, lookup_empty, is_Some_alt.
  rewrite !elem_of_cons, elem_of_nil. intuition congruence.
Qed.

Lemma write_feature_list_inews_run (output_file : string)
    (feature_list : list InputFeatures) :
  forall (features0 : gmap string RunClassifier.Feature)
         (fs : gmap string (list (gmap string RunClassifier.Feature)))
         written records,
    (forall k, is_Some (features0 !! k) -> k ∈ RunClassifier.record_keys) ->
    fs !! output_file = Some written ->
    mapM RunClassifier.record_of_inews feature_list = Ok records ->
    RunClassifier.write_feature_list_inews output_file feature_list
                                           (features0, fs)
    = (Ok (), <[output_file := written ++ records]> fs).
Proof.
  induction feature_list as [|f fl IH];
    intros features0 fs written records Hdom Hfile.
  - intros H. cbv in H. injection H as <-. simpl.
    rewrite app_nil_r. now rewrite insert_id.
  - rewrite mapM_cons_result.
    destruct (RunClassifier.record_of_inews f) as [r|] eqn:Hr;
      [|discriminate].
    destruct (mapM RunClassifier.record_of_inews fl) as [rs|] eqn:Hrs;
      [|discriminate].
    intros [= <-]. cbn [RunClassifier.write_feature_list_inews].
    rewrite write_feature_inews_any_dict, Hr by assumption.
    rewrite (IH r _ (written ++ [r]) rs).
    + unfold RunClassifier.writer_write. rewrite Hfile. simpl.
      rewrite insert_insert_eq, <- app_assoc. reflexivity.
    + intros k Hk. now apply (record_of_inews_keys f r Hr).
    + unfold RunClassifier.writer_write. rewrite Hfile. simpl.
      apply lookup_insert_eq.
    + reflexivity.
Qed.

Variable tokenizer : Type.
Variable convert_example_list_for_inews :
  nat -> example -> option (list string) -> Z -> tokenizer ->
  result (list InputFeatures).
Variable label_list : option (list string).
Variable max_seq_length : Z.
Variable tokenize_fn : tokenizer.
Variable output_file : string.

Lemma write_examples_inews_run (examples : list example) :
  forall (i : nat) (fs : gmap string (list (gmap string RunClassifier.Feature)))
         written feature_lists records,
    fs !! output_file = Some written ->
    mapM id (imap (fun k e =>
                     convert_example_list_for_inews (i + k)%nat e label_list
                       max_seq_length tokenize_fn) examples)
    = Ok feature_lists ->
    mapM RunClassifier.record_of_inews (mjoin feature_lists) = Ok records ->
    RunClassifier.write_examples_inews tokenizer
      convert_example_list_for_inews label_list max_seq_length tokenize_fn
      output_file i examples fs
    = (Ok (), <[output_file := written ++ records]> fs).
Proof.
  induction examples as [|e examples IH];
    intros i fs written fls records Hfile.
  - intros H. cbv in H. injection H as <-. simpl.
    intros H. cbv in H. injection H as <-.
    rewrite app_nil_r. now rewrite insert_id.
  - rewrite imap_cons, mapM_cons_result. unfold id at 1.
    rewrite Nat.add_0_r.
    cbn [RunClassifier.write_examples_inews].
    destruct (convert_example_list_for_inews i e label_list max_seq_length
                                             tokenize_fn) as [fl|];
      [|discriminate].
    destruct (mapM id _) as [fls'|] eqn:Hrest; [|discriminate].
    intros [= <-]. simpl mjoin. intros Hrecords.
    apply mapM_app_result in Hrecords as (r1 & r2 & H1 & H2 & ->).
    rewrite (write_feature_list_inews_run output_file fl ∅ fs written r1);
      [| intros k [v Hk]; now rewrite lookup_empty in Hk | assumption
       | assumption].
    rewrite (IH (S i) _ (written ++ r1) fls' r2).
    + rewrite insert_insert_eq, app_assoc. reflexivity.
    + apply lookup_insert_eq.
    + rewrite <- Hrest. f_equal. apply imap_ext. intros k x _. simpl.
      f_equal. lia.
    + assumption.
Qed.

(** X11.  When every example converts and every feature makes a record, the
    file the writer of inews leaves holds one record per feature, not per
    example: the records of the features of the first example, then those
    of the second, and so on, each record made of its feature alone. *)
Theorem inews_writer_records (examples : list example) (num_passes : Z)
    (fs : gmap string (list (gmap string RunClassifier.Feature)))
    (feature_lists : list (list InputFeatures))
    (records : list (gmap string RunClassifier.Feature)) :
  mapM id (imap (fun k e =>
                   convert_example_list_for_inews k e label_list
                     max_seq_length tokenize_fn)
                (if num_passes >? 1
                 then RunClassifier.list_mul examples num_passes
                 else examples))
  = Ok feature_lists ->
  mapM RunClassifier.record_of_inews (mjoin feature_lists) = Ok records ->
  RunClassifier.file_based_convert_examples_to_features_for_inews
    tokenizer convert_example_list_for_inews examples label_list
    max_seq_length tokenize_fn output_file num_passes fs
  = (Ok (),
     if num_passes >? 1 then RunClassifier.list_mul examples num_passes
     else examples,
     <[output_file := records]> fs)
  /\ length records = length (mjoin feature_lists)
  /\ Forall (fun r => forall k,
               is_Some (r !! k) <-> k ∈ RunClassifier.record_keys) records.
Proof.
  intros Hfls Hrecords.
  unfold RunClassifier.file_based_convert_examples_to_features_for_inews.
  rewrite (write_examples_inews_run _ 0 _ [] feature_lists records).
  - unfold RunClassifier.TFRecordWriter. rewrite insert_insert_eq.
    split; [reflexivity|]. split.
    + now apply length_mapM_result in Hrecords.
    + clear Hfls. revert records Hrecords.
      induction (mjoin feature_lists) as [|f fl IH]; intros records.
      * intros H. cbv in H. injection H as <-. constructor.
      * rewrite mapM_cons_result.
        destruct (RunClassifier.record_of_inews f) as [r|] eqn:Hr;
          [|discriminate].
        destruct (mapM RunClassifier.record_of_inews fl) as [rs|];
          [|discriminate].
        intros [= <-]. constructor; [|now apply IH].
        now apply (record_of_inews_keys f r).
  - unfold RunClassifier.TFRecordWriter. apply lookup_insert_eq.
  - exact Hfls.
  - exact Hrecords.
Qed.

End InewsContainer.

(** ** The writer with the float mask, then the reader *)

Section WriteThenRead.

Context `{FM : FloatModel}.
Variable tokenizer : Type.
Variable convert_single_example :
  nat -> example -> option (list string) -> Z -> tokenizer ->
  result InputFeatures.
Variable FLAGS : RunClassifier.flags.
Variable label_list : option (list string).
Variable max_seq_length : Z.
Variable tokenize_fn : tokenizer.
Variable output_file : string.

Lemma mapM_record_of (examples : list example) :
  forall (i : nat) features records,
    mapM id (imap (fun k e =>
                     convert_single_example (i + k)%nat e label_list
                       max_seq_length tokenize_fn) examples) = Ok features ->
    mapM (RunClassifier.to_record label_list) features = Ok records ->
    mapM id (imap (fun k e =>
                     RunClassifier.record_of tokenizer convert_single_example
                       label_list max_seq_length tokenize_fn (i + k)%nat e)
                  examples)
    = Ok records.
Proof.
  induction examples as [|e examples IH]; intros i features records.
  - intros H. cbv in H. injection H as <-.
    intros H. cbv in H. injection H as <-. reflexivity.
  - rewrite !imap_cons, !mapM_cons_result. unfold id at 1 3.
    unfold RunClassifier.record_of at 1.
    destruct (convert_single_example (i + 0)%nat e label_list max_seq_length
                                     tokenize_fn) as [f|]; [|discriminate].
    destruct (mapM id _) as [fs|] eqn:Hfs; [|discriminate].
    intros [= <-]. rewrite mapM_cons_result. cbn [mbind result_bind].
    destruct (RunClassifier.to_record label_list f) as [r|]; [|discriminate].
    destruct (mapM (RunClassifier.to_record label_list) fs) as [rs|] eqn:Hrs;
      [|discriminate].
    intros [= <-].
    rewrite (imap_ext _ (fun k e0 =>
               RunClassifier.record_of tokenizer convert_single_example
                 label_list max_seq_length tokenize_fn (S i + k)%nat e0)).
    + rewrite (IH (S i) fs rs); [reflexivity| |exact Hrs].
      rewrite <- Hfs. f_equal. apply imap_ext. intros k x _. simpl.
      f_equal. lia.
    + intros k x _. simpl. f_equal. lia.
Qed.

(** X12.  The writer with the float mask and the reader fit together: when
    the writer is not stopped by its guard, every example of the list it
    walks converts to a feature whose three arrays have [seq_length]
    entries, every feature makes a record, and the label list is absent
    exactly in the regression task, then reading the file back gives the
    field values of the features, one decoded record per example and in the
    order of the list. *)
Theorem write_then_read (examples : list example) (num_passes : Z)
    (fs : gmap string (list (gmap string RunClassifier.Feature)))
    (features : list InputFeatures)
    (records : list (gmap string RunClassifier.Feature))
    (seq_length : nat) :
  RunClassifier.Exists_ output_file fs
  && negb (RunClassifier.overwrite_data FLAGS) = false ->
  mapM id (imap (fun k e =>
                   convert_single_example k e label_list max_seq_length
                                          tokenize_fn)
                (if num_passes >? 1
                 then RunClassifier.list_mul examples num_passes
                 else examples)) = Ok features ->
  mapM (RunClassifier.to_record label_list) features = Ok records ->
  Forall (fun feature =>
            length (input_ids feature) = seq_length
            /\ length (input_mask feature) = seq_length
            /\ length (segment_ids feature) = seq_length) features ->
  RunClassifier.is_regression FLAGS
  = match label_list with Some _ => false | None => true end ->
  RunClassifier.read_records FLAGS output_file seq_length
    (RunClassifier.file_based_convert_examples_to_features
       tokenizer convert_single_example FLAGS examples label_list
       max_seq_length tokenize_fn output_file num_passes fs).2
  = Ok (RunClassifier.tensors_of label_list seq_length <$> features)
  /\ length features
     = length (if num_passes >? 1
               then RunClassifier.list_mul examples num_passes
               else examples).
Proof.
  intros Hguard Hfeatures Hrecords Hlen Hreg. split.
  - unfold RunClassifier.file_based_convert_examples_to_features.
    rewrite Hguard.
    rewrite (write_examples_run _ convert_single_example label_list
               max_seq_length tokenize_fn output_file _ 0 _ [] records).
    + cbn [snd app]. unfold RunClassifier.TFRecordWriter.
      rewrite insert_insert_eq.
      now apply float_writer_roundtrip.
    + unfold RunClassifier.TFRecordWriter. apply lookup_insert_eq.
    + now apply (mapM_record_of _ 0 features records).
  - rewrite (length_mapM_result _ _ _ Hfeatures). apply length_imap.
Qed.

End WriteThenRead.

(** ** What the reader gives *)

Lemma wrap32_range (z : Z) : - 2 ^ 31 <= RunClassifier.wrap32 z < 2 ^ 31.
Proof.
  unfold RunClassifier.wrap32.
  pose proof (Z.mod_pos_bound (z + 2 ^ 31) (2 ^ 32) ltac:(lia)). lia.
Qed.

Section Reader.

Context `{FM : FloatModel}.
Variable FLAGS : RunClassifier.flags.

Lemma parse_feature_inv (record : gmap string RunClassifier.Feature)
    (name : string) (spec : RunClassifier.FixedLenFeature)
    (t : RunClassifier.tensor) :
  RunClassifier.parse_feature record name spec = Ok t ->
  match RunClassifier.dtype_of spec with
  | RunClassifier.tf_int64 =>
      exists vs, record !! name = Some (RunClassifier.Int64List vs)
                 /\ length vs
                    = RunClassifier.num_elements (RunClassifier.shape spec)
                 /\ t = RunClassifier.IntTensor RunClassifier.tf_int64
                          (RunClassifier.shape spec) vs
  | RunClassifier.tf_float32 =>
      exists vs, record !! name = Some (RunClassifier.FloatList vs)
                 /\ length vs
                    = RunClassifier.num_elements (RunClassifier.shape spec)
                 /\ t = RunClassifier.FloatTensor (RunClassifier.shape spec) vs
  | RunClassifier.tf_int32 => False
  end.
Proof.
  unfold RunClassifier.parse_feature.
  destruct (record !! name) as [[vs|vs]|]; [| |discriminate];
    destruct (RunClassifier.dtype_of spec); try discriminate;
    destruct (Nat.eqb_spec (length vs)
                (RunClassifier.num_elements (RunClassifier.shape spec)));
    try discriminate; intros [= <-]; now exists vs.
Qed.

(** X13.  Whatever the record, what [_decode_record] gives for it under the
    schema of the reader has the five features and no other; no tensor of
    it is left at 64 bits, every integer of it fits in 32 bits; the ids and
    the segment ids are [seq_length] integers, the mask is [seq_length]
    floats, and the label is one float in the regression task and one
    integer otherwise.  The record then held the mask as a list of floats. *)
Theorem decode_record_shape (record : gmap string RunClassifier.Feature)
    (seq_length : nat) (ex : gmap string RunClassifier.tensor) :
  RunClassifier._decode_record
    record (RunClassifier.name_to_features FLAGS seq_length) = Ok ex ->
  (forall k, is_Some (ex !! k) <-> k ∈ RunClassifier.record_keys)
  /\ (forall k dt sh vals,
        ex !! k = Some (RunClassifier.IntTensor dt sh vals) ->
        dt = RunClassifier.tf_int32
        /\ Forall (fun z => - 2 ^ 31 <= z < 2 ^ 31) vals)
  /\ (exists ids mask seg real,
        ex !! "input_ids"
        = Some (RunClassifier.IntTensor RunClassifier.tf_int32
                                        [seq_length] ids)
        /\ length ids = seq_length
        /\ ex !! "input_mask"
           = Some (RunClassifier.FloatTensor [seq_length] mask)
        /\ length mask = seq_length
        /\ record !! "input_mask" = Some (RunClassifier.FloatList mask)
        /\ ex !! "segment_ids"
           = Some (RunClassifier.IntTensor RunClassifier.tf_int32
                                           [seq_length] seg)
        /\ length seg = seq_length
        /\ ex !! "is_real_example"
           = Some (RunClassifier.IntTensor RunClassifier.tf_int32 [] [real]))
  /\ (if RunClassifier.is_regression FLAGS
      then exists x, ex !! "label_ids"
                     = Some (RunClassifier.FloatTensor [] [x])
      else exists z, ex !! "label_ids"
                     = Some (RunClassifier.IntTensor RunClassifier.tf_int32
                                                     [] [z])).
Proof.
  unfold RunClassifier._decode_record.
  destruct (name_to_features_head FLAGS seq_length)
    as (label_spec & -> & ->).
  cbn [RunClassifier.parse_single_example].
  destruct (RunClassifier.parse_feature record "input_ids" _)
    as [t_ids|] eqn:Hids; [|discriminate].
  destruct (RunClassifier.parse_feature record "input_mask" _)
    as [t_mask|] eqn:Hmask; [|discriminate].
  destruct (RunClassifier.parse_feature record "segment_ids" _)
    as [t_seg|] eqn:Hseg; [|discriminate].
  destruct (RunClassifier.parse_feature record "label_ids" _)
    as [t_label|] eqn:Hlab; [|discriminate].
  destruct (RunClassifier.parse_feature record "is_real_example" _)
    as [t_real|] eqn:Hreal; [|discriminate].
  cbn [mbind result_bind]. intros [= <-].
  apply parse_feature_inv in Hids as (ids & _ & Lids & ->).
  apply parse_feature_inv in Hmask as (mask & Rmask & Lmask & ->).
  apply parse_feature_inv in Hseg as (seg & _ & Lseg & ->).
  apply parse_feature_inv in Hreal as (real & _ & Lreal & ->).
  apply parse_feature_inv in Hlab.
  cbn [RunClassifier.shape RunClassifier.dtype_of RunClassifier.num_elements
       fold_right] in *.
  rewrite Nat.mul_1_r in Lids, Lmask, Lseg.
  destruct real as [|real [|]]; try discriminate Lreal. clear Lreal.
  rewrite !fmap_insert, fmap_empty.
  cbn [RunClassifier.cast_to_int32 fmap list_fmap].
  assert (Hwrap : forall l : list Z,
            Forall (fun z => - 2 ^ 31 <= z < 2 ^ 31)
                   (RunClassifier.wrap32 <$> l)).
  { intros l. apply Forall_fmap, Forall_forall. intros z _.
    apply wrap32_range. }
  split; [|split; [|split]].
  - intros k. unfold RunClassifier.record_keys.
    rewrite !lookup_insert_is_Some, lookup_empty, is_Some_alt.
    rewrite !elem_of_cons, elem_of_nil. intuition congruence.
  - intros k dt sh vals.
    destruct (decide (k = "input_ids"%string)) as [->|H1].
    { rewrite lookup_insert_eq. intros [= <- <- <-]. auto. }
    rewrite lookup_insert_ne by done.
    destruct (decide (k = "input_mask"%string)) as [->|H2].
    { rewrite lookup_insert_eq. discriminate. }
    rewrite lookup_insert_ne by done.
    destruct (decide (k = "segment_ids"%string)) as [->|H3].
    { rewrite lookup_insert_eq. intros [= <- <- <-]. auto. }
    rewrite lookup_insert_ne by done.
    destruct (decide (k = "label_ids"%string)) as [->|H4].
    { rewrite lookup_insert_eq.
      destruct (RunClassifier.is_regression FLAGS).
      - destruct Hlab as (vs & _ & _ & ->). discriminate.
      - destruct Hlab as (vs & _ & _ & ->). cbn.
        intros [= <- <- <-]. split; [reflexivity|].
        apply (Hwrap vs). }
    rewrite lookup_insert_ne by done.
    destruct (decide (k = "is_real_example"%string)) as [->|H5].
    { rewrite lookup_insert_eq. intros [= <- <- <-].
      split; [reflexivity|]. apply (Hwrap [real]). }
    rewrite lookup_insert_ne by done. rewrite lookup_empty. discriminate.
  - exists (RunClassifier.wrap32 <$> ids), mask,
           (RunClassifier.wrap32 <$> seg), (RunClassifier.wrap32 real).
    rewrite !length_fmap.
    rewrite lookup_insert_eq.
    rewrite (lookup_insert_ne _ "input_ids" "input_mask") by done.
    rewrite lookup_insert_eq.
    rewrite !(lookup_insert_ne _ _ "segment_ids") by done.
    rewrite lookup_insert_eq.
    rewrite !(lookup_insert_ne _ _ "is_real_example") by done.
    rewrite lookup_insert_eq.
    repeat split; assumption.
  - rewrite !(lookup_insert_ne _ _ "label_ids") by done.
    rewrite lookup_insert_eq.
    destruct (RunClassifier.is_regression FLAGS).
    + destruct Hlab as ([|x [|]] & _ & Lx & ->); try discriminate Lx.
      now exists x.
    + destruct Hlab as ([|z [|]] & _ & Lz & ->); try discriminate Lz.
      now exists (RunClassifier.wrap32 z).
Qed.

End Reader.

(** ** The aligner, the evaluation steps and the batches *)

Lemma mod_opp_zero (n b : Z) : (n mod - b =? 0) = (n mod b =? 0).
Proof.
  destruct (Z.eq_dec b 0) as [->|Hb]; [reflexivity|].
  destruct (Z.eqb_spec (n mod b) 0) as [H|H].
  - apply Z.eqb_eq. apply Z.mod_opp_r_z; [lia|assumption].
  - apply Z.eqb_neq. intros H'. apply H.
    rewrite <- (Z.opp_involutive b). apply Z.mod_opp_r_z; [lia|assumption].
Qed.

(** A negative batch size aligns as its absolute value does. *)
Lemma pad_loop_opp (fuel : nat) :
  forall (E : list example) (b : Z),
    RunClassifier.pad_loop fuel E (- b) = RunClassifier.pad_loop fuel E b.
Proof.
  induction fuel as [|fuel IH]; intros E b; simpl;
    rewrite mod_opp_zero;
    (replace (- b =? 0) with (b =? 0)
      by (destruct (Z.eqb_spec b 0), (Z.eqb_spec (- b) 0); lia ));
    [reflexivity|].
  now rewrite IH.
Qed.

Lemma pad_to_batch_abs (E : list example) (b : Z) :
  b <> 0 ->
  RunClassifier.pad_to_batch E b
  = Some (Ok (E ++ replicate (padding_needed (length E) (Z.abs b))
                             PaddingInputExample)).
Proof.
  intros Hb. unfold RunClassifier.pad_to_batch.
  assert (Habs : RunClassifier.pad_loop (Z.to_nat (Z.abs b)) E b
                 = RunClassifier.pad_loop (Z.to_nat (Z.abs b)) E (Z.abs b)).
  { destruct (Z.abs_spec b) as [[_ ->]|[_ ->]]; [reflexivity|].
    now rewrite pad_loop_opp. }
  rewrite Habs. apply pad_loop_enough; [lia|].
  pose proof (padding_needed_lt (Z.abs b) ltac:(lia) (length E)). lia.
Qed.

(** X14.  After the aligner, [eval_steps] counts the batches exactly: for a
    batch size other than zero the aligner ends, the assertion on the
    length holds, and [eval_steps] times the batch size is the length of
    the padded list; for a positive batch size that is the number of
    examples divided by the batch size and rounded up, for a negative one
    it is not positive.  With a batch size of zero the aligner raises
    [ZeroDivisionError]. *)
Theorem eval_steps_after_padding (E : list example) (b : Z) :
  (b = 0 ->
   RunClassifier.pad_to_batch E b = Some (Raise ZeroDivisionError)
   /\ RunClassifier.eval_steps E b = Raise ZeroDivisionError)
  /\ (b <> 0 ->
      exists (k : nat) (steps : Z),
        RunClassifier.pad_to_batch E b
        = Some (Ok (E ++ replicate k PaddingInputExample))
        /\ Z.of_nat k < Z.abs b
        /\ Z.of_nat (length (E ++ replicate k PaddingInputExample)) mod b = 0
        /\ RunClassifier.eval_steps (E ++ replicate k PaddingInputExample) b
           = Ok steps
        /\ steps * b
           = Z.of_nat (length (E ++ replicate k PaddingInputExample))
        /\ (0 < b -> steps = (Z.of_nat (length E) + b - 1) / b)
        /\ (b < 0 -> steps <= 0)).
Proof.
  split.
  - intros ->. split; [|reflexivity].
    unfold RunClassifier.pad_to_batch. reflexivity.
  - intros Hb. exists (padding_needed (length E) (Z.abs b)).
    pose proof (padding_needed_lt (Z.abs b) ltac:(lia) (length E)) as Hlt.
    pose proof (padding_needed_aligned (Z.abs b) ltac:(lia) (length E))
      as Hal.
    set (k := padding_needed (length E) (Z.abs b)) in *.
    assert (Hlen : length (E ++ replicate k PaddingInputExample)
                   = (length E + k)%nat)
      by now rewrite length_app, length_replicate.
    rewrite Hlen.
    assert (Hmod : Z.of_nat (length E + k) mod b = 0).
    { destruct (Z.abs_spec b) as [[_ Heq]|[_ Heq]]; rewrite Heq in Hal;
        [exact Hal|].
      apply Z.eqb_eq. rewrite <- mod_opp_zero. now apply Z.eqb_eq. }
    exists (Z.of_nat (length E + k) / b).
    split; [now apply pad_to_batch_abs|].
    split; [exact Hlt|]. split; [exact Hmod|].
    split.
    { unfold RunClassifier.eval_steps.
      destruct (Z.eqb_spec b 0) as [?|_]; [contradiction|].
      now rewrite Hlen. }
    split.
    { pose proof (Z.div_mod (Z.of_nat (length E + k)) b Hb). lia. }
    split.
    + intros Hpos. rewrite Z.abs_eq in Hlt by lia.
      pose proof (Z.div_mod (Z.of_nat (length E + k)) b Hb) as Hdm.
      rewrite Hmod in Hdm. clearbody k.
      set (q := Z.of_nat (length E + k) / b) in *.
      apply (Z.div_unique_pos _ _ _ (Z.of_nat (length E) + b - 1 - b * q));
        lia.
    + intros Hneg.
      pose proof (Z.div_mod (Z.of_nat (length E + k)) b Hb) as Hdm.
      rewrite Hmod in Hdm. clearbody k.
      set (q := Z.of_nat (length E + k) / b) in *. nia.
Qed.

Lemma div_step (n b : nat) :
  (0 < b)%nat -> (b <= n)%nat -> (n / b = S ((n - b) / b))%nat.
Proof.
  intros Hb Hn. replace n with ((n - b) + 1 * b)%nat at 1 by lia.
  rewrite Nat.div_add by lia. lia.
Qed.

Lemma batches_spec {X} (b : nat) (drop_remainder : bool) :
  (0 < b)%nat ->
  forall (fuel : nat) (records : list X),
    (length records <= fuel)%nat ->
    mjoin (RunClassifier.batches fuel b drop_remainder records)
    = (if drop_remainder
       then take (length records / b * b) records
       else records)
    /\ (drop_remainder = true ->
        Forall (fun batch => length batch = b)
               (RunClassifier.batches fuel b drop_remainder records)
        /\ length (RunClassifier.batches fuel b drop_remainder records)
           = (length records / b)%nat).
Proof.
  intros Hb. induction fuel as [|fuel IH]; intros records Hfuel.
  - destruct records; [|simpl in Hfuel; lia]. simpl.
    rewrite Nat.Div0.div_0_l.
    destruct drop_remainder; repeat split; constructor.
  - cbn [RunClassifier.batches]. destruct records as [|r records'].
    { simpl. rewrite Nat.Div0.div_0_l.
      destruct drop_remainder; repeat split; constructor. }
    set (records := r :: records') in *.
    destruct (Nat.ltb_spec (length records) b) as [Hshort|Hlong].
    + rewrite Nat.div_small by assumption.
      destruct drop_remainder; simpl.
      * repeat split; constructor.
      * rewrite app_nil_r. split; [reflexivity|discriminate].
    + destruct (IH (drop b records)) as [Hjoin Hdrop].
      { rewrite length_drop. subst records. simpl in *. lia. }
      rewrite length_drop in Hjoin, Hdrop.
      rewrite (div_step (length records) b) by assumption.
      split.
      * simpl mjoin. rewrite Hjoin. destruct drop_remainder.
        -- replace (S ((length records - b) / b) * b)%nat
             with (b + (length records - b) / b * b)%nat by lia.
           now rewrite take_take_drop.
        -- apply take_drop.
      * intros Hd. destruct (Hdrop Hd) as [Hall Hlen]. split.
        -- constructor; [|exact Hall]. rewrite length_take. lia.
        -- simpl. now rewrite Hlen.
Qed.

(** X15.  The batches of the evaluation and of the prediction.  With a
    positive batch size [map_and_batch] cuts the records of the file, in
    order, into groups of that size: with [drop_remainder] every batch is
    full and the last [len mod batch_size] records are left out, without it
    no record is left out.  On a file with one record per example of the
    aligned list, as many as [eval_steps] batches come out, all full, and
    no record is left out. *)
Theorem eval_batches_cover_records {X} (E : list example) (b : Z)
    (records : list X) :
  0 < b ->
  exists (k : nat) (dropped kept : list (list X)),
    RunClassifier.pad_to_batch E b
    = Some (Ok (E ++ replicate k PaddingInputExample))
    /\ RunClassifier.map_and_batch b true records = Ok dropped
    /\ RunClassifier.map_and_batch b false records = Ok kept
    /\ mjoin kept = records
    /\ mjoin dropped
       = take (length records - length records mod Z.to_nat b) records
    /\ Forall (fun batch => Z.of_nat (length batch) = b) dropped
    /\ (length records = length (E ++ replicate k PaddingInputExample) ->
        mjoin dropped = records
        /\ RunClassifier.eval_steps (E ++ replicate k PaddingInputExample) b
           = Ok (Z.of_nat (length dropped))).
Proof.
  intros Hb. exists (padding_needed (length E) b).
  pose proof (padding_needed_aligned b Hb (length E)) as Hal.
  set (k := padding_needed (length E) b) in *.
  unfold RunClassifier.map_and_batch.
  destruct (Z.leb_spec b 0) as [?|_]; [lia|].
  assert (Hbn : (0 < Z.to_nat b)%nat) by lia.
  destruct (batches_spec (X := X) (Z.to_nat b) true Hbn (length records)
              records (le_n _)) as [Hjoin Hfull].
  destruct (Hfull eq_refl) as [Hall Hcount]. clear Hfull.
  destruct (batches_spec (X := X) (Z.to_nat b) false Hbn (length records)
              records (le_n _)) as [Hkept _].
  exists (RunClassifier.batches (length records) (Z.to_nat b) true records),
         (RunClassifier.batches (length records) (Z.to_nat b) false records).
  assert (Hdm : (length records / Z.to_nat b * Z.to_nat b
                 = length records - length records mod Z.to_nat b)%nat).
  { pose proof (Nat.div_mod_eq (length records) (Z.to_nat b)). lia. }
  split.
  { rewrite pad_to_batch_abs, Z.abs_eq by lia. reflexivity. }
  split; [reflexivity|]. split; [reflexivity|].
  split; [exact Hkept|].
  split; [now rewrite Hjoin, Hdm|].
  split.
  { eapply Forall_impl; [exact Hall|]. simpl. intros batch ->. lia. }
  intros Hlen.
  assert (Hlen' : length records = (length E + k)%nat)
    by now rewrite Hlen, length_app, length_replicate.
  assert (Hmod : (length records mod Z.to_nat b = 0)%nat).
  { apply Nat2Z.inj. rewrite Nat2Z.inj_mod, Z2Nat.id, Hlen' by lia.
    exact Hal. }
  split.
  - rewrite Hjoin, Hdm, Hmod, Nat.sub_0_r. apply firstn_all.
  - unfold RunClassifier.eval_steps.
    destruct (Z.eqb_spec b 0) as [?|_]; [lia|].
    rewrite Hcount, <- Hlen, Nat2Z.inj_div, Z2Nat.id by lia. reflexivity.
Qed.

(** ** The further properties on the sample inputs *)

Lemma glue_train_rows_witness :
  "dev"%string <> "test"%string
  /\ - (8 + 1) <= -1
  /\ exists exs log,
       RunClassifier.GLUEProcessor._create_examples
         RunClassifier.MnliMatchedProcessor mnli_rows "dev"
       = Ok (exs, log)
       /\ length exs
          = length (filter (fun row =>
                      RunClassifier.GLUEProcessor.row_complete
                        8 (RunClassifier.GLUEProcessor.text_b_column
                             RunClassifier.MnliMatchedProcessor) (-1) row
                      = true)
                      (drop (if RunClassifier.GLUEProcessor.contains_header
                                  RunClassifier.MnliMatchedProcessor
                             then 1 else 0)%nat mnli_rows))
       /\ (length exs + length log
           = length (drop (if RunClassifier.GLUEProcessor.contains_header
                                RunClassifier.MnliMatchedProcessor
                           then 1 else 0)%nat mnli_rows))%nat
       /\ Forall (fun msg => msg = RunClassifier.GLUEProcessor.warning) log.
Proof.
  split; [discriminate|]. split; [lia|].
  apply (glue_train_rows RunClassifier.MnliMatchedProcessor mnli_rows "dev"
                         8 (-1)).
  - discriminate.
  - reflexivity.
  - lia.
  - intros b [= <-]. lia.
  - reflexivity.
  - lia.
Defined.

Lemma glue_test_rows_witness :
  RunClassifier.GLUEProcessor.test_text_a_column
    RunClassifier.MnliMatchedProcessor = None
  /\ exists self' exs log,
       RunClassifier.GLUEProcessor.get_test_examples
         RunClassifier.MnliMatchedProcessor mnli_rows
       = (self', Ok (exs, log))
       /\ RunClassifier.GLUEProcessor.test_text_a_column self' = Some 8
       /\ RunClassifier.GLUEProcessor.test_text_b_column self'
          = RunClassifier.GLUEProcessor.text_b_column
              RunClassifier.MnliMatchedProcessor
       /\ (length exs + length log
           = length (drop (if RunClassifier.GLUEProcessor.test_contains_header
                                RunClassifier.MnliMatchedProcessor
                           then 1 else 0)%nat mnli_rows))%nat
       /\ Forall (fun msg => msg = RunClassifier.GLUEProcessor.warning) log
       /\ Forall (fun e => label e = VStr "contradiction") exs.
Proof.
  split; [reflexivity|].
  apply (glue_test_rows RunClassifier.MnliMatchedProcessor mnli_rows 8
                        "contradiction" ["entailment"; "neutral"]%string).
  - reflexivity.
  - lia.
  - intros b [= <-]. lia.
  - reflexivity.
  - reflexivity.
  - reflexivity.
Defined.

Lemma cu_tnews_train_witness :
  "train"%string <> "test"%string
  /\ ((exists exs,
         ClassifierUtils.TnewsProcessor.Json._create_examples
           tnews_train_json "train" = Ok exs)
      <-> Forall (fun line => object_with_text "sentence" line
                              /\ object_with_text "label" line)
                 tnews_train_json)
  /\ (forall exs,
        ClassifierUtils.TnewsProcessor.Json._create_examples
          tnews_train_json "train" = Ok exs ->
        exs = imap (fun i line =>
                mkInputExample (format_guid "train" i)
                  (VStr (text_at "sentence" (fields line))) VNone
                  (VStr (text_at "label" (fields line))))
                   tnews_train_json)
  /\ ClassifierUtils.TnewsProcessor.Json._create_examples
       tnews_train_json "train"
     = Ok tnews_train_examples.
Proof.
  split; [discriminate|].
  destruct (cu_tnews_train tnews_train_json "train" ltac:(discriminate))
    as (Hiff & Hexs & _).
  split; [exact Hiff|]. split; [exact Hexs|]. reflexivity.
Defined.

Lemma cu_json_guids_witness :
  ClassifierUtils.TnewsProcessor._create_examples tnews_train_lines "train"
  = Ok tnews_train_examples
  /\ guid <$> tnews_train_examples
     = format_guid "train" <$> seq 0 (length tnews_train_lines)
  /\ NoDup (guid <$> tnews_train_examples)
  /\ length tnews_train_examples = length tnews_train_lines.
Proof.
  assert (H : ClassifierUtils.TnewsProcessor._create_examples
                tnews_train_lines "train" = Ok tnews_train_examples)
    by reflexivity.
  split; [exact H|].
  apply (cu_json_guids tnews_train_lines "train" tnews_train_examples).
  right. left. exact H.
Defined.

Lemma writers_touch_one_file_witness :
  "train.tf_record"%string <> "dev.tf_record"%string
  /\ (RunClassifier.file_based_convert_examples_to_features
        (FM := integral_floats) _ sample_convert sample_flags one_example
        (Some ["0"; "1"]%string) 6 char_tokenize "dev.tf_record" 1
        (<["train.tf_record"%string := [float_record]]> ∅)).2
     !! "train.tf_record"%string
     = (<["train.tf_record"%string := [float_record]]> ∅ : gmap _ _)
       !! "train.tf_record"%string
  /\ (RunClassifier.file_based_convert_examples_to_features_for_inews
        (FM := integral_floats) _ sample_convert_inews one_example
        (Some ["0"; "1"]%string) 6 char_tokenize "dev.tf_record" 1
        (<["train.tf_record"%string := [float_record]]> ∅)).2
     !! "train.tf_record"%string
     = (<["train.tf_record"%string := [float_record]]> ∅ : gmap _ _)
       !! "train.tf_record"%string.
Proof.
  split; [discriminate|].
  apply (writers_touch_one_file (string -> result (list Z)) sample_convert
           sample_convert_inews sample_flags (Some ["0"; "1"]%string) 6
           char_tokenize "dev.tf_record" one_example 1
           (<["train.tf_record"%string := [float_record]]> ∅)
           "train.tf_record").
  discriminate.
Defined.

Lemma inews_writer_records_witness :
  mapM id (imap (fun k e =>
                   sample_convert_inews k e (Some ["0"; "1"]%string) 6
                                        char_tokenize)
                (if 1 >? 1 then RunClassifier.list_mul one_example 1
                 else one_example))
  = Ok [[sample_feature]]
  /\ mapM (RunClassifier.record_of_inews (H := integral_floats))
          (mjoin [[sample_feature]])
     = Ok [inews_record]
  /\ RunClassifier.file_based_convert_examples_to_features_for_inews
       (FM := integral_floats) _ sample_convert_inews one_example
       (Some ["0"; "1"]%string) 6 char_tokenize "dev.tf_record" 1 ∅
     = (Ok (),
        if 1 >? 1 then RunClassifier.list_mul one_example 1 else one_example,
        <["dev.tf_record"%string := [inews_record]]> ∅)
  /\ length [inews_record] = length (mjoin [[sample_feature]])
  /\ Forall (fun r : gmap string (@RunClassifier.Feature integral_floats) =>
               forall k,
                 is_Some (r !! k) <-> k ∈ RunClassifier.record_keys)
            [inews_record].
Proof.
  assert (H1 : mapM id (imap (fun k e =>
                   sample_convert_inews k e (Some ["0"; "1"]%string) 6
                                        char_tokenize)
                (if 1 >? 1 then RunClassifier.list_mul one_example 1
                 else one_example))
               = Ok [[sample_feature]]) by reflexivity.
  assert (H2 : mapM (RunClassifier.record_of_inews (H := integral_floats))
                    (mjoin [[sample_feature]])
               = Ok [inews_record]) by reflexivity.
  split; [exact H1|]. split; [exact H2|].
  exact (inews_writer_records (string -> result (list Z))
           sample_convert_inews (Some ["0"; "1"]%string) 6 char_tokenize
           "dev.tf_record" one_example 1 ∅ [[sample_feature]]
           [inews_record] H1 H2).
Defined.

Lemma write_then_read_witness :
  RunClassifier.Exists_ (H := integral_floats) "dev.tf_record" ∅
  && negb (RunClassifier.overwrite_data sample_flags) = false
  /\ mapM (RunClassifier.to_record (FM := integral_floats)
             (Some ["0"; "1"]%string)) [sample_feature]
     = Ok [float_record]
  /\ RunClassifier.read_records (FM := integral_floats) sample_flags
       "dev.tf_record" 6
       (RunClassifier.file_based_convert_examples_to_features
          (FM := integral_floats) _ sample_convert sample_flags one_example
          (Some ["0"; "1"]%string) 6 char_tokenize "dev.tf_record" 1 ∅).2
     = Ok (RunClassifier.tensors_of (Some ["0"; "1"]%string) 6
             <$> [sample_feature])
  /\ length [sample_feature]
     = length (if 1 >? 1 then RunClassifier.list_mul one_example 1
               else one_example).
Proof.
  assert (H1 : RunClassifier.Exists_ (H := integral_floats)
                 "dev.tf_record" ∅
               && negb (RunClassifier.overwrite_data sample_flags) = false)
    by reflexivity.
  assert (H2 : mapM id (imap (fun k e =>
                   sample_convert k e (Some ["0"; "1"]%string) 6
                                  char_tokenize)
                (if 1 >? 1 then RunClassifier.list_mul one_example 1
                 else one_example))
               = Ok [sample_feature]) by reflexivity.
  assert (H3 : mapM (RunClassifier.to_record (FM := integral_floats)
                       (Some ["0"; "1"]%string)) [sample_feature]
               = Ok [float_record]) by reflexivity.
  split; [exact H1|]. split; [exact H3|].
  apply (write_then_read (string -> result (list Z)) sample_convert
           sample_flags (Some ["0"; "1"]%string) 6 char_tokenize
           "dev.tf_record" one_example 1 ∅ [sample_feature] [float_record]
           6%nat H1 H2 H3).
  - repeat constructor.
  - reflexivity.
Defined.

Lemma decode_record_shape_witness :
  RunClassifier._decode_record (FM := integral_floats) float_record
    (RunClassifier.name_to_features sample_flags 6)
  = Ok (RunClassifier.tensors_of (Some ["0"; "1"]%string) 6 sample_feature)
  /\ exists ids mask seg real,
       RunClassifier.tensors_of (FM := integral_floats)
         (Some ["0"; "1"]%string) 6 sample_feature !! "input_ids"%string
       = Some (RunClassifier.IntTensor RunClassifier.tf_int32 [6%nat] ids)
       /\ length ids = 6%nat
       /\ RunClassifier.tensors_of (FM := integral_floats)
            (Some ["0"; "1"]%string) 6 sample_feature !! "input_mask"%string
          = Some (RunClassifier.FloatTensor [6%nat] mask)
       /\ length mask = 6%nat
       /\ float_record !! "input_mask"%string
          = Some (RunClassifier.FloatList mask)
       /\ RunClassifier.tensors_of (FM := integral_floats)
            (Some ["0"; "1"]%string) 6 sample_feature !! "segment_ids"%string
          = Some (RunClassifier.IntTensor RunClassifier.tf_int32 [6%nat] seg)
       /\ length seg = 6%nat
       /\ RunClassifier.tensors_of (FM := integral_floats)
            (Some ["0"; "1"]%string) 6 sample_feature
          !! "is_real_example"%string
          = Some (RunClassifier.IntTensor RunClassifier.tf_int32 [] [real]).
Proof.
  assert (H : RunClassifier._decode_record (FM := integral_floats)
                float_record (RunClassifier.name_to_features sample_flags 6)
              = Ok (RunClassifier.tensors_of (Some ["0"; "1"]%string) 6
                                             sample_feature)).
  { apply (float_writer_record_decodes sample_flags (Some ["0"; "1"]%string)
             sample_feature float_record 6); reflexivity. }
  split; [exact H|].
  exact (proj1 (proj2 (proj2 (decode_record_shape sample_flags float_record 6
                                _ H)))).
Defined.

Lemma eval_batches_cover_records_witness :
  0 < 4
  /\ exists (k : nat) (dropped kept : list (list nat)),
       RunClassifier.pad_to_batch ten_examples 4
       = Some (Ok (ten_examples ++ replicate k PaddingInputExample))
       /\ RunClassifier.map_and_batch 4 true (seq 0 12) = Ok dropped
       /\ RunClassifier.map_and_batch 4 false (seq 0 12) = Ok kept
       /\ mjoin kept = seq 0 12
       /\ mjoin dropped
          = take (length (seq 0 12) - length (seq 0 12) mod Z.to_nat 4)
                 (seq 0 12)
       /\ Forall (fun batch => Z.of_nat (length batch) = 4) dropped
       /\ (length (seq 0 12)
           = length (ten_examples ++ replicate k PaddingInputExample) ->
           mjoin dropped = seq 0 12
           /\ RunClassifier.eval_steps
                (ten_examples ++ replicate k PaddingInputExample) 4
              = Ok (Z.of_nat (length dropped))).
Proof.
  split; [lia|].
  apply (eval_batches_cover_records ten_examples 4 (seq 0 12)). lia.
Defined.

Lemma writer_second_call_witness :
  RunClassifier.overwrite_data sample_flags = false
  /\ RunClassifier.file_based_convert_examples_to_features
       (FM := integral_floats) _ sample_convert sample_flags
       (RunClassifier.list_mul two_examples 2)
       (Some ["0"; "1"]%string) 6 char_tokenize "train.tf_record" 2
       (<["train.tf_record"%string := two_pass_records]> ∅)
     = (Ok (), RunClassifier.list_mul two_examples 2,
        <["train.tf_record"%string := two_pass_records]> ∅).
Proof.
  split; [reflexivity|].
  apply (writer_second_call (string -> result (list Z)) sample_convert
           sample_flags (Some ["0"; "1"]%string) 6 char_tokenize
           "train.tf_record" two_examples 2 ∅ eq_refl (Ok ())).
  reflexivity.
Defined.
